(** * time-tracker: the time-aggregation functions of the React front ends

    The repository ships three variants of one component, [TimeTracker]:
    - [src/App.jsx]: entries kept in component state and localStorage;
    - [src/components/TimeTracker.jsx]: entries loaded from Supabase;
    - a REST variant that only validates the form and delegates the
      analytics to a backend.

    This development embeds the pure computations of the first two
    ([calculateDuration], [addEntry], [getEntriesForDate], [getTotalsByTag],
    [getTotalsByCategory], [getWeeklyAverages]) and the form validation of
    the third, together with the part of the ECMAScript [Date] object they
    rely on, and proves their properties.  It goes on with the display,
    tracking, deletion and CSV functions of [src/App.jsx] ([formatTime],
    [startTracking], [stopTracking], [deleteEntry], [exportData],
    [importData]) and with what [addEntry] of the Supabase variant does
    before and after its request.

    Conventions.
    - A JavaScript number is [Num z] for an integer [z], or [NaN].  Every
      number the modelled code handles is an integer (time values in
      milliseconds, minutes) except the two quotients that are immediately
      passed to [Math.round]; those are modelled by [Math_round_div], which
      rounds the exact quotient.  The integers stand for doubles: the
      identification is exact on the safe integers, up to 2^53 - 1 in
      absolute value, which covers every time value of [Date]; what is
      said of the text of a number is said of safe integers.
    - A JavaScript string is a [string]: one character per code unit, the
      code units being those below 256.
    - An object created as [{}] and used as a dictionary is the [gmap] of
      its own properties, read and written through [Object_get] and
      [Object_set], which account for [Object.prototype].
    - [Date] follows ECMA-262: time values are clipped to 100,000,000 days
      on either side of the epoch, and a string outside the date-time
      string format is read as the host pleases ([parseOther]).
    - A function body that may raise is a [completion].
    - The functions are closures of the component: the state they read
      ([entries], [selectedDate], the form fields) and the ambient clock
      and zone ([Env]) are passed explicitly. *)

From Stdlib Require Import ZArith Lia List Ascii String Sorting.Sorted Permutation.
From stdpp Require Import base gmap strings list fin_maps pretty.

Local Open Scope Z_scope.

(** ** Numbers and completions *)

Module JS.

Inductive number : Type :=
| Num (z : Z)
| NaN.

Inductive completion (A : Type) : Type :=
| Normal (a : A)
| Throw (err : string).

Arguments Normal {A} a.
Arguments Throw {A} err.

Definition bind {A B} (c : completion A) (k : A -> completion B) : completion B :=
  match c with
  | Normal a => k a
  | Throw e => Throw e
  end.

Definition is_num (n : number) : Prop :=
  match n with Num _ => True | NaN => False end.

(** [Number.MAX_SAFE_INTEGER], 2^53 - 1, and [Number.isSafeInteger]: the
    integers on which the arithmetic of doubles is that of the integers,
    and which [String] writes in decimal digits. *)
Definition Number_MAX_SAFE_INTEGER : Z := 9007199254740991.


(** [a + b], [a - b] on numbers. *)
Definition num_add (a b : number) : number :=
  match a, b with
  | Num x, Num y => Num (x + y)
  | _, _ => NaN
  end.

Definition num_sub (a b : number) : number :=
  match a, b with
  | Num x, Num y => Num (x - y)
  | _, _ => NaN
  end.

(** [a < b]: false as soon as one side is [NaN]. *)
Definition num_lt (a b : number) : bool :=
  match a, b with
  | Num x, Num y => x <? y
  | _, _ => false
  end.

(** [a <= b], used to state orderings. *)
Definition num_le (a b : number) : bool :=
  match a, b with
  | Num x, Num y => x <=? y
  | _, _ => false
  end.

(** [v || 0] for a property read [v] that is [undefined] ([None]) or a
    number: [undefined], [NaN] and [0] are falsy. *)
Definition or_zero (v : option number) : number :=
  match v with
  | Some (Num z) => if z =? 0 then Num 0 else Num z
  | Some NaN => Num 0
  | None => Num 0
  end.

(** [Math.round(x / d)] for a positive integer constant [d]:
    the nearest integer to the quotient, ties towards +infinity. *)
Definition round_div (z d : Z) : Z := (2 * z + d) / (2 * d).

Definition Math_round_div (x : number) (d : Z) : number :=
  match x with
  | Num z => Num (round_div z d)
  | NaN => NaN
  end.

(** ** ECMAScript day and time arithmetic (ECMA-262, Date objects) *)

Definition msPerSecond : Z := 1000.
Definition msPerMinute : Z := 60000.
Definition msPerHour : Z := 3600000.
Definition msPerDay : Z := 86400000.

Definition Day (t : Z) : Z := t / msPerDay.
Definition TimeWithinDay (t : Z) : Z := t mod msPerDay.

Definition DaysInYear (y : Z) : Z :=
  if negb (y mod 4 =? 0) then 365
  else if negb (y mod 100 =? 0) then 366
  else if negb (y mod 400 =? 0) then 365
  else 366.

Definition DayFromYear (y : Z) : Z :=
  365 * (y - 1970) + (y - 1969) / 4 - (y - 1901) / 100 + (y - 1601) / 400.

Definition TimeFromYear (y : Z) : Z := msPerDay * DayFromYear y.

(** The largest [y] with [TimeFromYear y <= t]: an estimate from the mean
    length of a Gregorian year, corrected by at most one. *)
Definition YearFromDay (d : Z) : Z :=
  let y := 1970 + (d * 400) / 146097 in
  if d <? DayFromYear y then y - 1
  else if DayFromYear (y + 1) <=? d then y + 1
  else y.

Definition YearFromTime (t : Z) : Z := YearFromDay (Day t).

Definition InLeapYear (t : Z) : Z :=
  if DaysInYear (YearFromTime t) =? 366 then 1 else 0.

Definition DayWithinYear (t : Z) : Z := Day t - DayFromYear (YearFromTime t).

(** Day within the year on which month [m] (0 = January) starts. *)
Definition monthStart (m leap : Z) : Z :=
  match m with
  | 0 => 0
  | 1 => 31
  | 2 => 59 + leap
  | 3 => 90 + leap
  | 4 => 120 + leap
  | 5 => 151 + leap
  | 6 => 181 + leap
  | 7 => 212 + leap
  | 8 => 243 + leap
  | 9 => 273 + leap
  | 10 => 304 + leap
  | _ => 334 + leap
  end.

Definition monthOfDay (d leap : Z) : Z :=
  if d <? 31 then 0
  else if d <? 59 + leap then 1
  else if d <? 90 + leap then 2
  else if d <? 120 + leap then 3
  else if d <? 151 + leap then 4
  else if d <? 181 + leap then 5
  else if d <? 212 + leap then 6
  else if d <? 243 + leap then 7
  else if d <? 273 + leap then 8
  else if d <? 304 + leap then 9
  else if d <? 334 + leap then 10
  else 11.

Definition MonthFromTime (t : Z) : Z := monthOfDay (DayWithinYear t) (InLeapYear t).

Definition DateFromTime (t : Z) : Z :=
  DayWithinYear t - monthStart (MonthFromTime t) (InLeapYear t) + 1.

Definition HourFromTime (t : Z) : Z := (t / msPerHour) mod 24.
Definition MinFromTime (t : Z) : Z := (t / msPerMinute) mod 60.
Definition SecFromTime (t : Z) : Z := (t / msPerSecond) mod 60.
Definition msFromTime (t : Z) : Z := t mod msPerSecond.

Definition MakeTime (hour min sec ms : Z) : Z :=
  hour * msPerHour + min * msPerMinute + sec * msPerSecond + ms.

(** [MakeDay]: the day number of the first of the month, plus [date - 1]. *)
Definition MakeDay (year month date : Z) : Z :=
  let ym := year + month / 12 in
  let mn := month mod 12 in
  let leap := if DaysInYear ym =? 366 then 1 else 0 in
  DayFromYear ym + monthStart mn leap + date - 1.

Definition MakeDate (day time : Z) : Z := day * msPerDay + time.

(** Time values run from -8.64e15 to 8.64e15 ms (100,000,000 days on
    either side of the epoch); [TimeClip] gives [NaN] outside. *)
Definition maxTime : Z := 8640000000000000.

Definition TimeClip (t : Z) : number :=
  if (- maxTime <=? t) && (t <=? maxTime) then Num t else NaN.

(** The host, as far as [Date] depends on it.  Its local time zone is
    [LocalTZA(t, isUTC)] of ECMA-262, the offset in milliseconds of local
    time from UTC, asked either at a UTC time value or at a local one; an
    offset is less than a day.  [parseOther] is what the host makes of a
    string outside the date-time string format, for which ECMA-262 leaves
    [Date.parse] to the implementation: a time value or [NaN]. *)
Record Zone : Type := {
  LocalTZA_utc : Z -> Z;
  LocalTZA_local : Z -> Z;
  parseOther : string -> number;
  LocalTZA_utc_lt_day : forall t, Z.abs (LocalTZA_utc t) < msPerDay;
  LocalTZA_local_lt_day : forall t, Z.abs (LocalTZA_local t) < msPerDay
}.

Definition LocalTime (z : Zone) (t : Z) : Z := t + LocalTZA_utc z t.
Definition UTC (z : Zone) (t : Z) : Z := t - LocalTZA_local z t.

(** A zone whose offset never changes (no daylight-saving transitions). *)
Definition fixed_offset (z : Zone) (off : Z) : Prop :=
  (forall t, LocalTZA_utc z t = off) /\ (forall t, LocalTZA_local z t = off).

(** Such a zone, on a host that reads no string outside the format. *)
Definition fixedZone (off : Z) (Hoff : Z.abs off < msPerDay) : Zone :=
  {| LocalTZA_utc := fun _ => off;
     LocalTZA_local := fun _ => off;
     parseOther := fun _ => NaN;
     LocalTZA_utc_lt_day := fun _ => Hoff;
     LocalTZA_local_lt_day := fun _ => Hoff |}.

Definition utcZone : Zone := fixedZone 0 eq_refl.

(** ** Date-time strings

    [new Date(s)] for a string follows the ECMAScript date-time string
    format: [YYYY], [YYYY-MM] or [YYYY-MM-DD] (or an expanded year
    [+YYYYYY], [-YYYYYY]), optionally followed by [T], [HH:mm], optional
    [:ss], optional [.sss] and an optional offset [Z] or [+HH:mm], [-HH:mm].
    Without an offset a date-time form is local time and a date-only form is
    UTC.  [parseFormat] reads the strings of the format whose fields are in
    range, the day within the length of the month; every other string is
    left to the host ([parseOther]), since engines differ on them.  The
    time value found is clipped: a date beyond the range of time values is
    the invalid date, whose time value is [NaN]. *)

Definition digit (c : ascii) : option Z :=
  let n := Z.of_N (N_of_ascii c) in
  if (48 <=? n) && (n <=? 57) then Some (n - 48) else None.

(** Reads exactly [n] decimal digits. *)
Fixpoint read_digits (n : nat) (s : string) (acc : Z) : option (Z * string) :=
  match n with
  | O => Some (acc, s)
  | S n' =>
      match s with
      | String c s' =>
          match digit c with
          | Some d => read_digits n' s' (10 * acc + d)
          | None => None
          end
      | EmptyString => None
      end
  end.

Definition expect (sep : ascii) (s : string) : option string :=
  match s with
  | String c s' => if Ascii.eqb c sep then Some s' else None
  | EmptyString => None
  end.

(** An optional field [sep digits]; [dflt] when the separator is absent. *)
Definition read_opt_field (sep : ascii) (n : nat) (dflt : Z) (s : string)
  : option (Z * string) :=
  match s with
  | String c s' => if Ascii.eqb c sep then read_digits n s' 0 else Some (dflt, s)
  | EmptyString => Some (dflt, s)
  end.

Definition read_year (s : string) : option (Z * string) :=
  match s with
  | String c s' =>
      if Ascii.eqb c "+" then read_digits 6 s' 0
      else if Ascii.eqb c "-" then
        match read_digits 6 s' 0 with
        | Some (y, r) => if y =? 0 then None else Some (- y, r)
        | None => None
        end
      else read_digits 4 s 0
  | EmptyString => None
  end.

(** The length of month [m] (1-12) of year [y]. *)
Definition daysInMonth (y m : Z) : Z :=
  match m with
  | 2 => if DaysInYear y =? 366 then 29 else 28
  | 4 | 6 | 9 | 11 => 30
  | _ => 31
  end.

(** The date part: (year, month 1-12, day of that month) and the unread
    rest. *)
Definition parseDatePart (s : string) : option (Z * Z * Z * string) :=
  match read_year s with
  | Some (y, r1) =>
      match read_opt_field "-" 2 1 r1 with
      | Some (m, r2) =>
          match read_opt_field "-" 2 1 r2 with
          | Some (d, r3) =>
              if (1 <=? m) && (m <=? 12) && (1 <=? d) && (d <=? daysInMonth y m)
              then Some (y, m, d, r3) else None
          | None => None
          end
      | None => None
      end
  | None => None
  end.

(** The offset suffix: [None] when absent, else the offset in ms. *)
Definition read_zone (s : string) : option (option Z) :=
  match s with
  | EmptyString => Some None
  | String c s' =>
      if Ascii.eqb c "Z" then
        match s' with EmptyString => Some (Some 0) | _ => None end
      else if Ascii.eqb c "+" || Ascii.eqb c "-" then
        match read_digits 2 s' 0 with
        | Some (h, r) =>
            match expect ":" r with
            | Some r' =>
                match read_digits 2 r' 0 with
                | Some (m, EmptyString) =>
                    if (h <=? 23) && (m <=? 59) then
                      let off := h * msPerHour + m * msPerMinute in
                      Some (Some (if Ascii.eqb c "-" then - off else off))
                    else None
                | _ => None
                end
            | None => None
            end
        | None => None
        end
      else None
  end.

(** Seconds and milliseconds, both optional, the second only after the first. *)
Definition read_seconds (s : string) : option (Z * Z * string) :=
  match s with
  | String c s' =>
      if Ascii.eqb c ":" then
        match read_digits 2 s' 0 with
        | Some (sec, r) =>
            match read_opt_field "." 3 0 r with
            | Some (ms, r') => Some (sec, ms, r')
            | None => None
            end
        | None => None
        end
      else Some (0, 0, s)
  | EmptyString => Some (0, 0, s)
  end.

(** The time part, read to the end of the string: milliseconds since
    midnight and the offset, if one is written. *)
Definition parseTimePart (s : string) : option (Z * option Z) :=
  match read_digits 2 s 0 with
  | Some (h, r1) =>
      match expect ":" r1 with
      | Some r2 =>
          match read_digits 2 r2 0 with
          | Some (mi, r3) =>
              match read_seconds r3 with
              | Some (sec, ms, r4) =>
                  match read_zone r4 with
                  | Some oz =>
                      if (h <=? 24) && (mi <=? 59) && (sec <=? 59)
                         && ((h <? 24) || ((mi =? 0) && (sec =? 0) && (ms =? 0)))
                      then Some (MakeTime h mi sec ms, oz) else None
                  | None => None
                  end
              | None => None
              end
          | None => None
          end
      | None => None
      end
  | None => None
  end.

(** The time value of a string of the format, before it is clipped. *)
Definition parseFormat (z : Zone) (s : string) : option Z :=
  match parseDatePart s with
  | Some (y, m, d, r) =>
      let day := MakeDay y (m - 1) d in
      match r with
      | EmptyString => Some (MakeDate day 0)
      | String c r' =>
          if Ascii.eqb c "T" then
            match parseTimePart r' with
            | Some (tm, Some off) => Some (MakeDate day tm - off)
            | Some (tm, None) => Some (UTC z (MakeDate day tm))
            | None => None
            end
          else None
      end
  | None => None
  end.

(** [Date.parse]; a [Date] object is modelled by its time value. *)
Definition Date_parse (z : Zone) (s : string) : number :=
  match parseFormat z s with
  | Some t => TimeClip t
  | None =>
      match parseOther z s with
      | Num t => TimeClip t
      | NaN => NaN
      end
  end.

(** [d.getDate()] and [d.setDate(dt)], on the time value of [d]. *)
Definition Date_getDate (z : Zone) (d : number) : number :=
  match d with
  | Num t => Num (DateFromTime (LocalTime z t))
  | NaN => NaN
  end.

Definition Date_setDate (z : Zone) (d dt : number) : number :=
  match d, dt with
  | Num t, Num n =>
      let lt := LocalTime z t in
      TimeClip (UTC z (MakeDate (MakeDay (YearFromTime lt) (MonthFromTime lt) n)
                                (TimeWithinDay lt)))
  | _, _ => NaN
  end.

(** ** [toISOString] and [split('T')[0]] *)

Definition digit_char (d : Z) : ascii := ascii_of_N (Z.to_N (48 + d)).

(** [v] written with exactly [n] decimal digits (the low ones). *)
Fixpoint pad (n : nat) (v : Z) : string :=
  match n with
  | O => EmptyString
  | S n' => pad n' (v / 10) +:+ String (digit_char (v mod 10)) EmptyString
  end.

Definition isoYear (y : Z) : string :=
  if (0 <=? y) && (y <=? 9999) then pad 4 y
  else String (if y <? 0 then "-"%char else "+"%char) (pad 6 (Z.abs y)).

Definition isoDatePart (t : Z) : string :=
  isoYear (YearFromTime t) +:+ "-" +:+ pad 2 (MonthFromTime t + 1)
  +:+ "-" +:+ pad 2 (DateFromTime t).

Definition isoTimePart (t : Z) : string :=
  pad 2 (HourFromTime t) +:+ ":" +:+ pad 2 (MinFromTime t) +:+ ":"
  +:+ pad 2 (SecFromTime t) +:+ "." +:+ pad 3 (msFromTime t).

Definition Date_toISOString (d : number) : completion string :=
  match d with
  | Num t => Normal (isoDatePart t +:+ "T" +:+ isoTimePart t +:+ "Z")
  | NaN => Throw "RangeError: Invalid time value"
  end.

(** [s.split(sep)[0]]: the part of [s] before the first [sep]. *)
Fixpoint split_head (sep : ascii) (s : string) : string :=
  match s with
  | EmptyString => EmptyString
  | String c s' => if Ascii.eqb c sep then EmptyString else String c (split_head sep s')
  end.

(** ** [Array.prototype.sort] and [filter]

    [sort] is stable and, for a consistent comparator, returns the sorted
    permutation; a stable insertion sort computes it.  A comparator result
    that is [NaN] counts as [+0]; where a comparator returns [NaN] for
    some pairs only, the order that results is the engine's own, and this
    sort stands for one that inserts from the end of the array. *)

Fixpoint sort_insert {A} (cmp : A -> A -> number) (x : A) (l : list A) : list A :=
  match l with
  | [] => [x]
  | y :: l' =>
      if num_lt (Num 0) (cmp x y) then y :: sort_insert cmp x l' else x :: y :: l'
  end.

Definition Array_sort {A} (cmp : A -> A -> number) (l : list A) : list A :=
  foldr (sort_insert cmp) [] l.

(** [filter] with a callback that may raise ([List.filter] serves when it
    cannot). *)
Fixpoint Array_filter {A} (p : A -> completion bool) (l : list A) : completion (list A) :=
  match l with
  | [] => Normal []
  | x :: l' =>
      bind (p x) (fun keep =>
      bind (Array_filter p l') (fun rest =>
      Normal (if keep then x :: rest else rest)))
  end.

(** ** Objects used as dictionaries

    [totals], [weeklyTotals] and [averages] are created as [{}] and
    inherit from [Object.prototype].  A key that names a property of the
    prototype reads as the inherited function (or, for [__proto__], as the
    prototype itself) while the object has no property of its own under
    it, and an assignment to [__proto__] of a value that is not an object
    stores nothing.  The own properties are a [gmap]; what they hold here
    is a number or the text that [+] makes once one operand is not a
    number: its characters depend on the engine and on the numbers added,
    and only this matters, that it is not empty and does not read as a
    number. *)

Inductive value : Type :=
| Number (n : number)
| Text.

(** What [o[k]] reads. *)
Inductive property : Type :=
| Undefined
| Value (v : value)
| Native.          (* a function or object of [Object.prototype] *)

Definition ObjectPrototype : list string :=
  ["constructor"; "__defineGetter__"; "__defineSetter__"; "hasOwnProperty";
   "__lookupGetter__"; "__lookupSetter__"; "isPrototypeOf";
   "propertyIsEnumerable"; "toString"; "valueOf"; "__proto__";
   "toLocaleString"].

Definition inherited (k : string) : bool :=
  existsb (String.eqb k) ObjectPrototype.

Definition Object_get (o : gmap string value) (k : string) : property :=
  match o !! k with
  | Some v => Value v
  | None => if inherited k then Native else Undefined
  end.

(** [o[k] = v] for a number or a string [v]. *)
Definition Object_set {V} (o : gmap string V) (k : string) (v : V) : gmap string V :=
  if String.eqb k "__proto__" then o else <[k := v]> o.

(** [p || 0] *)
Definition or_0 (p : property) : property :=
  match p with
  | Undefined => Value (Number (Num 0))
  | Value (Number n) => Value (Number (or_zero (Some n)))
  | Value Text => Value Text
  | Native => Native
  end.

(** [p + v] *)
Definition plus (p : property) (v : value) : value :=
  match p, v with
  | Value (Number x), Number y => Number (num_add x y)
  | Undefined, Number _ => Number NaN
  | _, _ => Text
  end.

(** [Math.round(v / d)] *)
Definition Math_round_div_value (v : value) (d : Z) : number :=
  match v with
  | Number n => Math_round_div n d
  | Text => NaN
  end.

(** ** The ambient inputs of a call: the clock and the host

    The clock is that of a system: its reading lies in a year that [Date]
    covers from its first day to its last, -271820 to 275759. *)

Definition systemClock (t : Z) : bool :=
  (TimeFromYear (-271820) <=? t) && (t <? TimeFromYear 275760).

Record Env : Type := {
  clock : Z;      (* the time value [new Date()] and [Date.now()] return *)
  zone : Zone;
  clock_years : systemClock clock = true
}.

(** ** The weekly average, shared by both variants

    [getWeeklyAverages] has the same body in [App.jsx] and in
    [TimeTracker.jsx], up to the name of the per-day function it calls,
    here [getTotals]. *)

Section WeeklyAverages.

Variable getTotals : string -> completion (gmap string value).

(** The [for (let i = 6; i >= 0; i--)] loop from index [i] downwards. *)
Fixpoint last7Days_from (env : Env) (today : number) (i : nat) : completion (list string) :=
  let date := today in
  let date :=
    Date_setDate (zone env) date
      (num_sub (Date_getDate (zone env) date) (Num (Z.of_nat i))) in
  bind (Date_toISOString date) (fun iso =>
  let day := split_head "T" iso in
  match i with
  | O => Normal [day]
  | S j => bind (last7Days_from env today j) (fun rest => Normal (day :: rest))
  end).

Definition last7Days (env : Env) : completion (list string) :=
  let today := Num (clock env) in
  last7Days_from env today 6.

(** [Object.entries(dayTotals).forEach(([tag, minutes]) => ...)] *)
Definition addDayTotals (weeklyTotals dayTotals : gmap string value)
  : gmap string value :=
  map_fold
    (fun tag minutes wt =>
       Object_set wt tag (plus (or_0 (Object_get wt tag)) minutes))
    weeklyTotals dayTotals.

(** [last7Days.forEach(date => ...)] *)
Fixpoint weeklyTotalsOver (days : list string) (weeklyTotals : gmap string value)
  : completion (gmap string value) :=
  match days with
  | [] => Normal weeklyTotals
  | date :: days' =>
      bind (getTotals date) (fun dayTotals =>
      weeklyTotalsOver days' (addDayTotals weeklyTotals dayTotals))
  end.

Definition averagesOf (weeklyTotals : gmap string value) : gmap string number :=
  map_fold
    (fun tag total averages => Object_set averages tag (Math_round_div_value total 7))
    ∅ weeklyTotals.

Definition weeklyAverages (env : Env) : completion (gmap string number) :=
  bind (last7Days env) (fun days =>
  bind (weeklyTotalsOver days ∅) (fun weeklyTotals =>
  Normal (averagesOf weeklyTotals))).

End WeeklyAverages.

End JS.

Import JS.

(** ** [src/App.jsx]: the localStorage variant *)

Module App.

Record entry : Type := {
  id : Z;
  date : string;
  start : string;
  end_ : string;
  duration : number;
  description : string;
  tag : string
}.

(** The component state read or written by the modelled functions; the
    form states [description] and [tag] are [formDescription], [formTag]. *)
Record State : Type := {
  entries : list entry;
  selectedDate : string;
  startTime : string;
  endTime : string;
  formDescription : string;
  formTag : string
}.

(** [new Date(s)] *)
Definition Date_new (env : Env) (s : string) : number := Date_parse (zone env) s.

(** [calculateDuration(start, end)], closed over [selectedDate]. *)
Definition calculateDuration (env : Env) (selectedDate start end_ : string)
  : completion number :=
  let startDate := Date_new env (selectedDate +:+ "T" +:+ start) in
  let endDate := Date_new env (selectedDate +:+ "T" +:+ end_) in
  (* Handle overnight activities *)
  let endDate :=
    if num_lt endDate startDate
    then Date_setDate (zone env) endDate
           (num_add (Date_getDate (zone env) endDate) (Num 1))
    else endDate in
  Normal (Math_round_div (num_sub endDate startDate) (1000 * 60)).

(** [!s] for a string. *)
Definition empty (s : string) : bool :=
  match s with EmptyString => true | _ => false end.

(** The timestamp the sort of [addEntry] compares. *)
Definition timestamp (env : Env) (e : entry) : number :=
  Date_new env (date e +:+ "T" +:+ start e).

Definition byTimestamp (env : Env) (a b : entry) : number :=
  num_sub (timestamp env a) (timestamp env b).

(** [addEntry()]: the state after the call. *)
Definition addEntry (env : Env) (st : State) : completion State :=
  if empty (startTime st) || empty (endTime st)
     || empty (formDescription st) || empty (formTag st)
  then Normal st  (* alert('Please fill in all fields') *)
  else
    bind (calculateDuration env (selectedDate st) (startTime st) (endTime st))
      (fun duration =>
    let newEntry :=
      {| id := clock env;
         date := selectedDate st;
         start := startTime st;
         end_ := endTime st;
         duration := duration;
         description := formDescription st;
         tag := formTag st |} in
    Normal
      {| entries := Array_sort (byTimestamp env) (entries st ++ [newEntry]);
         selectedDate := selectedDate st;
         startTime := "";
         endTime := "";
         formDescription := "";
         formTag := "" |}).

(** [getEntriesForDate(date)], closed over [entries]. *)
Definition getEntriesForDate (entries : list entry) (d : string) : list entry :=
  List.filter (fun entry => String.eqb (date entry) d) entries.

(** The body of [dayEntries.forEach(entry => ...)]. *)
Definition addToTotals (totals : gmap string value) (entry : entry)
  : gmap string value :=
  Object_set totals (tag entry)
    (plus (or_0 (Object_get totals (tag entry))) (Number (duration entry))).

Definition getTotalsByTag (entries : list entry) (d : string) : gmap string value :=
  let dayEntries := getEntriesForDate entries d in
  foldl addToTotals ∅ dayEntries.

(** [getWeeklyAverages()]: no argument; it reads the clock. *)
Definition getWeeklyAverages (env : Env) (entries : list entry)
  : completion (gmap string number) :=
  weeklyAverages (fun d => Normal (getTotalsByTag entries d)) env.

End App.

(** ** [src/components/TimeTracker.jsx]: the Supabase variant

    An entry row carries [start_time] (a [timestamptz], held here as the
    time value [new Date(entry.start_time)] has), the stored
    [duration_minutes] (absent while the entry has no end) and the joined
    category row [projects] (absent when the category cannot be resolved). *)

Module Supabase.

Record project : Type := {
  name : option string
}.

Record entry : Type := {
  id : Z;
  start_time : Z;
  end_time : option Z;
  duration_minutes : option number;
  description : string;
  projects : option project
}.

Definition entryDate (entry : entry) : completion string :=
  bind (Date_toISOString (Num (start_time entry))) (fun iso =>
  Normal (split_head "T" iso)).

Definition getEntriesForDate (entries : list entry) (date : string)
  : completion (list entry) :=
  Array_filter
    (fun entry => bind (entryDate entry) (fun d => Normal (String.eqb d date)))
    entries.

(** [entry.projects?.name || 'Unknown'] *)
Definition categoryName (entry : entry) : string :=
  match projects entry with
  | Some p =>
      match name p with
      | Some n => if App.empty n then "Unknown" else n
      | None => "Unknown"
      end
  | None => "Unknown"
  end.

Definition addToTotals (totals : gmap string value) (entry : entry)
  : gmap string value :=
  let categoryName := categoryName entry in
  Object_set totals categoryName
    (plus (or_0 (Object_get totals categoryName))
       (Number (or_zero (duration_minutes entry)))).

Definition getTotalsByCategory (entries : list entry) (date : string)
  : completion (gmap string value) :=
  bind (getEntriesForDate entries date) (fun dayEntries =>
  Normal (foldl addToTotals ∅ dayEntries)).

Definition getWeeklyAverages (env : Env) (entries : list entry)
  : completion (gmap string number) :=
  weeklyAverages (getTotalsByCategory entries) env.

End Supabase.

(** ** The REST variant: validation of the form

    The third variant computes nothing itself; before posting an entry it
    checks both times against
    [/^(1[0-2]|0?[1-9]):([0-5][0-9])\s?(AM|PM)$/i], after [trim].  Of the
    white space of ECMAScript the code units below 256 are the tab, the
    line feed, the vertical tab, the form feed, the carriage return, the
    space and the no-break space U+00A0. *)

Module Rest.

Definition isSpace (c : ascii) : bool :=
  let n := N_of_ascii c in
  (N.eqb n 32 || (N.leb 9 n && N.leb n 13) || N.eqb n 160)%bool.

Fixpoint trimStart (s : string) : string :=
  match s with
  | String c s' => if isSpace c then trimStart s' else s
  | EmptyString => s
  end.

Definition trim (s : string) : string :=
  String.rev (trimStart (String.rev (trimStart s))).

Definition inRange (lo hi c : ascii) : bool :=
  (N.leb (N_of_ascii lo) (N_of_ascii c) && N.leb (N_of_ascii c) (N_of_ascii hi))%bool.

(** The suffixes left by each way of matching [(1[0-2]|0?[1-9])]. *)
Definition afterHour (s : string) : list string :=
  (match s with
   | String a (String b r) =>
       if Ascii.eqb a "1" && inRange "0" "2" b then [r] else []
   | _ => []
   end)
  ++ (match s with
      | String a (String b r) =>
          if Ascii.eqb a "0" && inRange "1" "9" b then [r] else []
      | _ => []
      end)
  ++ (match s with
      | String a r => if inRange "1" "9" a then [r] else []
      | EmptyString => []
      end).

(** [(AM|PM)$], ignoring case. *)
Definition meridiem (s : string) : bool :=
  match s with
  | String a (String m EmptyString) =>
      (Ascii.eqb a "A" || Ascii.eqb a "a" || Ascii.eqb a "P" || Ascii.eqb a "p")
      && (Ascii.eqb m "M" || Ascii.eqb m "m")
  | _ => false
  end.

(** [:([0-5][0-9])\s?(AM|PM)$] *)
Definition afterColon (s : string) : bool :=
  match s with
  | String c (String a (String b r)) =>
      Ascii.eqb c ":" && inRange "0" "5" a && inRange "0" "9" b
      && (meridiem r
          || match r with
             | String w r' => isSpace w && meridiem r'
             | EmptyString => false
             end)
  | _ => false
  end.

Definition validateTimeFormat (timeStr : string) : bool :=
  existsb afterColon (afterHour (trim timeStr)).

(** What [handleSubmit] does with the form: it shows messages and returns,
    or posts the entry with the selected date. *)
Inductive submission : Type :=
| ShowErrors (start_time end_time : bool)
| Post (start_time end_time date : string).

Definition handleSubmit (start_time end_time selectedDate : string) : submission :=
  let start_error := negb (validateTimeFormat start_time) in
  let end_error := negb (validateTimeFormat end_time) in
  if start_error || end_error
  then ShowErrors start_error end_error
  else Post start_time end_time selectedDate.

End Rest.

(** ** More of the JavaScript library: text and numbers as text *)

Module Text.

(** [String(n)] for a safe integer or [NaN]: decimal digits, a minus sign
    for a negative integer.  (From 1e21 on the code writes an exponent.) *)
Definition Number_toString (n : number) : string :=
  match n with
  | Num z => pretty z
  | NaN => "NaN"
  end.

(** [Math.floor(x / d)] and [x % d] for a safe integer [x] and a positive
    integer constant [d]; the remainder has the sign of [x]. *)
Definition Math_floor_div (x : number) (d : Z) : number :=
  match x with
  | Num z => Num (z / d)
  | NaN => NaN
  end.

Definition num_rem (x : number) (d : Z) : number :=
  match x with
  | Num z => Num (Z.rem z d)
  | NaN => NaN
  end.

(** [s.slice(0, n)] *)
Fixpoint slice_to (n : nat) (s : string) : string :=
  match n, s with
  | S n', String c s' => String c (slice_to n' s')
  | _, _ => EmptyString
  end.

(** [s.split(sep)] for a separator of one character. *)
Fixpoint split (sep : ascii) (s : string) : list string :=
  match s with
  | EmptyString => [EmptyString]
  | String c s' =>
      if Ascii.eqb c sep then EmptyString :: split sep s'
      else
        match split sep s' with
        | x :: r => String c x :: r
        | [] => [String c EmptyString]
        end
  end.





(** [d.toTimeString()]: the local time, [GMT] and the offset (the name of
    the zone, which implementations may add, is left out). *)
Definition Date_toTimeString (z : Zone) (d : number) : string :=
  match d with
  | Num t =>
      let lt := LocalTime z t in
      let off := LocalTZA_utc z t in
      pad 2 (HourFromTime lt) +:+ ":" +:+ pad 2 (MinFromTime lt) +:+ ":"
      +:+ pad 2 (SecFromTime lt) +:+ " GMT"
      +:+ String (if off <? 0 then "-"%char else "+"%char)
            (pad 2 (Z.abs off / msPerHour)
             +:+ pad 2 ((Z.abs off / msPerMinute) mod 60))
  | NaN => "Invalid Date"
  end.

(** [a < b] on strings (ECMA-262, IsLessThan): the first code unit that
    differs decides, and a proper prefix is smaller. *)
Fixpoint String_lt (a b : string) : bool :=
  match a, b with
  | _, EmptyString => false
  | EmptyString, String _ _ => true
  | String x a', String y b' =>
      if Ascii.eqb x y then String_lt a' b'
      else (N_of_ascii x <? N_of_ascii y)%N
  end.

End Text.

(** ** [src/App.jsx], continued: display, tracking, deletion, CSV *)

Module App2.

Import Text.

(** [formatTime(minutes)] *)
Definition formatTime (minutes : number) : string :=
  let hours := Math_floor_div minutes 60 in
  let mins := num_rem minutes 60 in
  Number_toString hours +:+ "h " +:+ Number_toString mins +:+ "m".

(** [deleteEntry(id)]: the entries after the call. *)
Definition deleteEntry (entries : list App.entry) (id : Z) : list App.entry :=
  List.filter (fun entry => negb (App.id entry =? id)) entries.

(** [currentActivity] *)
Record activity : Type := {
  start : string;
  description : string;
  tag : string
}.

(** The component state with the tracking part. *)
Record Tracker : Type := {
  form : App.State;
  currentActivity : option activity;
  isTracking : bool
}.

(** [now.toTimeString().slice(0, 5)] *)
Definition timeString (env : Env) : string :=
  let now := Num (clock env) in
  slice_to 5 (Date_toTimeString (zone env) now).

(** [x || fallback] for strings. *)
Definition or_else (x fallback : string) : string :=
  if App.empty x then fallback else x.

Definition startTracking (env : Env) (tr : Tracker) : Tracker :=
  let timeString := timeString env in
  let st := form tr in
  {| form :=
       {| App.entries := App.entries st;
          App.selectedDate := App.selectedDate st;
          App.startTime := timeString;
          App.endTime := App.endTime st;
          App.formDescription := App.formDescription st;
          App.formTag := App.formTag st |};
     currentActivity :=
       Some {| start := timeString;
               description := or_else (App.formDescription st) "Current Activity";
               tag := or_else (App.formTag st) "Unproductive" |};
     isTracking := true |}.

Definition stopTracking (env : Env) (tr : Tracker) : Tracker :=
  match currentActivity tr with
  | Some a =>
      let timeString := timeString env in
      let st := form tr in
      {| form :=
           {| App.entries := App.entries st;
              App.selectedDate := App.selectedDate st;
              App.startTime := App.startTime st;
              App.endTime := timeString;
              App.formDescription := description a;
              App.formTag := tag a |};
         currentActivity := None;
         isTracking := false |}
  | None => tr
  end.

(** [addEntry] on the form of the tracker. *)
Definition addEntry (env : Env) (tr : Tracker) : completion Tracker :=
  bind (App.addEntry env (form tr)) (fun st =>
  Normal {| form := st;
            currentActivity := currentActivity tr;
            isTracking := isTracking tr |}).

(** The initial [selectedDate]: [new Date().toISOString().split('T')[0]]. *)
Definition initialSelectedDate (env : Env) : completion string :=
  bind (Date_toISOString (Num (clock env))) (fun iso =>
  Normal (split_head "T" iso)).








End App2.

(** ** [src/components/TimeTracker.jsx], continued: adding an entry *)

Module Supabase2.

Import Text.

(** What [addEntry] does with the form: it alerts and returns, it calls
    [timeTrackingAPI.createTimeEntry] with these arguments, or it catches
    the error [err] and shows it with [setError]. *)
Inductive request : Type :=
| Alert
| CreateTimeEntry (selectedCategory description startDateTime endDateTime : string)
| SetError (err : string).

Definition addEntry (env : Env)
    (selectedDate startTime endTime description selectedCategory : string)
  : request :=
  if App.empty startTime || App.empty endTime || App.empty description
     || App.empty selectedCategory
  then Alert
  else
    let attempt :=
      bind (Date_toISOString (App.Date_new env (selectedDate +:+ "T" +:+ startTime)))
        (fun startDateTime =>
      bind (Date_toISOString (App.Date_new env (selectedDate +:+ "T" +:+ endTime)))
        (fun endDateTime =>
      (* Handle overnight activities *)
      bind (if String_lt endTime startTime
            then
              let endDate := App.Date_new env (selectedDate +:+ "T" +:+ endTime) in
              let endDate :=
                Date_setDate (zone env) endDate
                  (num_add (Date_getDate (zone env) endDate) (Num 1)) in
              Date_toISOString endDate
            else Normal endDateTime)
        (fun endDateTime =>
      Normal (CreateTimeEntry selectedCategory description startDateTime endDateTime)))) in
    match attempt with
    | Normal r => r
    | Throw err => SetError err
    end.

(** The comparator of the sort, [new Date(a.start_time) - new Date(b.start_time)]. *)
Definition byStartTime (a b : Supabase.entry) : number :=
  num_sub (Num (Supabase.start_time a)) (Num (Supabase.start_time b)).

(** The entries after the answer [data] came back without error:
    [[...prev, data[0]].sort(...)] when it holds a row. *)
Definition addCreated (entries : list Supabase.entry) (data : list Supabase.entry)
  : list Supabase.entry :=
  match data with
  | created :: _ => Array_sort byStartTime (entries ++ [created])
  | [] => entries
  end.

End Supabase2.

(** ** Auxiliary notions used in the statements *)

(** [lacks sep s]: the character [sep] does not occur in [s]. *)
Fixpoint lacks (sep : ascii) (s : string) : bool :=
  match s with
  | EmptyString => true
  | String c s' => negb (Ascii.eqb c sep) && lacks sep s'
  end.

(** [s] is a prefix without [T] followed by [r]. *)
Definition consumes (s r : string) : Prop :=
  exists p, s = p +:+ r /\ lacks "T" p = true.

(** The minutes an object holds under [k], 0 when it has no property [k]
    of its own or holds no number there. *)
Definition minutesAt (o : gmap string value) (k : string) : Z :=
  match o !! k with
  | Some (Number (Num z)) => z
  | _ => 0
  end.

(** The object has no property [k] of its own, or a number that is not
    [NaN]. *)
Definition numberAt (o : gmap string value) (k : string) : Prop :=
  match o !! k with
  | Some (Number (Num _)) | None => True
  | _ => False
  end.


(** A key that [Object.prototype] does not define. *)
Definition ordinary (k : string) : Prop := inherited k = false.

(** The same on a dictionary of numbers, for comparison. *)
Definition minutesIn (m : gmap string number) (k : string) : Z :=
  match m !! k with
  | Some (Num z) => z
  | _ => 0
  end.

Definition numeric (m : gmap string number) : Prop :=
  map_Forall (fun _ v => is_num v) m.



(** The integer sum of [val] over a list. *)
Definition total_of {E} (val : E -> Z) (l : list E) : Z :=
  foldr (fun e acc => val e + acc) 0 l.

(** One step of the [forEach] of [getTotalsByTag] and
    [getTotalsByCategory], for a key and a value read from the entry. *)
Definition tallyObject {E} (key : E -> string) (val : E -> number)
    (totals : gmap string value) (e : E) : gmap string value :=
  Object_set totals (key e)
    (plus (or_0 (Object_get totals (key e))) (Number (val e))).

(** The step on a dictionary of numbers in which every key is a key like
    any other. *)
Definition tally {E} (key : E -> string) (val : E -> number)
    (totals : gmap string number) (e : E) : gmap string number :=
  <[key e := num_add (or_zero (totals !! key e)) (val e)]> totals.

(** The value of an entry as an integer, [NaN] counting for 0. *)
Definition num_val (n : number) : Z :=
  match n with Num z => z | NaN => 0 end.

(** The sum over the days of a window of the day totals of [tag]. *)
Definition weekSum (totalsOn : string -> gmap string value)
    (days : list string) (tag : string) : Z :=
  total_of (fun d => minutesAt (totalsOn d) tag) days.

(** The instant that a time of day [tm], read with the offset [oz] or,
    without one, as local time, denotes on day [day]. *)
Definition instant (z : Zone) (day tm : Z) (oz : option Z) : Z :=
  match oz with
  | Some off => MakeDate day tm - off
  | None => UTC z (MakeDate day tm)
  end.

(** The calendar date, as [toISOString] writes it, of a day number. *)
Definition isoDate (day : Z) : string := isoDatePart (day * msPerDay).

(** What [toISOString] prints for the time value [t]. *)
Definition isoString (t : Z) : string :=
  isoDatePart t +:+ "T" +:+ isoTimePart t +:+ "Z".

(** [entry.duration_minutes || 0] *)
Definition Supabase_minutes (e : Supabase.entry) : number :=
  or_zero (Supabase.duration_minutes e).

(** The test of [getEntriesForDate] in the Supabase variant: the UTC
    calendar date of [start_time] is [date]. *)
Definition Supabase_onDate (date : string) (e : Supabase.entry) : bool :=
  String.eqb (isoDate (Day (Supabase.start_time e))) date.

(** An entry of the Supabase variant without a usable category name. *)
Definition unlabeled (e : Supabase.entry) : Prop :=
  match Supabase.projects e with
  | None => True
  | Some p => Supabase.name p = None \/ Supabase.name p = Some EmptyString
  end.





Definition withId (id : Z) (e : App.entry) : App.entry :=
  {| App.id := id; App.date := App.date e; App.start := App.start e;
     App.end_ := App.end_ e; App.duration := App.duration e;
     App.description := App.description e; App.tag := App.tag e |}.


(** The texts that [/^(1[0-2]|0?[1-9]):([0-5][0-9])\s?(AM|PM)$/i]
    describes: an hour from 1 to 12, below 10 with or without a leading
    zero, a colon, a minute in two digits, at most one white space, and
    AM or PM in either case. *)
Definition twelveHourTime (t : string) : Prop :=
  exists h m hour gap half,
    1 <= h <= 12 /\ 0 <= m <= 59
    /\ (hour = pretty h \/ (h <= 9 /\ hour = pad 2 h))
    /\ (gap = EmptyString
        \/ exists w, Rest.isSpace w = true /\ gap = String w EmptyString)
    /\ In half ["AM"; "Am"; "aM"; "am"; "PM"; "Pm"; "pM"; "pm"]%string
    /\ t = hour +:+ ":" +:+ pad 2 m +:+ gap +:+ half.

(** The minute of the local day the clock shows. *)
Definition minuteOfDay (env : Env) : Z :=
  let lt := LocalTime (zone env) (clock env) in
  60 * HourFromTime lt + MinFromTime lt.

(** The day number of a date string in the format. *)
Definition dayOfDate (date : string) : option Z :=
  match parseDatePart date with
  | Some (y, m, d, EmptyString) => Some (MakeDay y (m - 1) d)
  | _ => None
  end.

(** ** The specification's wording, for comparison *)



(** An environment for examples: 2024-03-15T12:00:00Z on a UTC clock. *)
Definition sampleEnv : Env :=
  {| clock := 1710504000000; zone := utcZone; clock_years := eq_refl |}.

(** A zone with one transition, that of London on 2024-03-31: the offset
    goes from 0 to one hour at 01:00 UTC; a local time skipped by the
    transition is read with the offset before it. *)
Definition londonZone : Zone :=
  {| LocalTZA_utc := fun t => if 1711846800000 <=? t then msPerHour else 0;
     LocalTZA_local := fun t => if 1711846800000 + msPerHour <=? t then msPerHour else 0;
     parseOther := fun _ => NaN;
     LocalTZA_utc_lt_day := fun t =>
       match 1711846800000 <=? t as b
             return Z.abs (if b then msPerHour else 0) < msPerDay with
       | true => eq_refl
       | false => eq_refl
       end;
     LocalTZA_local_lt_day := fun t =>
       match 1711846800000 + msPerHour <=? t as b
             return Z.abs (if b then msPerHour else 0) < msPerDay with
       | true => eq_refl
       | false => eq_refl
       end |}.


Definition londonAprilEnv : Env :=
  {| clock := 1711927800000; zone := londonZone; clock_years := eq_refl |}.

(** The same zone thirty days later, and one hour later. *)
Definition laterEnv : Env :=
  {| clock := 1713096000000; zone := utcZone; clock_years := eq_refl |}.

Definition hourLaterEnv : Env :=
  {| clock := 1710507600000; zone := utcZone; clock_years := eq_refl |}.

Definition sampleEntry (date start end_ : string) (minutes : Z) (tag : string)
  : App.entry :=
  {| App.id := 0; App.date := date; App.start := start; App.end_ := end_;
     App.duration := Num minutes; App.description := "work"; App.tag := tag |}.

(** 140 minutes of one tag on one day of the week before [sampleEnv]. *)
Definition sampleEntries : list App.entry :=
  [sampleEntry "2024-03-12" "09:00" "11:20" 140 "Productive"].

Definition sampleState : App.State :=
  {| App.entries := sampleEntries;
     App.selectedDate := "2024-01-10";
     App.startTime := "08:00";
     App.endTime := "08:30";
     App.formDescription := "mail";
     App.formTag := "Productive" |}.

Definition sampleRow (start_time : Z) (minutes : option number)
    (category : option Supabase.project) : Supabase.entry :=
  {| Supabase.id := 0; Supabase.start_time := start_time;
     Supabase.end_time := None; Supabase.duration_minutes := minutes;
     Supabase.description := "work"; Supabase.projects := category |}.

(** * Properties *)

(** ** Numbers *)



Lemma or_zero_Num z : or_zero (Some (Num z)) = Num z.
Proof. simpl. destruct (Z.eqb_spec z 0); congruence. Qed.

Lemma or_zero_is_num v : is_num (or_zero v).
Proof. destruct v as [[z|]|]; simpl; try exact I. destruct (z =? 0); exact I. Qed.

(** ** Day arithmetic *)

Lemma monthOfDay_range d leap : 0 <= monthOfDay d leap <= 11.
Proof. unfold monthOfDay. repeat case_match; lia. Qed.

(** [MakeDay] at the year and month of a time value counts days from the
    day of that time value. *)
Lemma MakeDay_same_month t n :
  MakeDay (YearFromTime t) (MonthFromTime t) n = Day t + (n - DateFromTime t).
Proof.
  unfold MakeDay, DateFromTime, MonthFromTime, DayWithinYear, InLeapYear.
  set (leap := if DaysInYear (YearFromTime t) =? 366 then 1 else 0).
  set (dy := Day t - DayFromYear (YearFromTime t)).
  pose proof (monthOfDay_range dy leap) as Hm.
  rewrite Z.div_small, Z.mod_small, Z.add_0_r by lia.
  fold leap. lia.
Qed.

Lemma MakeDate_Day_shift t k :
  MakeDate (Day t + k) (TimeWithinDay t) = t + k * msPerDay.
Proof.
  unfold MakeDate, Day, TimeWithinDay.
  pose proof (Z.div_mod t msPerDay) as H. unfold msPerDay in *. lia.
Qed.

Lemma Day_shift t k : Day (t + k * msPerDay) = Day t + k.
Proof. unfold Day. rewrite Z.div_add by discriminate. reflexivity. Qed.

(** [YearFromDay] is the year of ECMA-262: the last year that starts on or
    before the day. *)
Lemma YearFromDay_spec d :
  DayFromYear (YearFromDay d) <= d < DayFromYear (YearFromDay d + 1).
Proof.
  unfold YearFromDay.
  set (y := 1970 + d * 400 / 146097).
  destruct (Z.ltb_spec d (DayFromYear y)) as [H1|H1].
  - replace (y - 1 + 1) with y by lia. split; [|exact H1].
    unfold DayFromYear in *. subst y.
    Z.to_euclidean_division_equations. lia.
  - destruct (Z.leb_spec (DayFromYear (y + 1)) d) as [H2|H2].
    + split; [exact H2|].
      unfold DayFromYear in *. subst y.
      Z.to_euclidean_division_equations. lia.
    + split; [exact H1|exact H2].
Qed.

Lemma DayFromYear_succ y : DayFromYear (y + 1) = DayFromYear y + DaysInYear y.
Proof.
  unfold DayFromYear, DaysInYear.
  destruct (Z.eqb_spec (y mod 4) 0), (Z.eqb_spec (y mod 100) 0),
    (Z.eqb_spec (y mod 400) 0); simpl;
    Z.to_euclidean_division_equations; lia.
Qed.

Lemma DayWithinYear_range t :
  0 <= DayWithinYear t < DaysInYear (YearFromTime t).
Proof.
  unfold DayWithinYear, YearFromTime.
  pose proof (YearFromDay_spec (Day t)) as H.
  rewrite DayFromYear_succ in H. lia.
Qed.

(** The day of the month lies between 1 and 31. *)
Lemma DateFromTime_range t : 1 <= DateFromTime t <= 31.
Proof.
  unfold DateFromTime, MonthFromTime, InLeapYear.
  pose proof (DayWithinYear_range t) as H.
  assert (DaysInYear (YearFromTime t) = 365 \/ DaysInYear (YearFromTime t) = 366)
    as [E|E] by (unfold DaysInYear; repeat case_match; auto).
  all: rewrite E in *; simpl Z.eqb; cbv iota.
  all: set (d := DayWithinYear t) in *; clearbody d; unfold monthOfDay.
  all: repeat match goal with
              | |- context [?a <? ?b] => destruct (Z.ltb_spec a b)
              end; simpl; lia.
Qed.

(** The day of the month is a day of that month. *)
Lemma DateFromTime_le_month t :
  DateFromTime t <= daysInMonth (YearFromTime t) (MonthFromTime t + 1).
Proof.
  unfold DateFromTime, MonthFromTime, InLeapYear, daysInMonth.
  pose proof (DayWithinYear_range t) as H.
  assert (DaysInYear (YearFromTime t) = 365 \/ DaysInYear (YearFromTime t) = 366)
    as [E|E] by (unfold DaysInYear; repeat case_match; auto).
  all: rewrite E in *; simpl Z.eqb; cbv iota.
  all: set (d := DayWithinYear t) in *; clearbody d; unfold monthOfDay.
  all: repeat match goal with
              | |- context [?a <? ?b] => destruct (Z.ltb_spec a b)
              end; simpl; lia.
Qed.

(** ** The range of time values *)

Lemma TimeClip_in t : - maxTime <= t <= maxTime -> TimeClip t = Num t.
Proof.
  intros H. unfold TimeClip.
  destruct (Z.leb_spec (- maxTime) t); [|lia].
  destruct (Z.leb_spec t maxTime); [reflexivity|lia].
Qed.

Lemma TimeClip_inv t v : TimeClip t = Num v -> v = t /\ - maxTime <= t <= maxTime.
Proof.
  unfold TimeClip.
  destruct (Z.leb_spec (- maxTime) t); [|discriminate].
  destruct (Z.leb_spec t maxTime); [|discriminate].
  intros [= <-]. lia.
Qed.

Lemma TimeClip_is_num t : is_num (TimeClip t) -> TimeClip t = Num t.
Proof.
  destruct (TimeClip t) as [v|] eqn:E; [|contradiction].
  apply TimeClip_inv in E as [-> _]. reflexivity.
Qed.

Lemma Date_parse_range z s v : Date_parse z s = Num v -> - maxTime <= v <= maxTime.
Proof.
  unfold Date_parse. destruct (parseFormat z s) as [t|].
  - intros H. apply TimeClip_inv in H as [-> H]. exact H.
  - destruct (parseOther z s) as [t|]; [|discriminate].
    intros H. apply TimeClip_inv in H as [-> H]. exact H.
Qed.

(** The reading of the clock lies 256 days or more inside the range. *)
Lemma clock_bounds env :
  -99999744 * msPerDay <= clock env < 99999744 * msPerDay.
Proof.
  pose proof (clock_years env) as H. unfold systemClock in H.
  apply andb_prop in H as [H1 H2].
  apply Z.leb_le in H1. apply Z.ltb_lt in H2.
  change (TimeFromYear (-271820)) with (-8639977881600000) in H1.
  change (TimeFromYear 275760) with 8639977881600000 in H2.
  unfold msPerDay. lia.
Qed.

(** [d.setDate(d.getDate() + k)] moves the time value by [k] days, up to
    the offsets of the zone. *)
Lemma setDate_getDate_near z t k :
  exists v,
    Date_setDate z (Num t) (num_add (Date_getDate z (Num t)) (Num k)) = TimeClip v
    /\ Z.abs (v - (t + k * msPerDay)) < 2 * msPerDay.
Proof.
  unfold Date_setDate, Date_getDate, num_add.
  eexists. split; [reflexivity|].
  rewrite MakeDay_same_month.
  replace (DateFromTime (LocalTime z t) + k - DateFromTime (LocalTime z t)) with k by lia.
  rewrite MakeDate_Day_shift. unfold UTC, LocalTime.
  pose proof (LocalTZA_utc_lt_day z t) as H1.
  pose proof (LocalTZA_local_lt_day z (t + LocalTZA_utc z t + k * msPerDay)) as H2.
  lia.
Qed.

(** In a zone without transitions, [d.setDate(d.getDate() + k)] moves the
    time value by [k] whole days. *)
Lemma setDate_getDate_shift z off t k :
  fixed_offset z off ->
  Date_setDate z (Num t) (num_add (Date_getDate z (Num t)) (Num k))
  = TimeClip (t + k * msPerDay).
Proof.
  intros [Hu Hl]. unfold Date_setDate, Date_getDate, num_add. f_equal.
  rewrite MakeDay_same_month.
  replace (DateFromTime (LocalTime z t) + k - DateFromTime (LocalTime z t)) with k by lia.
  rewrite MakeDate_Day_shift. unfold UTC, LocalTime. rewrite Hl, Hu. lia.
Qed.

Lemma setDate_getDate_back z off t k :
  fixed_offset z off ->
  Date_setDate z (Num t) (num_sub (Date_getDate z (Num t)) (Num k))
  = TimeClip (t - k * msPerDay).
Proof.
  intros Hz. pose proof (setDate_getDate_shift z off t (- k) Hz) as H.
  unfold Date_getDate, num_add, num_sub in *.
  rewrite <- Z.add_opp_r. rewrite H. f_equal. lia.
Qed.

(** ** Parsing a date followed by [T] and a time *)

Lemma read_digits_app n : forall s acc v r x,
  read_digits n s acc = Some (v, r) ->
  read_digits n (s +:+ x) acc = Some (v, r +:+ x).
Proof.
  induction n as [|n IH]; intros s acc v r x H; simpl in *.
  - congruence.
  - destruct s as [|c s]; [discriminate|]. simpl.
    destruct (digit c); [|discriminate]. eauto.
Qed.

Arguments read_digits : simpl never.

Lemma read_year_app s v r x :
  read_year s = Some (v, r) -> read_year (s +:+ x) = Some (v, r +:+ x).
Proof.
  unfold read_year. destruct s as [|c s]; [discriminate|]. simpl.
  destruct (Ascii.eqb c "+").
  { apply read_digits_app. }
  destruct (Ascii.eqb c "-").
  - destruct (read_digits 6 s 0) as [[y r']|] eqn:E; [|discriminate].
    rewrite (read_digits_app _ _ _ _ _ x E).
    destruct (y =? 0); congruence.
  - intros H. apply (read_digits_app 4 (String c s) 0 v r x H).
Qed.

Lemma read_opt_field_app sep n dflt s v r c x :
  Ascii.eqb c sep = false ->
  read_opt_field sep n dflt s = Some (v, r) ->
  read_opt_field sep n dflt (s +:+ String c x) = Some (v, r +:+ String c x).
Proof.
  intros Hc. unfold read_opt_field. destruct s as [|a s]; simpl.
  - rewrite Hc. congruence.
  - destruct (Ascii.eqb a sep).
    + apply read_digits_app.
    + congruence.
Qed.

Lemma parseDatePart_T date y m d x :
  parseDatePart date = Some (y, m, d, EmptyString) ->
  parseDatePart (date +:+ String "T" x) = Some (y, m, d, String "T" x).
Proof.
  unfold parseDatePart.
  destruct (read_year date) as [[y' r1]|] eqn:E1; [|discriminate].
  rewrite (read_year_app _ _ _ (String "T" x) E1).
  destruct (read_opt_field "-" 2 1 r1) as [[m' r2]|] eqn:E2; [|discriminate].
  rewrite (read_opt_field_app "-" _ _ _ _ _ "T" x eq_refl E2).
  destruct (read_opt_field "-" 2 1 r2) as [[d' r3]|] eqn:E3; [|discriminate].
  rewrite (read_opt_field_app "-" _ _ _ _ _ "T" x eq_refl E3).
  destruct ((1 <=? m') && (m' <=? 12) && (1 <=? d') && (d' <=? daysInMonth y' m'));
    [|discriminate].
  intros [= -> -> -> ->]. reflexivity.
Qed.

(** The time value of [`${date}T${time}`] for a date in the format. *)
Lemma parseFormat_template z date time y m d :
  parseDatePart date = Some (y, m, d, EmptyString) ->
  parseFormat z (date +:+ "T" +:+ time) =
  match parseTimePart time with
  | Some (tm, oz) => Some (instant z (MakeDay y (m - 1) d) tm oz)
  | None => None
  end.
Proof.
  intros H. unfold parseFormat.
  change (date +:+ "T" +:+ time) with (date +:+ String "T" time).
  rewrite (parseDatePart_T _ _ _ _ time H).
  rewrite Ascii.eqb_refl.
  destruct (parseTimePart time) as [[tm [off|]]|]; reflexivity.
Qed.

Lemma Date_parse_template z date time y m d tm oz :
  parseDatePart date = Some (y, m, d, EmptyString) ->
  parseTimePart time = Some (tm, oz) ->
  Date_parse z (date +:+ "T" +:+ time)
  = TimeClip (instant z (MakeDay y (m - 1) d) tm oz).
Proof.
  intros Hd Ht. unfold Date_parse.
  rewrite (parseFormat_template _ _ _ _ _ _ Hd), Ht. reflexivity.
Qed.

(** ** What the parsers consume *)

Lemma append_assoc (a b c : string) : (a +:+ b) +:+ c = a +:+ (b +:+ c).
Proof.
  induction a as [|x a IH]; [reflexivity|].
  change (String x ((a +:+ b) +:+ c) = String x (a +:+ b +:+ c)). congruence.
Qed.

Lemma lacks_app sep a b : lacks sep (a +:+ b) = lacks sep a && lacks sep b.
Proof.
  induction a as [|c a IH]; [reflexivity|].
  change (String c a +:+ b) with (String c (a +:+ b)). simpl.
  rewrite IH. apply andb_assoc.
Qed.

Lemma consumes_refl s : consumes s s.
Proof. exists EmptyString. split; reflexivity. Qed.

Lemma consumes_trans s r q : consumes s r -> consumes r q -> consumes s q.
Proof.
  intros (p1 & -> & H1) (p2 & -> & H2). exists (p1 +:+ p2). split.
  - symmetry. apply append_assoc.
  - rewrite lacks_app, H1, H2. reflexivity.
Qed.

Lemma consumes_char c s : Ascii.eqb c "T" = false -> consumes (String c s) s.
Proof.
  intros Hc. exists (String c EmptyString). split; [reflexivity|].
  simpl. rewrite Hc. reflexivity.
Qed.

Lemma digit_not_T c d : digit c = Some d -> Ascii.eqb c "T" = false.
Proof.
  intros H. destruct (Ascii.eqb_spec c "T") as [->|]; [discriminate|reflexivity].
Qed.

Lemma digit_range c d : digit c = Some d -> 0 <= d <= 9.
Proof.
  unfold digit. intros H.
  destruct (Z.leb_spec 48 (Z.of_N (N_of_ascii c)));
    destruct (Z.leb_spec (Z.of_N (N_of_ascii c)) 57); simpl in H; inversion H; lia.
Qed.

Lemma read_digits_consumes n : forall s acc v r,
  read_digits n s acc = Some (v, r) -> consumes s r.
Proof.
  induction n as [|n IH]; intros s acc v r H; unfold read_digits in H; fold read_digits in H.
  - inversion H. apply consumes_refl.
  - destruct s as [|c s]; [discriminate|].
    destruct (digit c) as [d|] eqn:Hd; [|discriminate].
    eapply consumes_trans; [apply consumes_char, (digit_not_T _ _ Hd)|eauto].
Qed.

Lemma read_digits_bounds n : forall s acc v r,
  read_digits n s acc = Some (v, r) -> 0 <= acc ->
  acc * 10 ^ Z.of_nat n <= v <= acc * 10 ^ Z.of_nat n + (10 ^ Z.of_nat n - 1).
Proof.
  induction n as [|n IH]; intros s acc v r H Hacc; unfold read_digits in H; fold read_digits in H.
  - inversion H. simpl. lia.
  - destruct s as [|c s]; [discriminate|].
    destruct (digit c) as [d|] eqn:Hd; [|discriminate].
    apply digit_range in Hd. apply IH in H; [|lia].
    rewrite Nat2Z.inj_succ, Z.pow_succ_r by lia.
    assert (0 < 10 ^ Z.of_nat n) by (apply Z.pow_pos_nonneg; lia).
    nia.
Qed.

Lemma expect_consumes c s r :
  Ascii.eqb c "T" = false -> expect c s = Some r -> consumes s r.
Proof.
  intros Hc. unfold expect. destruct s as [|a s]; [discriminate|].
  destruct (Ascii.eqb_spec a c) as [->|]; [|discriminate].
  intros [= ->]. apply consumes_char, Hc.
Qed.

Lemma read_opt_field_consumes sep n dflt s v r :
  Ascii.eqb sep "T" = false ->
  read_opt_field sep n dflt s = Some (v, r) -> consumes s r.
Proof.
  intros Hs. unfold read_opt_field. destruct s as [|a s].
  - intros [= _ <-]. apply consumes_refl.
  - destruct (Ascii.eqb_spec a sep) as [->|].
    + intros H. eapply consumes_trans; [apply consumes_char, Hs|].
      eapply read_digits_consumes, H.
    + intros [= _ <-]. apply consumes_refl.
Qed.

Lemma read_opt_field_bounds sep n dflt s v r :
  read_opt_field sep n dflt s = Some (v, r) ->
  v = dflt \/ 0 <= v <= 10 ^ Z.of_nat n - 1.
Proof.
  unfold read_opt_field. destruct s as [|a s].
  - intros [= <- _]. left; reflexivity.
  - destruct (Ascii.eqb a sep).
    + intros H. apply read_digits_bounds in H; lia.
    + intros [= <- _]. left; reflexivity.
Qed.

Lemma read_year_consumes s v r : read_year s = Some (v, r) -> consumes s r.
Proof.
  unfold read_year. destruct s as [|c s]; [discriminate|].
  destruct (Ascii.eqb_spec c "+") as [->|].
  { intros H. eapply consumes_trans; [apply consumes_char; reflexivity|].
    eapply read_digits_consumes, H. }
  destruct (Ascii.eqb_spec c "-") as [->|].
  - destruct (read_digits 6 s 0) as [[y r']|] eqn:E; [|discriminate].
    destruct (y =? 0); [discriminate|]. intros [= _ <-].
    eapply consumes_trans; [apply consumes_char; reflexivity|].
    eapply read_digits_consumes, E.
  - apply read_digits_consumes.
Qed.

Lemma parseDatePart_consumes s y m d r :
  parseDatePart s = Some (y, m, d, r) -> consumes s r.
Proof.
  unfold parseDatePart.
  destruct (read_year s) as [[y' r1]|] eqn:E1; [|discriminate].
  destruct (read_opt_field "-" 2 1 r1) as [[m' r2]|] eqn:E2; [|discriminate].
  destruct (read_opt_field "-" 2 1 r2) as [[d' r3]|] eqn:E3; [|discriminate].
  destruct ((1 <=? m') && (m' <=? 12) && (1 <=? d') && (d' <=? daysInMonth y' m'));
    [|discriminate].
  intros [= _ _ _ <-].
  apply read_year_consumes in E1.
  apply read_opt_field_consumes in E2; [|reflexivity].
  apply read_opt_field_consumes in E3; [|reflexivity].
  eauto using consumes_trans.
Qed.

Lemma consumes_lacks s r : consumes s r -> lacks "T" r = true -> lacks "T" s = true.
Proof. intros (p & -> & Hp) Hr. rewrite lacks_app, Hp, Hr. reflexivity. Qed.

Lemma read_zone_lacks s oz : read_zone s = Some oz -> lacks "T" s = true.
Proof.
  unfold read_zone. destruct s as [|c s]; [reflexivity|].
  destruct (Ascii.eqb_spec c "Z") as [->|].
  { destruct s; [reflexivity|discriminate]. }
  destruct (Ascii.eqb c "+" || Ascii.eqb c "-") eqn:Hc; [|discriminate].
  destruct (read_digits 2 s 0) as [[h r]|] eqn:E1; [|discriminate].
  destruct (expect ":" r) as [r'|] eqn:E2; [|discriminate].
  destruct (read_digits 2 r' 0) as [[m r'']|] eqn:E3; [|discriminate].
  destruct r''; [|discriminate]. intros _.
  apply read_digits_consumes in E1, E3.
  apply expect_consumes in E2; [|reflexivity].
  assert (Ascii.eqb c "T" = false) as HcT.
  { destruct (Ascii.eqb_spec c "T") as [->|]; [discriminate|reflexivity]. }
  apply (consumes_lacks _ EmptyString); [|reflexivity].
  eapply consumes_trans; [apply consumes_char, HcT|].
  eauto using consumes_trans.
Qed.

Lemma read_seconds_consumes s sec ms r :
  read_seconds s = Some (sec, ms, r) -> consumes s r.
Proof.
  unfold read_seconds. destruct s as [|c s].
  - intros [= _ _ <-]. apply consumes_refl.
  - destruct (Ascii.eqb_spec c ":") as [->|].
    + destruct (read_digits 2 s 0) as [[sec' r1]|] eqn:E1; [|discriminate].
      destruct (read_opt_field "." 3 0 r1) as [[ms' r2]|] eqn:E2; [|discriminate].
      intros [= _ _ <-].
      apply read_digits_consumes in E1.
      apply read_opt_field_consumes in E2; [|reflexivity].
      eapply consumes_trans; [apply consumes_char; reflexivity|].
      eauto using consumes_trans.
    + intros [= _ _ <-]. apply consumes_refl.
Qed.

Lemma read_seconds_bounds s sec ms r :
  read_seconds s = Some (sec, ms, r) -> 0 <= sec /\ 0 <= ms <= 999.
Proof.
  unfold read_seconds. destruct s as [|c s].
  - intros [= <- <- _]. lia.
  - destruct (Ascii.eqb c ":").
    + destruct (read_digits 2 s 0) as [[sec' r1]|] eqn:E1; [|discriminate].
      destruct (read_opt_field "." 3 0 r1) as [[ms' r2]|] eqn:E2; [|discriminate].
      intros [= <- <- _].
      apply read_digits_bounds in E1; [|lia].
      apply read_opt_field_bounds in E2. simpl in *. lia.
    + intros [= <- <- _]. lia.
Qed.

(** A time part in the format has no [T] and denotes a time of day. *)
Lemma parseTimePart_inv s tm oz :
  parseTimePart s = Some (tm, oz) ->
  lacks "T" s = true /\ 0 <= tm <= msPerDay.
Proof.
  unfold parseTimePart.
  destruct (read_digits 2 s 0) as [[h r1]|] eqn:E1; [|discriminate].
  destruct (expect ":" r1) as [r2|] eqn:E2; [|discriminate].
  destruct (read_digits 2 r2 0) as [[mi r3]|] eqn:E3; [|discriminate].
  destruct (read_seconds r3) as [[[sec ms] r4]|] eqn:E4; [|discriminate].
  destruct (read_zone r4) as [oz'|] eqn:E5; [|discriminate].
  destruct ((h <=? 24) && (mi <=? 59) && (sec <=? 59)
            && ((h <? 24) || ((mi =? 0) && (sec =? 0) && (ms =? 0)))) eqn:G;
    [|discriminate].
  intros [= <- <-]. split.
  - apply read_zone_lacks in E5.
    apply read_digits_consumes in E1, E3.
    apply expect_consumes in E2; [|reflexivity].
    apply read_seconds_consumes in E4.
    eapply consumes_lacks; [|exact E5]. eauto using consumes_trans.
  - apply read_digits_bounds in E1, E3; try lia.
    apply read_seconds_bounds in E4.
    unfold MakeTime, msPerHour, msPerMinute, msPerSecond, msPerDay.
    simpl in E1, E3. lia.
Qed.

Lemma append_nil_r (s : string) : s +:+ EmptyString = s.
Proof.
  induction s as [|c s IH]; [reflexivity|].
  change (String c (s +:+ EmptyString) = String c s). congruence.
Qed.

Lemma lacks_T_template date t : lacks "T" (date +:+ String "T" t) = false.
Proof. rewrite lacks_app. simpl. apply andb_false_r. Qed.

(** A string with a single [T] splits around it in one way only. *)
Lemma split_at_T_unique p : forall r date t,
  p +:+ String "T" r = date +:+ String "T" t ->
  lacks "T" p = true -> lacks "T" r = true -> r = t.
Proof.
  induction p as [|c p IH]; intros r date t Heq Hp Hr.
  - destruct date as [|c' date].
    + inversion Heq. reflexivity.
    + change (String "T" r = String c' (date +:+ String "T" t)) in Heq.
      inversion Heq; subst. rewrite lacks_T_template in Hr. discriminate.
  - simpl in Hp. apply andb_prop in Hp as [Hc Hp].
    destruct date as [|c' date].
    + change (String c (p +:+ String "T" r) = String "T" t) in Heq.
      inversion Heq; subst. discriminate.
    + change (String c (p +:+ String "T" r) = String c' (date +:+ String "T" t)) in Heq.
      inversion Heq; subst. eauto.
Qed.

(** Whatever the date string, a time outside the format leaves the
    reading of the whole string to the host. *)
Lemma parseFormat_bad_time z date t :
  parseTimePart t = None -> parseFormat z (date +:+ "T" +:+ t) = None.
Proof.
  intros Ht. unfold parseFormat.
  change (date +:+ "T" +:+ t) with (date +:+ String "T" t).
  destruct (parseDatePart (date +:+ String "T" t)) as [[[[y m] d] r]|] eqn:E;
    [|reflexivity].
  apply parseDatePart_consumes in E as (p & Heq & Hp).
  destruct r as [|c r].
  - rewrite append_nil_r in Heq. subst p.
    rewrite lacks_T_template in Hp. discriminate.
  - destruct (Ascii.eqb_spec c "T") as [->|]; [|reflexivity].
    destruct (parseTimePart r) as [[tm oz]|] eqn:Er; [|reflexivity].
    pose proof (parseTimePart_inv _ _ _ Er) as [Hr _].
    symmetry in Heq. apply split_at_T_unique in Heq; [|assumption..].
    subst r. congruence.
Qed.

(** The offset written in a time is less than a day. *)
Lemma parseTimePart_offset s tm off :
  parseTimePart s = Some (tm, Some off) -> Z.abs off < msPerDay.
Proof.
  unfold parseTimePart.
  destruct (read_digits 2 s 0) as [[h r1]|]; [|discriminate].
  destruct (expect ":" r1) as [r2|]; [|discriminate].
  destruct (read_digits 2 r2 0) as [[mi r3]|]; [|discriminate].
  destruct (read_seconds r3) as [[[sec ms] r4]|]; [|discriminate].
  destruct (read_zone r4) as [oz|] eqn:E5; [|discriminate].
  destruct ((h <=? 24) && (mi <=? 59) && (sec <=? 59)
            && ((h <? 24) || ((mi =? 0) && (sec =? 0) && (ms =? 0))));
    [|discriminate].
  intros [= _ ->]. revert E5. unfold read_zone.
  destruct r4 as [|c r]; [discriminate|].
  destruct (Ascii.eqb c "Z").
  { destruct r; [|discriminate]. intros [= <-]. reflexivity. }
  destruct (Ascii.eqb c "+" || Ascii.eqb c "-"); [|discriminate].
  destruct (read_digits 2 r 0) as [[oh r']|] eqn:E1; [|discriminate].
  destruct (expect ":" r') as [r''|]; [|discriminate].
  destruct (read_digits 2 r'' 0) as [[om q]|] eqn:E2; [|discriminate].
  destruct q; [|discriminate].
  destruct (Z.leb_spec oh 23); [|discriminate].
  destruct (Z.leb_spec om 59); [|discriminate].
  apply read_digits_bounds in E1, E2; try lia. simpl in E1, E2.
  intros [= <-]. unfold msPerHour, msPerMinute, msPerDay.
  destruct (Ascii.eqb c "-"); lia.
Qed.

(** ** Dates of the years that [Date] covers entirely *)

Lemma parseDatePart_bounds s y m d r :
  parseDatePart s = Some (y, m, d, r) -> 1 <= m <= 12 /\ 1 <= d <= 31.
Proof.
  unfold parseDatePart.
  destruct (read_year s) as [[y' r1]|]; [|discriminate].
  destruct (read_opt_field "-" 2 1 r1) as [[m' r2]|]; [|discriminate].
  destruct (read_opt_field "-" 2 1 r2) as [[d' r3]|]; [|discriminate].
  destruct (Z.leb_spec 1 m'); [|discriminate].
  destruct (Z.leb_spec m' 12); [|discriminate].
  destruct (Z.leb_spec 1 d'); [|discriminate].
  destruct (Z.leb_spec d' (daysInMonth y' m')) as [Hd|]; [|discriminate].
  intros [= <- <- <- _]. split; [lia|]. split; [lia|].
  assert (daysInMonth y' m' <= 31); [|lia].
  unfold daysInMonth. repeat case_match; lia.
Qed.

Lemma monthStart_range m leap : 0 <= leap <= 1 -> 0 <= monthStart m leap <= 335.
Proof. intros H. unfold monthStart. repeat case_match; lia. Qed.

Lemma DayFromYear_le y y' : y <= y' -> DayFromYear y <= DayFromYear y'.
Proof.
  intros H. unfold DayFromYear. Z.to_euclidean_division_equations. lia.
Qed.

Lemma MakeDay_years y m d :
  -271820 <= y <= 275759 -> 1 <= m <= 12 -> 1 <= d <= 31 ->
  -99999744 <= MakeDay y (m - 1) d <= 99999744.
Proof.
  intros Hy Hm Hd. unfold MakeDay.
  rewrite Z.div_small, Z.mod_small, Z.add_0_r by lia.
  set (leap := if DaysInYear y =? 366 then 1 else 0).
  assert (0 <= leap <= 1) as Hl by (unfold leap; case_match; lia).
  pose proof (monthStart_range (m - 1) leap Hl) as Hs.
  pose proof (DayFromYear_le (-271820) y ltac:(lia)) as H1.
  pose proof (DayFromYear_le y 275759 ltac:(lia)) as H2.
  change (DayFromYear (-271820)) with (-99999744) in H1.
  change (DayFromYear 275759) with 99999379 in H2.
  lia.
Qed.

(** A date of these years with a time of day in the format is read as an
    instant 250 days or more inside the range of time values. *)
Lemma Date_parse_years z date time y m d tm oz :
  parseDatePart date = Some (y, m, d, EmptyString) ->
  -271820 <= y <= 275759 ->
  parseTimePart time = Some (tm, oz) ->
  Date_parse z (date +:+ "T" +:+ time) = Num (instant z (MakeDay y (m - 1) d) tm oz)
  /\ Z.abs (instant z (MakeDay y (m - 1) d) tm oz) <= maxTime - 250 * msPerDay.
Proof.
  intros Hd Hy Ht.
  pose proof (parseDatePart_bounds _ _ _ _ _ Hd) as [Hm Hday].
  pose proof (MakeDay_years y m d Hy Hm Hday) as Hrange.
  pose proof (parseTimePart_inv _ _ _ Ht) as [_ Htm].
  assert (Z.abs (instant z (MakeDay y (m - 1) d) tm oz) <= maxTime - 250 * msPerDay)
    as Hb.
  { unfold instant, UTC, MakeDate. destruct oz as [off|].
    - pose proof (parseTimePart_offset _ _ _ Ht) as Hoff.
      unfold maxTime, msPerDay in *. lia.
    - pose proof (LocalTZA_local_lt_day z (MakeDay y (m - 1) d * msPerDay + tm)) as Hoff.
      unfold maxTime, msPerDay in *. lia. }
  split; [|exact Hb].
  rewrite (Date_parse_template _ _ _ _ _ _ _ _ Hd Ht).
  apply TimeClip_in. unfold maxTime, msPerDay in *. lia.
Qed.

(** ** [calculateDuration] *)

Lemma round_div_nonneg z d : 0 < d -> 0 <= z -> 0 <= round_div z d.
Proof. intros Hd Hz. unfold round_div. apply Z.div_pos; lia. Qed.

(** The two dates [calculateDuration] builds, in a zone without
    transitions, for a date of a year that [Date] covers entirely. *)
Lemma calculateDuration_fixed env off date start end_ y m d s e :
  fixed_offset (zone env) off ->
  parseDatePart date = Some (y, m, d, EmptyString) ->
  -271820 <= y <= 275759 ->
  parseTimePart start = Some (s, None) ->
  parseTimePart end_ = Some (e, None) ->
  App.calculateDuration env date start end_
  = Normal (Num (round_div ((if e <? s then e + msPerDay else e) - s) 60000)).
Proof.
  intros Hz Hd Hy Hs He. unfold App.calculateDuration, App.Date_new.
  destruct (Date_parse_years (zone env) _ _ _ _ _ _ _ Hd Hy Hs) as [-> Hbs].
  destruct (Date_parse_years (zone env) _ _ _ _ _ _ _ Hd Hy He) as [-> Hbe].
  unfold instant in *. set (day := MakeDay y (m - 1) d) in *.
  destruct Hz as [Hu Hl]. unfold UTC in *. rewrite !Hl in *.
  unfold num_lt, MakeDate in *.
  destruct (Z.ltb_spec e s) as [Hlt|Hge].
  - destruct (Z.ltb_spec (day * msPerDay + e - off) (day * msPerDay + s - off)); [|lia].
    rewrite (setDate_getDate_shift _ off) by (split; assumption).
    rewrite TimeClip_in by (unfold maxTime, msPerDay in *; lia).
    unfold num_sub, Math_round_div. do 3 f_equal. lia.
  - destruct (Z.ltb_spec (day * msPerDay + e - off) (day * msPerDay + s - off)); [lia|].
    unfold num_sub, Math_round_div. do 3 f_equal. lia.
Qed.




(** C2, as amended: for a date and a time of day that [Date] reads, a
    start equal to the end gives 0 minutes, in every zone; the entry is
    not taken as overnight. *)
Theorem calculateDuration_same_time env date t :
  is_num (App.Date_new env (date +:+ "T" +:+ t)) ->
  App.calculateDuration env date t t = Normal (Num 0)
  /\ App.calculateDuration env date t t <> Normal (Num 1440).
Proof.
  intros Ht.
  assert (App.calculateDuration env date t t = Normal (Num 0)) as H.
  { unfold App.calculateDuration.
    destruct (App.Date_new env (date +:+ "T" +:+ t)) as [v|]; [|contradiction].
    unfold num_lt. rewrite Z.ltb_irrefl.
    unfold num_sub. rewrite Z.sub_diag. reflexivity. }
  split; [exact H|]. rewrite H. discriminate.
Qed.

Lemma calculateDuration_same_time_witness :
  App.calculateDuration sampleEnv "2024-01-01" "09:00" "09:00" = Normal (Num 0)
  /\ App.calculateDuration sampleEnv "2024-01-01" "09:00" "09:00" <> Normal (Num 1440).
Proof.
  apply (calculateDuration_same_time sampleEnv "2024-01-01" "09:00").
  vm_compute. exact I.
Defined.

(** C2 as the specification words it fails: a date beyond the last day of
    [Date], 100,000,000 days after the epoch, gives an invalid date with
    every time of day, and a start equal to the end gives [NaN], in every
    zone and on every host. *)
Lemma calculateDuration_same_time_beyond_Date :
  parseDatePart "+300000-01-01" = Some (300000, 1, 1, EmptyString)
  /\ parseTimePart "09:00" = Some (32400000, None)
  /\ forall env,
       App.calculateDuration env "+300000-01-01" "09:00" "09:00" = Normal NaN.
Proof.
  split; [reflexivity|]. split; [reflexivity|]. intros env.
  unfold App.calculateDuration, App.Date_new.
  rewrite (Date_parse_template (zone env) "+300000-01-01" "09:00"
             300000 1 1 32400000 None eq_refl eq_refl).
  unfold instant, UTC.
  assert (MakeDate (MakeDay 300000 (1 - 1) 1) 32400000 = 9404918413200000) as ->
    by reflexivity.
  pose proof (LocalTZA_local_lt_day (zone env) 9404918413200000) as Hoff.
  unfold TimeClip.
  destruct (Z.leb_spec
              (9404918413200000 - LocalTZA_local (zone env) 9404918413200000)
              maxTime) as [H|H].
  - unfold maxTime, msPerDay in *. lia.
  - rewrite andb_false_r. reflexivity.
Qed.

(** C3, as amended: when [Date] cannot read the start or the end on the
    date, so that the date built from it is invalid, [calculateDuration]
    raises nothing: it returns [NaN], which is neither zero nor any other
    duration. *)
Theorem calculateDuration_invalid_time env date start end_ :
  App.Date_new env (date +:+ "T" +:+ start) = NaN
  \/ App.Date_new env (date +:+ "T" +:+ end_) = NaN ->
  App.calculateDuration env date start end_ = Normal NaN.
Proof.
  intros H. unfold App.calculateDuration.
  destruct H as [H|H]; rewrite H.
  - destruct (App.Date_new env (date +:+ "T" +:+ end_)); reflexivity.
  - destruct (App.Date_new env (date +:+ "T" +:+ start)); reflexivity.
Qed.

Lemma calculateDuration_invalid_time_witness :
  App.calculateDuration sampleEnv "2024-01-01" "9 o'clock" "10:00" = Normal NaN.
Proof.
  apply (calculateDuration_invalid_time sampleEnv "2024-01-01" "9 o'clock" "10:00").
  left. reflexivity.
Defined.

(** C3 as the specification words it fails: no error is raised for a time
    that cannot be read. *)
Lemma calculateDuration_raises_no_error :
  parseTimePart "9 o'clock" = None
  /\ ~ (exists err, App.calculateDuration sampleEnv "2024-01-01" "9 o'clock" "10:00"
                    = Throw err).
Proof.
  split; [reflexivity|]. intros [err H]. vm_compute in H. discriminate H.
Qed.

(** ** Dictionaries of numbers *)





Section Tally.

Context {E : Type} (key : E -> string) (val : E -> number).

Lemma tally_numeric totals e :
  numeric totals -> is_num (val e) -> numeric (tally key val totals e).
Proof.
  intros Hm He. unfold tally. apply map_Forall_insert_2; [|exact Hm].
  pose proof (or_zero_is_num (totals !! key e)).
  destruct (or_zero (totals !! key e)), (val e); simpl in *; tauto.
Qed.

Lemma foldl_tally_numeric l : forall totals,
  numeric totals -> Forall (fun e => is_num (val e)) l ->
  numeric (foldl (tally key val) totals l).
Proof.
  induction l as [|e l IH]; intros totals Hm Hl; simpl; [exact Hm|].
  inversion Hl; subst. apply IH; [apply tally_numeric|]; assumption.
Qed.



(** A bucket exists exactly for the keys met. *)
Lemma foldl_tally_is_Some l : forall totals k,
  is_Some (foldl (tally key val) totals l !! k)
  <-> is_Some (totals !! k) \/ Exists (fun e => key e = k) l.
Proof.
  induction l as [|e l IH]; intros totals k; simpl.
  - rewrite Exists_nil. tauto.
  - rewrite IH, Exists_cons. unfold tally.
    destruct (decide (key e = k)) as [->|Hne].
    + rewrite lookup_insert_eq. split; [tauto|]. intros _. left. eauto.
    + rewrite lookup_insert_ne by exact Hne. tauto.
Qed.

(** The bucket of [k] holds the sum over the entries whose key is [k]. *)
Lemma minutesIn_foldl_tally l : forall totals k,
  numeric totals -> Forall (fun e => is_num (val e)) l ->
  minutesIn (foldl (tally key val) totals l) k
  = minutesIn totals k
    + total_of (fun e => num_val (val e))
        (List.filter (fun e => String.eqb (key e) k) l).
Proof.
  induction l as [|e l IH]; intros totals k Hm Hl; simpl.
  - lia.
  - inversion Hl as [|? ? He Hl']; subst.
    rewrite IH by (try apply tally_numeric; assumption).
    unfold tally at 1. unfold minutesIn at 1.
    destruct (String.eqb_spec (key e) k) as [->|Hne].
    + rewrite lookup_insert_eq. simpl. unfold minutesIn.
      destruct (totals !! k) as [v|] eqn:Hk.
      * pose proof (Hm _ _ Hk) as Hv. destruct v as [a|]; [|contradiction].
        rewrite or_zero_Num. destruct (val e); [simpl; lia|contradiction].
      * simpl. destruct (val e); [simpl; lia|contradiction].
    + rewrite lookup_insert_ne by exact Hne. fold (minutesIn totals k). lia.
Qed.

End Tally.

(** ** Objects as dictionaries *)

Lemma ordinary_not_proto k : ordinary k -> String.eqb k "__proto__" = false.
Proof.
  intros H. destruct (String.eqb_spec k "__proto__") as [->|]; [|reflexivity].
  discriminate H.
Qed.

Lemma Object_set_lookup_ne {V} (o : gmap string V) i k v :
  i <> k -> Object_set o i v !! k = o !! k.
Proof.
  intros H. unfold Object_set. destruct (String.eqb i "__proto__"); [reflexivity|].
  apply lookup_insert_ne, H.
Qed.

Lemma Object_set_lookup_eq {V} (o : gmap string V) k v :
  String.eqb k "__proto__" = false -> Object_set o k v !! k = Some v.
Proof. intros H. unfold Object_set. rewrite H. apply lookup_insert_eq. Qed.

(** No assignment gives an object a property [__proto__] of its own. *)
Lemma Object_set_proto {V} (o : gmap string V) k v :
  o !! "__proto__"%string = None -> Object_set o k v !! "__proto__"%string = None.
Proof.
  intros H. unfold Object_set.
  destruct (String.eqb_spec k "__proto__") as [->|Hne]; [exact H|].
  rewrite lookup_insert_ne by exact Hne. exact H.
Qed.

Lemma Object_set_is_Some {V} (o : gmap string V) i k v :
  is_Some (Object_set o i v !! k) -> is_Some (o !! k) \/ i = k.
Proof.
  destruct (decide (i = k)) as [->|Hne]; [tauto|].
  rewrite Object_set_lookup_ne by exact Hne. tauto.
Qed.

Section TallyObject.

Context {E : Type} (key : E -> string) (val : E -> number).

Lemma tallyObject_lookup_ne totals e k :
  key e <> k -> tallyObject key val totals e !! k = totals !! k.
Proof. intros H. apply Object_set_lookup_ne, H. Qed.

(** Under an ordinary key the step is the step on numbers. *)
Lemma tallyObject_lookup_eq totals m e :
  ordinary (key e) ->
  totals !! key e = Number <$> m !! key e ->
  tallyObject key val totals e !! key e = Number <$> tally key val m e !! key e.
Proof.
  intros Hk H. unfold tallyObject, tally.
  rewrite Object_set_lookup_eq by (apply ordinary_not_proto, Hk).
  rewrite lookup_insert_eq. unfold Object_get. rewrite H, Hk.
  destruct (m !! key e) as [n|]; reflexivity.
Qed.

Lemma foldl_tallyObject_lookup l : forall totals m k,
  ordinary k ->
  totals !! k = Number <$> m !! k ->
  foldl (tallyObject key val) totals l !! k
  = Number <$> foldl (tally key val) m l !! k.
Proof.
  induction l as [|e l IH]; intros totals m k Hk H; [exact H|].
  simpl. apply IH; [exact Hk|].
  destruct (decide (key e = k)) as [<-|Hne].
  - apply tallyObject_lookup_eq; assumption.
  - rewrite tallyObject_lookup_ne by exact Hne.
    unfold tally. rewrite lookup_insert_ne by exact Hne. exact H.
Qed.

Lemma foldl_tallyObject_proto l : forall totals,
  totals !! "__proto__"%string = None ->
  foldl (tallyObject key val) totals l !! "__proto__"%string = None.
Proof.
  induction l as [|e l IH]; intros totals H; [exact H|].
  simpl. apply IH. apply Object_set_proto, H.
Qed.

(** A property of the totals is there from the start or under the key of
    an entry; under every key but [__proto__] the converse holds too. *)
Lemma foldl_tallyObject_is_Some l : forall totals k,
  (is_Some (foldl (tallyObject key val) totals l !! k)
   -> is_Some (totals !! k) \/ Exists (fun e => key e = k) l)
  /\ (k <> "__proto__"%string ->
      is_Some (totals !! k) \/ Exists (fun e => key e = k) l ->
      is_Some (foldl (tallyObject key val) totals l !! k)).
Proof.
  induction l as [|e l IH]; intros totals k; simpl.
  - rewrite Exists_nil. tauto.
  - rewrite Exists_cons.
    destruct (IH (tallyObject key val totals e) k) as [IH1 IH2].
    split.
    + intros H. apply IH1 in H as [H|H]; [|tauto].
      apply Object_set_is_Some in H. tauto.
    + intros Hk H. apply IH2; [exact Hk|].
      destruct (decide (key e = k)) as [<-|Hne].
      * left. unfold tallyObject.
        rewrite Object_set_lookup_eq; [eauto|].
        apply String.eqb_neq, Hk.
      * rewrite tallyObject_lookup_ne by exact Hne. tauto.
Qed.


End TallyObject.


Lemma minutesAt_numbers (m : gmap string number) k :
  minutesAt (Number <$> m) k = minutesIn m k.
Proof.
  unfold minutesAt, minutesIn. rewrite lookup_fmap.
  destruct (m !! k) as [[z|]|]; reflexivity.
Qed.

(** ** The date part of [toISOString] *)

Lemma split_head_app sep a b :
  lacks sep a = true -> split_head sep (a +:+ String sep b) = a.
Proof.
  induction a as [|c a IH]; intros H.
  - simpl. rewrite Ascii.eqb_refl. reflexivity.
  - simpl in H. apply andb_prop in H as [Hc Ha].
    change (String c a +:+ String sep b) with (String c (a +:+ String sep b)).
    simpl. destruct (Ascii.eqb c sep); [discriminate|]. rewrite IH by exact Ha.
    reflexivity.
Qed.

Lemma digit_char_not_T r : 0 <= r <= 9 -> Ascii.eqb (digit_char r) "T" = false.
Proof.
  intros H.
  assert (r = 0 \/ r = 1 \/ r = 2 \/ r = 3 \/ r = 4 \/ r = 5 \/ r = 6 \/ r = 7
          \/ r = 8 \/ r = 9) as Hr by lia.
  repeat (destruct Hr as [->|Hr]; [reflexivity|]). subst r. reflexivity.
Qed.

Lemma pad_lacks_T n : forall v, lacks "T" (pad n v) = true.
Proof.
  induction n as [|n IH]; intros v; [reflexivity|].
  change (pad (S n) v)
    with (pad n (v / 10) +:+ String (digit_char (v mod 10)) EmptyString).
  rewrite lacks_app, IH. simpl.
  rewrite digit_char_not_T by (pose proof (Z.mod_pos_bound v 10); lia).
  reflexivity.
Qed.

Lemma isoYear_lacks_T y : lacks "T" (isoYear y) = true.
Proof.
  unfold isoYear. destruct ((0 <=? y) && (y <=? 9999)).
  - apply pad_lacks_T.
  - change (lacks "T" (String (if y <? 0 then "-"%char else "+"%char) (pad 6 (Z.abs y))))
      with (negb (Ascii.eqb (if y <? 0 then "-"%char else "+"%char) "T")
            && lacks "T" (pad 6 (Z.abs y))).
    rewrite pad_lacks_T. destruct (y <? 0); reflexivity.
Qed.

Lemma isoDatePart_lacks_T t : lacks "T" (isoDatePart t) = true.
Proof.
  unfold isoDatePart.
  rewrite !lacks_app, isoYear_lacks_T, !pad_lacks_T. reflexivity.
Qed.

Lemma Day_of_day d : Day (d * msPerDay) = d.
Proof. unfold Day. apply Z.div_mul. discriminate. Qed.

(** The date part depends on the day number only. *)
Lemma isoDatePart_Day t : isoDatePart t = isoDate (Day t).
Proof.
  unfold isoDate, isoDatePart, DateFromTime, MonthFromTime, InLeapYear,
    DayWithinYear, YearFromTime.
  rewrite Day_of_day. reflexivity.
Qed.

(** [d.toISOString().split('T')[0]] for a valid date [d]. *)
Lemma toISOString_date t :
  exists iso, Date_toISOString (Num t) = Normal iso
              /\ split_head "T" iso = isoDate (Day t).
Proof.
  eexists. split; [reflexivity|].
  change (isoDatePart t +:+ "T" +:+ isoTimePart t +:+ "Z")
    with (isoDatePart t +:+ String "T" (isoTimePart t +:+ "Z")).
  rewrite split_head_app by apply isoDatePart_lacks_T.
  apply isoDatePart_Day.
Qed.

(** ** The seven days of [getWeeklyAverages] *)

Lemma Day_back t k : Day (t - k * msPerDay) = Day t - k.
Proof.
  replace (t - k * msPerDay) with (t + (- k) * msPerDay) by lia.
  rewrite Day_shift. lia.
Qed.

Lemma num_sub_as_add z t k :
  num_sub (Date_getDate z (Num t)) (Num k)
  = num_add (Date_getDate z (Num t)) (Num (- k)).
Proof. reflexivity. Qed.

(** The loop never raises and pushes one day per iteration. *)
Lemma last7Days_from_normal env i :
  (i <= 6)%nat ->
  exists days, last7Days_from env (Num (clock env)) i = Normal days
               /\ length days = S i.
Proof.
  intros Hi. pose proof (clock_bounds env) as Hc.
  assert (forall k : nat, (k <= 6)%nat ->
            exists t', Date_setDate (zone env) (Num (clock env))
                         (num_sub (Date_getDate (zone env) (Num (clock env)))
                            (Num (Z.of_nat k))) = Num t') as Hset.
  { intros k Hk. rewrite num_sub_as_add.
    destruct (setDate_getDate_near (zone env) (clock env) (- Z.of_nat k))
      as (v & -> & Hnear).
    exists v. apply TimeClip_in. unfold maxTime, msPerDay in *. lia. }
  induction i as [|i IH].
  - unfold last7Days_from. destruct (Hset 0%nat Hi) as (t' & ->).
    destruct (toISOString_date t') as (iso & -> & _). unfold bind. eauto.
  - unfold last7Days_from; fold last7Days_from.
    destruct (Hset (S i) Hi) as (t' & ->).
    destruct (toISOString_date t') as (iso & -> & _).
    destruct IH as (days & -> & Hlen); [lia|].
    unfold bind. eexists. split; [reflexivity|]. simpl. lia.
Qed.

(** In a zone without transitions the loop lists consecutive days. *)
Lemma last7Days_from_fixed env off i :
  fixed_offset (zone env) off ->
  (i <= 6)%nat ->
  last7Days_from env (Num (clock env)) i
  = Normal (map (fun j => isoDate (Day (clock env) - Z.of_nat j)) (rev (seq 0 (S i)))).
Proof.
  intros Hz Hi. pose proof (clock_bounds env) as Hc.
  induction i as [|i IH].
  - unfold last7Days_from.
    rewrite (setDate_getDate_back _ off) by exact Hz.
    rewrite TimeClip_in by (unfold maxTime, msPerDay in *; lia).
    destruct (toISOString_date (clock env - Z.of_nat 0 * msPerDay)) as (iso & -> & Hiso).
    unfold bind. rewrite Hiso, Day_back. reflexivity.
  - unfold last7Days_from; fold last7Days_from.
    rewrite (setDate_getDate_back _ off) by exact Hz.
    rewrite TimeClip_in by (unfold maxTime, msPerDay in *; lia).
    destruct (toISOString_date (clock env - Z.of_nat (S i) * msPerDay))
      as (iso & -> & Hiso).
    rewrite IH by lia. unfold bind. rewrite Hiso, Day_back.
    rewrite (seq_S (S i)), rev_app_distr. reflexivity.
Qed.

(** ** The weekly totals and averages *)

Lemma addDayTotals_lookup weeklyTotals dayTotals k :
  k <> "__proto__"%string ->
  addDayTotals weeklyTotals dayTotals !! k
  = match dayTotals !! k with
    | Some v => Some (plus (or_0 (Object_get weeklyTotals k)) v)
    | None => weeklyTotals !! k
    end.
Proof.
  intros Hk. unfold addDayTotals.
  apply (map_fold_weak_ind
    (fun r (m : gmap string value) =>
       r !! k = match m !! k with
                | Some v => Some (plus (or_0 (Object_get weeklyTotals k)) v)
                | None => weeklyTotals !! k
                end)).
  - rewrite lookup_empty. reflexivity.
  - intros i x m r Hi IH.
    destruct (decide (i = k)) as [->|Hne].
    + rewrite Object_set_lookup_eq by (apply String.eqb_neq, Hk).
      rewrite lookup_insert_eq. unfold Object_get. rewrite IH, Hi. reflexivity.
    + rewrite Object_set_lookup_ne, lookup_insert_ne by exact Hne. exact IH.
Qed.

Lemma addDayTotals_proto weeklyTotals dayTotals :
  weeklyTotals !! "__proto__"%string = None ->
  addDayTotals weeklyTotals dayTotals !! "__proto__"%string = None.
Proof.
  intros H. unfold addDayTotals.
  apply (map_fold_weak_ind
           (fun r (m : gmap string value) => r !! "__proto__"%string = None)).
  - exact H.
  - intros i x m r _ IH. apply Object_set_proto, IH.
Qed.

Lemma averagesOf_lookup weeklyTotals k :
  k <> "__proto__"%string ->
  averagesOf weeklyTotals !! k
  = (fun total => Math_round_div_value total 7) <$> weeklyTotals !! k.
Proof.
  intros Hk. unfold averagesOf.
  apply (map_fold_weak_ind
    (fun r (m : gmap string value) =>
       r !! k = (fun total => Math_round_div_value total 7) <$> m !! k)).
  - rewrite !lookup_empty. reflexivity.
  - intros i x m r Hi IH.
    destruct (decide (i = k)) as [->|Hne].
    + rewrite Object_set_lookup_eq by (apply String.eqb_neq, Hk).
      rewrite lookup_insert_eq. reflexivity.
    + rewrite Object_set_lookup_ne, lookup_insert_ne by exact Hne. exact IH.
Qed.

Lemma averagesOf_proto weeklyTotals :
  averagesOf weeklyTotals !! "__proto__"%string = None.
Proof.
  unfold averagesOf.
  apply (map_fold_weak_ind
           (fun r (m : gmap string value) => r !! "__proto__"%string = None)).
  - apply lookup_empty.
  - intros i x m r _ IH. apply Object_set_proto, IH.
Qed.

(** Under an ordinary key that holds numbers the day is added to the week. *)
Lemma addDayTotals_minutes weeklyTotals dayTotals k :
  ordinary k ->
  numberAt weeklyTotals k -> numberAt dayTotals k ->
  numberAt (addDayTotals weeklyTotals dayTotals) k
  /\ minutesAt (addDayTotals weeklyTotals dayTotals) k
     = minutesAt weeklyTotals k + minutesAt dayTotals k.
Proof.
  intros Hk Hw Hd. unfold numberAt, minutesAt in *.
  rewrite addDayTotals_lookup
    by (apply String.eqb_neq, ordinary_not_proto, Hk).
  unfold Object_get. rewrite Hk.
  destruct (dayTotals !! k) as [[[b|]|]|]; try contradiction.
  - destruct (weeklyTotals !! k) as [[[a|]|]|]; try contradiction.
    + unfold or_0, plus. rewrite or_zero_Num. unfold num_add. split; [exact I|lia].
    + unfold or_0, plus, num_add. split; [exact I|lia].
  - destruct (weeklyTotals !! k) as [[[a|]|]|]; try contradiction; split; (exact I || lia).
Qed.

Section Weekly.

Variable getTotals : string -> completion (gmap string value).
Variable totalsOn : string -> gmap string value.
Hypothesis getTotals_normal : forall d, getTotals d = Normal (totalsOn d).

Lemma weeklyTotalsOver_normal days : forall weeklyTotals,
  exists w, weeklyTotalsOver getTotals days weeklyTotals = Normal w.
Proof.
  induction days as [|d days IH]; intros weeklyTotals.
  - exists weeklyTotals. reflexivity.
  - unfold weeklyTotalsOver; fold weeklyTotalsOver.
    rewrite getTotals_normal. unfold bind. apply IH.
Qed.

(** The week has a total under the keys under which a day has one. *)
Lemma weeklyTotalsOver_is_Some days : forall weeklyTotals w k,
  k <> "__proto__"%string ->
  weeklyTotalsOver getTotals days weeklyTotals = Normal w ->
  is_Some (w !! k)
  <-> is_Some (weeklyTotals !! k)
      \/ Exists (fun d => is_Some (totalsOn d !! k)) days.
Proof.
  induction days as [|d days IH]; intros weeklyTotals w k Hk.
  - intros [= <-]. rewrite Exists_nil. tauto.
  - unfold weeklyTotalsOver; fold weeklyTotalsOver.
    rewrite getTotals_normal. unfold bind. intros Hw.
    rewrite (IH _ _ _ Hk Hw), Exists_cons, addDayTotals_lookup by exact Hk.
    destruct (totalsOn d !! k) as [x|]; split; intros H.
    + right. left. eauto.
    + left. eauto.
    + destruct H as [H|H]; [tauto|]. right. right. exact H.
    + destruct H as [H|[H|H]]; [tauto| |tauto]. destruct H as [? H]. discriminate H.
Qed.

Lemma weeklyTotalsOver_proto days : forall weeklyTotals w,
  weeklyTotals !! "__proto__"%string = None ->
  weeklyTotalsOver getTotals days weeklyTotals = Normal w ->
  w !! "__proto__"%string = None.
Proof.
  induction days as [|d days IH]; intros weeklyTotals w H0.
  - intros [= <-]. exact H0.
  - unfold weeklyTotalsOver; fold weeklyTotalsOver.
    rewrite getTotals_normal. unfold bind. apply IH.
    apply addDayTotals_proto, H0.
Qed.

(** [getWeeklyAverages] returns, with averages over seven days. *)
Lemma weeklyAverages_normal env :
  exists days averages,
    last7Days env = Normal days /\ length days = 7%nat
    /\ weeklyAverages getTotals env = Normal averages.
Proof.
  destruct (last7Days_from_normal env 6) as (days & Hdays & Hlen); [lia|].
  destruct (weeklyTotalsOver_normal days ∅) as (w & Hw).
  exists days, (averagesOf w). unfold weeklyAverages, last7Days.
  rewrite Hdays. unfold bind. rewrite Hw. auto.
Qed.

(** A key has an average exactly when some day of the window has a total
    under it; [__proto__] never has one. *)
Lemma weeklyAverages_is_Some env days averages k :
  last7Days env = Normal days ->
  weeklyAverages getTotals env = Normal averages ->
  (k <> "__proto__"%string ->
   is_Some (averages !! k) <-> Exists (fun d => is_Some (totalsOn d !! k)) days)
  /\ averages !! "__proto__"%string = None.
Proof.
  intros Hdays. unfold weeklyAverages. rewrite Hdays. unfold bind.
  destruct (weeklyTotalsOver getTotals days ∅) as [w|] eqn:Hw; [|discriminate].
  intros [= <-]. split; [|apply averagesOf_proto].
  intros Hk. rewrite averagesOf_lookup by exact Hk.
  rewrite fmap_is_Some, (weeklyTotalsOver_is_Some _ _ _ _ Hk Hw), lookup_empty.
  split; [|tauto]. intros [[x H]|H]; [discriminate H|exact H].
Qed.

Variable tag : string.
Hypothesis tag_ordinary : ordinary tag.
Hypothesis totalsOn_number : forall d, numberAt (totalsOn d) tag.

Lemma weeklyTotalsOver_minutes days : forall weeklyTotals w,
  numberAt weeklyTotals tag ->
  weeklyTotalsOver getTotals days weeklyTotals = Normal w ->
  numberAt w tag
  /\ minutesAt w tag = minutesAt weeklyTotals tag + weekSum totalsOn days tag.
Proof.
  induction days as [|d days IH]; intros weeklyTotals w H0.
  - intros [= <-]. split; [exact H0|]. unfold weekSum. simpl. lia.
  - unfold weeklyTotalsOver; fold weeklyTotalsOver.
    rewrite getTotals_normal. unfold bind. intros Hw.
    destruct (addDayTotals_minutes weeklyTotals (totalsOn d) tag tag_ordinary H0
                (totalsOn_number d)) as [Hn Hm].
    destruct (IH _ _ Hn Hw) as [Hn' Hm'].
    split; [exact Hn'|]. rewrite Hm', Hm. unfold weekSum. simpl. lia.
Qed.

(** The average of a tag is its week sum divided by 7 and rounded; a tag
    has an average exactly when some day of the window has a total for it. *)
Lemma weeklyAverages_tag env days averages :
  last7Days env = Normal days ->
  weeklyAverages getTotals env = Normal averages ->
  (Exists (fun d => is_Some (totalsOn d !! tag)) days ->
   averages !! tag = Some (Num (round_div (weekSum totalsOn days tag) 7)))
  /\ (~ Exists (fun d => is_Some (totalsOn d !! tag)) days ->
      averages !! tag = None).
Proof.
  intros Hdays. unfold weeklyAverages. rewrite Hdays. unfold bind.
  destruct (weeklyTotalsOver getTotals days ∅) as [w|] eqn:Hw; [|discriminate].
  intros [= <-].
  assert (tag <> "__proto__"%string) as Hk
    by (apply String.eqb_neq, ordinary_not_proto, tag_ordinary).
  assert (numberAt ∅ tag) as H0 by (unfold numberAt; rewrite lookup_empty; exact I).
  destruct (weeklyTotalsOver_minutes days ∅ w H0 Hw) as [Hn Hm].
  pose proof (weeklyTotalsOver_is_Some days ∅ w tag Hk Hw) as Hdom.
  rewrite lookup_empty in Hdom.
  unfold minutesAt in Hm at 1 2. rewrite lookup_empty in Hm.
  unfold numberAt in Hn.
  rewrite averagesOf_lookup by exact Hk.
  split; intros H.
  - destruct (w !! tag) as [[[z|]|]|] eqn:Hv; try contradiction.
    + simpl. unfold Math_round_div. do 3 f_equal. lia.
    + exfalso. assert (is_Some (@None value)) as [? Hx] by tauto. discriminate Hx.
  - destruct (w !! tag) as [v|] eqn:Hv; [|reflexivity].
    exfalso. assert (is_Some (Some v)) as Hs by eauto.
    apply Hdom in Hs as [[? Hx]|Hx]; [discriminate Hx|contradiction].
Qed.

End Weekly.

(** From the empty dictionary: the bucket of [k] is absent when no entry
    has key [k], and holds the sum of their values otherwise. *)
Lemma foldl_tally_lookup {E} (key : E -> string) (val : E -> number) l k :
  Forall (fun e => is_num (val e)) l ->
  foldl (tally key val) ∅ l !! k
  = match List.filter (fun e => String.eqb (key e) k) l with
    | [] => None
    | es => Some (Num (total_of (fun e => num_val (val e)) es))
    end.
Proof.
  intros Hl.
  assert (numeric ∅) as H0.
  { intros i v Hi. rewrite lookup_empty in Hi. discriminate Hi. }
  pose proof (foldl_tally_numeric key val l ∅ H0 Hl) as Hnum.
  pose proof (minutesIn_foldl_tally key val l ∅ k H0 Hl) as Hsum.
  pose proof (foldl_tally_is_Some key val l ∅ k) as Hdom.
  rewrite lookup_empty in Hdom. unfold minutesIn in Hsum at 1 2.
  rewrite lookup_empty in Hsum.
  assert (Exists (fun e => key e = k) l
          <-> List.filter (fun e => String.eqb (key e) k) l <> []) as Hex.
  { clear. induction l as [|e l IH]; simpl.
    - rewrite Exists_nil. tauto.
    - rewrite Exists_cons. destruct (String.eqb_spec (key e) k); [|tauto].
      split; [discriminate|tauto]. }
  destruct (List.filter (fun e => String.eqb (key e) k) l) as [|e es] eqn:Hf.
  - destruct (foldl (tally key val) ∅ l !! k) as [v|] eqn:Hv; [|reflexivity].
    exfalso. assert (is_Some (Some v)) as Hs by eauto.
    apply Hdom in Hs as [[? Hx]|Hx]; [discriminate Hx|]. apply Hex in Hx. congruence.
  - destruct (foldl (tally key val) ∅ l !! k) as [v|] eqn:Hv.
    + pose proof (Hnum _ _ Hv). destruct v as [z|]; [|contradiction].
      do 2 f_equal. lia.
    + exfalso. assert (is_Some (@None number)) as [? Hx].
      { apply Hdom. right. apply Hex. discriminate. }
      discriminate Hx.
Qed.

(** ** [filter] *)

Lemma Array_filter_normal {A} (p : A -> completion bool) (q : A -> bool) l :
  (forall x, p x = Normal (q x)) -> Array_filter p l = Normal (List.filter q l).
Proof.
  intros H. induction l as [|x l IH]; simpl; [reflexivity|].
  rewrite H, IH. simpl. destruct (q x); reflexivity.
Qed.

Lemma filter_sublist {A} (f : A -> bool) l : sublist (List.filter f l) l.
Proof.
  induction l as [|x l IH]; simpl; [constructor|].
  destruct (f x); constructor; exact IH.
Qed.

Lemma filter_sublist_maximal {A} (f : A -> bool) l l' :
  sublist l' l -> Forall (fun x => f x = true) l' -> sublist l' (List.filter f l).
Proof.
  induction 1 as [|x l1 l2 Hs IH|x l1 l2 Hs IH]; intros Hall; simpl.
  - constructor.
  - inversion Hall as [|? ? Hx Hall']; subst. rewrite Hx. constructor. auto.
  - destruct (f x); [constructor|]; auto.
Qed.

(** ** The two variants in terms of [tallyObject] *)

Lemma empty_numeric : numeric ∅.
Proof. intros i v Hi. rewrite lookup_empty in Hi. discriminate Hi. Qed.

Lemma App_getTotalsByTag_tally entries d :
  App.getTotalsByTag entries d
  = foldl (tallyObject App.tag App.duration) ∅ (App.getEntriesForDate entries d).
Proof. reflexivity. Qed.


(** A dictionary of numbers read as an object holds numbers. *)
Lemma numberAt_numbers (m : gmap string number) k :
  numeric m -> numberAt (Number <$> m) k.
Proof.
  intros Hm. unfold numberAt. rewrite lookup_fmap.
  destruct (m !! k) as [[z|]|] eqn:E; simpl; try exact I.
  exact (Hm _ _ E).
Qed.

Lemma numberAt_lookup (o : gmap string value) (m : gmap string number) k :
  numeric m -> o !! k = Number <$> m !! k -> numberAt o k.
Proof.
  intros Hm H. pose proof (numberAt_numbers m k Hm) as Hn.
  unfold numberAt in *. rewrite lookup_fmap in Hn. rewrite H. exact Hn.
Qed.


Lemma Supabase_entryDate_normal e :
  Supabase.entryDate e = Normal (isoDate (Day (Supabase.start_time e))).
Proof.
  unfold Supabase.entryDate.
  destruct (toISOString_date (Supabase.start_time e)) as (iso & -> & H).
  simpl. rewrite H. reflexivity.
Qed.

Lemma Supabase_getEntriesForDate_normal rows date :
  Supabase.getEntriesForDate rows date
  = Normal (List.filter (Supabase_onDate date) rows).
Proof.
  unfold Supabase.getEntriesForDate. apply Array_filter_normal.
  intros e. rewrite Supabase_entryDate_normal. reflexivity.
Qed.

Lemma Supabase_getTotalsByCategory_normal rows date :
  Supabase.getTotalsByCategory rows date
  = Normal (foldl (tallyObject Supabase.categoryName Supabase_minutes) ∅
              (List.filter (Supabase_onDate date) rows)).
Proof.
  unfold Supabase.getTotalsByCategory.
  rewrite Supabase_getEntriesForDate_normal. reflexivity.
Qed.

Lemma Supabase_minutes_numeric (l : list Supabase.entry) :
  Forall (fun e => is_num (Supabase_minutes e)) l.
Proof. apply List.Forall_forall. intros e _. apply or_zero_is_num. Qed.

(** ** [getWeeklyAverages] *)

Lemma total_of_app {E} (val : E -> Z) l1 l2 :
  total_of val (l1 ++ l2) = total_of val l1 + total_of val l2.
Proof. induction l1 as [|x l1 IH]; simpl; [reflexivity|]. rewrite IH. lia. Qed.





(** The Supabase copy computes its averages in the same way. *)
Lemma Supabase_getWeeklyAverages_divides_by_seven env rows :
  exists days averages totalsOn,
    last7Days env = Normal days /\ length days = 7%nat
    /\ (forall d, Supabase.getTotalsByCategory rows d = Normal (totalsOn d))
    /\ Supabase.getWeeklyAverages env rows = Normal averages
    /\ forall category,
         ordinary category ->
         (Exists (fun d => is_Some (totalsOn d !! category)) days ->
          averages !! category
          = Some (Num (round_div (weekSum totalsOn days category) 7)))
         /\ (~ Exists (fun d => is_Some (totalsOn d !! category)) days ->
             averages !! category = None).
Proof.
  set (totalsOn := fun d =>
    foldl (tallyObject Supabase.categoryName Supabase_minutes) ∅
      (List.filter (Supabase_onDate d) rows)).
  destruct (weeklyAverages_normal (Supabase.getTotalsByCategory rows) totalsOn
              (Supabase_getTotalsByCategory_normal rows) env)
    as (days & averages & Hdays & Hlen & Hav).
  exists days, averages, totalsOn.
  split; [exact Hdays|]. split; [exact Hlen|].
  split; [apply Supabase_getTotalsByCategory_normal|]. split; [exact Hav|].
  intros category Hc.
  apply (weeklyAverages_tag (Supabase.getTotalsByCategory rows) totalsOn
           (Supabase_getTotalsByCategory_normal rows) category Hc)
    with (env := env); [|exact Hdays|exact Hav].
  intros d.
  apply (numberAt_lookup _
           (foldl (tally Supabase.categoryName Supabase_minutes) ∅
              (List.filter (Supabase_onDate d) rows))).
  - apply foldl_tally_numeric; [apply empty_numeric|apply Supabase_minutes_numeric].
  - apply foldl_tallyObject_lookup; [exact Hc|]. rewrite !lookup_empty. reflexivity.
Qed.






(** The window on 2024-03-15. *)
Example last7Days_sample :
  last7Days sampleEnv
  = Normal ["2024-03-09"; "2024-03-10"; "2024-03-11"; "2024-03-12";
            "2024-03-13"; "2024-03-14"; "2024-03-15"]%string.
Proof. vm_compute. reflexivity. Qed.

(** With a transition inside the week the loop, which steps in local
    time and prints in UTC, can list a day twice and miss another: at 00:30
    local time on 2024-04-01 in London it lists 2024-03-31 twice. *)
Example last7Days_across_transition :
  last7Days londonAprilEnv
  = Normal ["2024-03-26"; "2024-03-27"; "2024-03-28"; "2024-03-29";
            "2024-03-30"; "2024-03-31"; "2024-03-31"]%string.
Proof. vm_compute. reflexivity. Qed.


(** ** [getEntriesForDate] *)


(** An entry that starts on one day and ends after midnight belongs to the
    day of its date only. *)
Example getEntriesForDate_overnight :
  let e := sampleEntry "2024-03-12" "23:30" "00:15" 45 "Sleep" in
  App.getEntriesForDate [e] "2024-03-12" = [e]
  /\ App.getEntriesForDate [e] "2024-03-13" = [].
Proof. split; reflexivity. Qed.

(** ** [getTotalsByTag] and [getTotalsByCategory] *)




Lemma unlabeled_categoryName e : unlabeled e -> Supabase.categoryName e = "Unknown"%string.
Proof.
  unfold unlabeled, Supabase.categoryName.
  destruct (Supabase.projects e) as [p|]; [|reflexivity].
  intros [-> | ->]; reflexivity.
Qed.

(** C8, as amended: in the Supabase variant an entry of the date without
    a category (no joined row, or a row without a name) is neither dropped
    nor an error: [getTotalsByCategory] returns normally and its bucket
    ["Unknown"] holds the minutes of that entry together with those of the
    other entries filed there, whatever the other categories are. *)
Theorem unlabeled_counted_as_Unknown rows date e :
  unlabeled e ->
  In e rows ->
  isoDate (Day (Supabase.start_time e)) = date ->
  exists totals others,
    Supabase.getTotalsByCategory rows date = Normal totals
    /\ totals !! "Unknown"%string
       = Some (Number (Num (num_val (Supabase_minutes e)
                            + total_of (fun x => num_val (Supabase_minutes x)) others)))
    /\ exists dayRows,
         Supabase.getEntriesForDate rows date = Normal dayRows
         /\ Permutation (e :: others)
              (List.filter
                 (fun x => String.eqb (Supabase.categoryName x) "Unknown")
                 dayRows).
Proof.
  intros Hu Hin Hdate.
  set (dayRows := List.filter (Supabase_onDate date) rows).
  set (bucket := List.filter
                   (fun x => String.eqb (Supabase.categoryName x) "Unknown") dayRows).
  assert (In e bucket) as Hb.
  { apply List.filter_In. split.
    - apply List.filter_In. split; [exact Hin|]. apply String.eqb_eq. exact Hdate.
    - apply String.eqb_eq, unlabeled_categoryName, Hu. }
  apply List.in_split in Hb as (l1 & l2 & Hsplit).
  exists (foldl (tallyObject Supabase.categoryName Supabase_minutes) ∅ dayRows),
    (l1 ++ l2).
  split; [apply Supabase_getTotalsByCategory_normal|]. split.
  - rewrite (foldl_tallyObject_lookup _ _ dayRows ∅ ∅ "Unknown" eq_refl)
      by (rewrite !lookup_empty; reflexivity).
    rewrite (foldl_tally_lookup _ _ _ _ (Supabase_minutes_numeric dayRows)).
    fold bucket. rewrite Hsplit.
    destruct (l1 ++ e :: l2) as [|x l] eqn:Hl.
    { destruct l1; discriminate Hl. }
    rewrite <- Hl. simpl. do 3 f_equal. rewrite !total_of_app. simpl. lia.
  - exists dayRows. split; [apply Supabase_getEntriesForDate_normal|].
    fold bucket. rewrite Hsplit. apply Permutation_middle.
Qed.

Lemma unlabeled_counted_as_Unknown_witness :
  exists totals,
    Supabase.getTotalsByCategory
      [sampleRow 1710234000000 (Some (Num 30)) None;
       sampleRow 1710237600000 (Some (Num 45))
         (Some {| Supabase.name := Some "Sleep"%string |})]
      "2024-03-12" = Normal totals
    /\ totals !! "Unknown"%string = Some (Number (Num 30)).
Proof.
  destruct (unlabeled_counted_as_Unknown
              [sampleRow 1710234000000 (Some (Num 30)) None;
               sampleRow 1710237600000 (Some (Num 45))
                 (Some {| Supabase.name := Some "Sleep"%string |})]
              "2024-03-12"
              (sampleRow 1710234000000 (Some (Num 30)) None))
    as (totals & others & Htot & Hlook & dayRows & Hday & Hperm).
  - exact I.
  - left. reflexivity.
  - vm_compute. reflexivity.
  - exists totals. split; [exact Htot|].
    vm_compute in Hday. injection Hday as <-.
    apply Permutation_length in Hperm. simpl in Hperm.
    destruct others; [|discriminate Hperm]. exact Hlook.
Defined.

(** C8 as the specification words it fails: [getTotalsByTag] of
    [App.jsx] has no sentinel.  An entry without a tag is filed under the
    empty tag, and the totals have no bucket ["Unknown"]. *)
Lemma untagged_not_counted_as_Unknown :
  let untagged :=
    {| App.id := 1; App.date := "2024-03-12"; App.start := "09:00";
       App.end_ := "09:50"; App.duration := Num 50;
       App.description := "work"; App.tag := "" |} in
  App.getTotalsByTag [untagged] "2024-03-12" !! ""%string = Some (Number (Num 50))
  /\ App.getTotalsByTag [untagged] "2024-03-12" !! "Unknown"%string = None.
Proof. split; reflexivity. Qed.

(** ** [sort] and [addEntry] *)

Lemma sort_insert_Permutation {A} (cmp : A -> A -> number) x l :
  Permutation (sort_insert cmp x l) (x :: l).
Proof.
  induction l as [|y l IH]; [reflexivity|].
  change (sort_insert cmp x (y :: l))
    with (if num_lt (Num 0) (cmp x y) then y :: sort_insert cmp x l else x :: y :: l).
  destruct (num_lt (Num 0) (cmp x y)); [|reflexivity].
  rewrite IH. apply perm_swap.
Qed.

Lemma Array_sort_Permutation {A} (cmp : A -> A -> number) l :
  Permutation (Array_sort cmp l) l.
Proof.
  induction l as [|x l IH]; [reflexivity|].
  change (Array_sort cmp (x :: l)) with (sort_insert cmp x (Array_sort cmp l)).
  rewrite sort_insert_Permutation, IH. reflexivity.
Qed.

Section SortByKey.

Context {A : Type} (key : A -> Z) (cmp : A -> A -> number).

Lemma sort_insert_sorted x l :
  (forall y, In y l -> cmp x y = Num (key x - key y)) ->
  StronglySorted (fun a b => key a <= key b) l ->
  StronglySorted (fun a b => key a <= key b) (sort_insert cmp x l).
Proof.
  induction l as [|y l IH]; intros Hcmp Hl.
  - repeat constructor.
  - change (sort_insert cmp x (y :: l))
      with (if num_lt (Num 0) (cmp x y) then y :: sort_insert cmp x l else x :: y :: l).
    rewrite (Hcmp y) by (left; reflexivity).
    apply StronglySorted_inv in Hl as [Hl Hy]. unfold num_lt.
    destruct (Z.ltb_spec 0 (key x - key y)) as [Hlt|Hge].
    + constructor.
      * apply IH; [|exact Hl]. intros z Hz. apply Hcmp. right. exact Hz.
      * apply List.Forall_forall. intros z Hz.
        apply (Permutation_in _ (sort_insert_Permutation cmp x l)) in Hz.
        destruct Hz as [<-|Hz]; [lia|].
        rewrite List.Forall_forall in Hy. auto.
    + constructor; [constructor; assumption|].
      constructor; [lia|].
      eapply List.Forall_impl; [|exact Hy]. simpl. intros z Hz. lia.
Qed.

Lemma Array_sort_sorted l :
  (forall x y, In x l -> In y l -> cmp x y = Num (key x - key y)) ->
  StronglySorted (fun a b => key a <= key b) (Array_sort cmp l).
Proof.
  induction l as [|x l IH]; intros Hcmp.
  - constructor.
  - change (Array_sort cmp (x :: l)) with (sort_insert cmp x (Array_sort cmp l)).
    apply sort_insert_sorted.
    + intros y Hy. apply Hcmp; [left; reflexivity|].
      right. apply (Permutation_in _ (Array_sort_Permutation cmp l)). exact Hy.
    + apply IH. intros a b Ha Hb. apply Hcmp; right; assumption.
Qed.

End SortByKey.

Lemma StronglySorted_impl_In {A} (P Q : A -> A -> Prop) l :
  (forall a b, In a l -> In b l -> P a b -> Q a b) ->
  StronglySorted P l -> StronglySorted Q l.
Proof.
  induction l as [|x l IH]; intros Himp Hs; [constructor|].
  apply StronglySorted_inv in Hs as [Hs Hx]. constructor.
  - apply IH; [|exact Hs]. intros a b Ha Hb. apply Himp; right; assumption.
  - rewrite List.Forall_forall in *. intros y Hy.
    apply Himp; [left; reflexivity|right; exact Hy|auto].
Qed.

(** In [App.jsx] an entry stored by [addEntry] always carries a tag. *)
Lemma addEntry_tag_not_empty env st st' e :
  App.addEntry env st = Normal st' ->
  In e (App.entries st') ->
  In e (App.entries st) \/ App.empty (App.tag e) = false.
Proof.
  unfold App.addEntry.
  destruct (App.empty (App.startTime st) || App.empty (App.endTime st)
            || App.empty (App.formDescription st) || App.empty (App.formTag st))
    eqn:Hg.
  - intros [= <-]. tauto.
  - unfold App.calculateDuration, bind. intros [= <-].
    unfold App.entries at 1. intros He.
    apply (Permutation_in _ (Array_sort_Permutation _ _)) in He.
    apply in_app_or in He as [He|[<-|[]]]; [tauto|].
    right. apply orb_false_elim in Hg as [_ Hg]. exact Hg.
Qed.

(** C10, as amended: when all four fields are filled and every stored
    entry, like the new one, has a date and a start that [Date] can read,
    [addEntry] stores the old entries and the new one ordered by the time
    value of [`${date}T${start}`], whatever the order of the list before. *)
Theorem addEntry_sorted env st :
  App.empty (App.startTime st) = false ->
  App.empty (App.endTime st) = false ->
  App.empty (App.formDescription st) = false ->
  App.empty (App.formTag st) = false ->
  (forall e, In e (App.entries st) -> is_num (App.timestamp env e)) ->
  is_num (App.Date_new env (App.selectedDate st +:+ "T" +:+ App.startTime st)) ->
  exists st' newEntry,
    App.addEntry env st = Normal st'
    /\ StronglySorted
         (fun a b => num_le (App.timestamp env a) (App.timestamp env b) = true)
         (App.entries st')
    /\ Permutation (App.entries st') (App.entries st ++ [newEntry])
    /\ App.date newEntry = App.selectedDate st
    /\ App.start newEntry = App.startTime st
    /\ App.end_ newEntry = App.endTime st
    /\ App.tag newEntry = App.formTag st.
Proof.
  intros H1 H2 H3 H4 Hold Hnew.
  unfold App.addEntry. rewrite H1, H2, H3, H4.
  unfold orb, App.calculateDuration, bind.
  eexists. eexists. split; [reflexivity|].
  unfold App.entries at 1 2.
  split; [|split; [apply Array_sort_Permutation|repeat split]].
  match goal with
  | |- StronglySorted _ (Array_sort _ (_ ++ [?n])) => set (newEntry := n)
  end.
  assert (forall e, In e (App.entries st ++ [newEntry]) -> is_num (App.timestamp env e))
    as Hall.
  { intros e He. apply in_app_or in He as [He|[<-|[]]]; [auto|exact Hnew]. }
  pose proof (Array_sort_sorted (fun e => num_val (App.timestamp env e))
                (App.byTimestamp env) (App.entries st ++ [newEntry])) as Hs.
  apply StronglySorted_impl_In
    with (P := fun a b => num_val (App.timestamp env a) <= num_val (App.timestamp env b)).
  - intros a b Ha Hb Hab.
    apply (Permutation_in _ (Array_sort_Permutation _ _)) in Ha, Hb.
    apply Hall in Ha, Hb.
    destruct (App.timestamp env a), (App.timestamp env b); try contradiction.
    simpl in *. apply Z.leb_le. exact Hab.
  - apply Hs. intros x y Hx Hy. apply Hall in Hx, Hy. unfold App.byTimestamp.
    destruct (App.timestamp env x), (App.timestamp env y); try contradiction.
    reflexivity.
Qed.

Lemma addEntry_sorted_witness :
  exists st' newEntry,
    App.addEntry sampleEnv sampleState = Normal st'
    /\ StronglySorted
         (fun a b => num_le (App.timestamp sampleEnv a) (App.timestamp sampleEnv b) = true)
         (App.entries st')
    /\ Permutation (App.entries st') (App.entries sampleState ++ [newEntry])
    /\ App.date newEntry = App.selectedDate sampleState
    /\ App.start newEntry = App.startTime sampleState
    /\ App.end_ newEntry = App.endTime sampleState
    /\ App.tag newEntry = App.formTag sampleState.
Proof.
  apply (addEntry_sorted sampleEnv sampleState).
  - reflexivity.
  - reflexivity.
  - reflexivity.
  - reflexivity.
  - intros e [<-|[]]. vm_compute. exact I.
  - vm_compute. exact I.
Defined.

(** The new entry, dated 2024-01-10, comes before the stored one. *)
Example addEntry_reorders :
  match App.addEntry sampleEnv sampleState with
  | Normal st' => map App.date (App.entries st')
  | Throw _ => []
  end = ["2024-01-10"; "2024-03-12"]%string.
Proof. vm_compute. reflexivity. Qed.

(** C10 as the specification words it fails: a stored entry whose date
    [Date] cannot read (here a date beyond the last time value) compares
    as equal to every other entry, and an earlier entry added after it
    stays behind a later one, two places after it. *)
Lemma addEntry_leaves_unsorted :
  let late := sampleEntry "2024-03-12" "10:00" "11:00" 60 "Productive" in
  let far := sampleEntry "+300000-01-01" "09:00" "10:00" 60 "Productive" in
  let st := {| App.entries := [late; far];
               App.selectedDate := "2024-03-12";
               App.startTime := "08:00";
               App.endTime := "08:30";
               App.formDescription := "mail";
               App.formTag := "Productive" |} in
  exists st' early,
    App.addEntry sampleEnv st = Normal st'
    /\ App.entries st' = [late; far; early]
    /\ App.date early = "2024-03-12"%string
    /\ App.start early = "08:00"%string
    /\ App.timestamp sampleEnv far = NaN
    /\ num_lt (App.timestamp sampleEnv early) (App.timestamp sampleEnv late) = true.
Proof.
  cbv zeta. eexists. eexists.
  split; [vm_compute; reflexivity|].
  split; [reflexivity|]. split; [reflexivity|]. split; [reflexivity|].
  split; vm_compute; reflexivity.
Qed.

(** The same with a stored entry that has no date at all. *)
Example addEntry_unreadable_date :
  let late := sampleEntry "2024-03-12" "10:00" "11:00" 60 "Productive" in
  let undated := sampleEntry "" "09:00" "10:00" 60 "Productive" in
  let st := {| App.entries := [late; undated];
               App.selectedDate := "2024-03-12";
               App.startTime := "08:00";
               App.endTime := "08:30";
               App.formDescription := "mail";
               App.formTag := "Productive" |} in
  match App.addEntry sampleEnv st with
  | Normal st' => map App.start (App.entries st')
  | Throw _ => []
  end = ["10:00"; "09:00"; "08:00"]%string.
Proof. vm_compute. reflexivity. Qed.

(** ** The clock *)

(** C9, as amended: the clock has no part in [calculateDuration] (nor in
    [getEntriesForDate] and [getTotalsByTag], which do not receive it); it
    enters [getWeeklyAverages] through the window only: two clock readings
    with the same window, such as two instants of one UTC day in a zone
    without transitions, give the same averages. *)
Theorem clock_enters_through_window_only env env' date start end_ entries rows :
  zone env = zone env' ->
  App.calculateDuration env date start end_
  = App.calculateDuration env' date start end_
  /\ (last7Days env = last7Days env' ->
      App.getWeeklyAverages env entries = App.getWeeklyAverages env' entries
      /\ Supabase.getWeeklyAverages env rows = Supabase.getWeeklyAverages env' rows)
  /\ (forall off, fixed_offset (zone env) off ->
      Day (clock env) = Day (clock env') ->
      App.getWeeklyAverages env entries = App.getWeeklyAverages env' entries
      /\ Supabase.getWeeklyAverages env rows = Supabase.getWeeklyAverages env' rows).
Proof.
  intros Hz.
  assert (forall getTotals, last7Days env = last7Days env' ->
            weeklyAverages getTotals env = weeklyAverages getTotals env') as Hw.
  { intros getTotals H. unfold weeklyAverages. rewrite H. reflexivity. }
  split; [|split].
  - unfold App.calculateDuration, App.Date_new. rewrite Hz. reflexivity.
  - intros H. split; apply Hw, H.
  - intros off Hoff Hday.
    assert (last7Days env = last7Days env') as H.
    { unfold last7Days.
      assert (fixed_offset (zone env') off) as Hoff' by (rewrite <- Hz; exact Hoff).
      rewrite (last7Days_from_fixed env off 6 Hoff) by lia.
      rewrite (last7Days_from_fixed env' off 6 Hoff') by lia.
      rewrite Hday. reflexivity. }
    split; apply Hw, H.
Qed.

Lemma clock_enters_through_window_only_witness :
  App.calculateDuration sampleEnv "2024-01-01" "23:30" "00:15"
  = App.calculateDuration hourLaterEnv "2024-01-01" "23:30" "00:15"
  /\ App.getWeeklyAverages sampleEnv sampleEntries
     = App.getWeeklyAverages hourLaterEnv sampleEntries.
Proof.
  destruct (clock_enters_through_window_only sampleEnv hourLaterEnv
              "2024-01-01" "23:30" "00:15" sampleEntries [] eq_refl)
    as (Hd & _ & Hday).
  split; [exact Hd|].
  apply (Hday 0); [split; reflexivity|reflexivity].
Defined.

(** C9 as the specification words it fails: with the same entries and the
    same zone, [getWeeklyAverages] returns different averages at two clock
    readings thirty days apart. *)
Lemma getWeeklyAverages_depends_on_clock :
  ~ (forall env env' entries,
       zone env = zone env' ->
       App.getWeeklyAverages env entries = App.getWeeklyAverages env' entries).
Proof.
  intros H. specialize (H sampleEnv laterEnv sampleEntries eq_refl).
  apply (f_equal (fun c => match c with
                           | Normal m => m !! "Productive"%string
                           | Throw _ => None
                           end)) in H.
  vm_compute in H. discriminate H.
Qed.

(** ** The form of the REST variant *)

Example validateTimeFormat_examples :
  Rest.validateTimeFormat "9:15 AM" = true
  /\ Rest.validateTimeFormat " 12:30pm " = true
  /\ Rest.validateTimeFormat "09:05 Pm" = true
  /\ Rest.validateTimeFormat "13:00 PM" = false
  /\ Rest.validateTimeFormat "0:30 AM" = false
  /\ Rest.validateTimeFormat "9:60 AM" = false
  /\ Rest.validateTimeFormat "23:30" = false
  /\ Rest.validateTimeFormat "" = false.
Proof. repeat split; reflexivity. Qed.

(** An entry is posted exactly when both times pass the check; otherwise
    the form shows a message for each time that fails, and nothing is
    raised. *)
Lemma handleSubmit_posts_valid_times start_time end_time date :
  (Rest.validateTimeFormat start_time = true
   /\ Rest.validateTimeFormat end_time = true ->
   Rest.handleSubmit start_time end_time date = Rest.Post start_time end_time date)
  /\ (Rest.validateTimeFormat start_time = false
      \/ Rest.validateTimeFormat end_time = false ->
      Rest.handleSubmit start_time end_time date
      = Rest.ShowErrors (negb (Rest.validateTimeFormat start_time))
                        (negb (Rest.validateTimeFormat end_time))).
Proof.
  unfold Rest.handleSubmit. split.
  - intros [-> ->]. reflexivity.
  - intros [-> | ->]; simpl; [reflexivity|].
    rewrite orb_true_r. reflexivity.
Qed.

(** * Further properties *)

(** ** Numbers as text *)

Lemma lacks_cons sep c s :
  lacks sep (String c s) = negb (Ascii.eqb c sep) && lacks sep s.
Proof. reflexivity. Qed.

Lemma pretty_N_char_digit n :
  (n < 10)%N -> digit (pretty_N_char n) = Some (Z.of_N n).
Proof.
  intros H. rewrite <- (N2Nat.id n).
  assert (N.to_nat n < 10)%nat as Hk by lia.
  remember (N.to_nat n) as k eqn:E. clear E H.
  do 10 (destruct k as [|k]; [reflexivity|]). lia.
Qed.

Lemma digit_lacks c x d : digit c = None -> digit x = Some d -> Ascii.eqb x c = false.
Proof.
  intros Hc Hx. destruct (Ascii.eqb_spec x c) as [->|]; [congruence|reflexivity].
Qed.

(** The digits of a number contain no character that is not a digit. *)
Lemma pretty_N_go_lacks c x : forall s,
  digit c = None -> lacks c s = true -> lacks c (pretty_N_go x s) = true.
Proof.
  induction (N.lt_wf_0 x) as [x _ IH]. intros s Hc Hs.
  destruct (decide (x = 0)%N) as [->|Hx].
  - rewrite pretty_N_go_0. exact Hs.
  - rewrite pretty_N_go_step by lia. apply IH.
    + apply N.div_lt; lia.
    + exact Hc.
    + rewrite lacks_cons, Hs.
      rewrite (digit_lacks c _ _ Hc (pretty_N_char_digit _ (N.mod_lt x 10 ltac:(lia)))).
      reflexivity.
Qed.

Lemma pretty_N_lacks c (x : N) : digit c = None -> lacks c (pretty x) = true.
Proof.
  intros Hc. unfold pretty, pretty_N. destruct (decide (x = 0)%N).
  - rewrite (lacks_cons c "0" EmptyString).
    rewrite (digit_lacks c "0" 0 Hc eq_refl). reflexivity.
  - apply pretty_N_go_lacks; [exact Hc|reflexivity].
Qed.

Lemma pretty_Z_lacks c (z : Z) :
  digit c = None -> Ascii.eqb "-" c = false -> lacks c (pretty z) = true.
Proof.
  intros Hc Hd. destruct z as [|p|p].
  - change (pretty 0) with (String "0" EmptyString). rewrite lacks_cons.
    rewrite (digit_lacks c "0" 0 Hc eq_refl). reflexivity.
  - apply (pretty_N_lacks c (N.pos p) Hc).
  - change (pretty (Z.neg p)) with (String "-" (pretty (N.pos p))).
    rewrite lacks_cons, Hd. apply (pretty_N_lacks c (N.pos p) Hc).
Qed.

(** A string splits in one way only around the first occurrence of a
    character. *)
Lemma split_at_unique c p1 : forall p2 r1 r2,
  p1 +:+ String c r1 = p2 +:+ String c r2 ->
  lacks c p1 = true -> lacks c p2 = true -> p1 = p2 /\ r1 = r2.
Proof.
  induction p1 as [|a p1 IH]; intros p2 r1 r2 Heq H1 H2.
  - destruct p2 as [|b p2].
    + inversion Heq. split; reflexivity.
    + change (String c r1 = String b (p2 +:+ String c r2)) in Heq.
      inversion Heq; subst. rewrite lacks_cons, Ascii.eqb_refl in H2. discriminate.
  - rewrite lacks_cons in H1. apply andb_prop in H1 as [Ha H1].
    destruct p2 as [|b p2].
    + change (String a (p1 +:+ String c r1) = String c r2) in Heq.
      inversion Heq; subst. rewrite Ascii.eqb_refl in Ha. discriminate.
    + change (String a (p1 +:+ String c r1) = String b (p2 +:+ String c r2)) in Heq.
      inversion Heq; subst.
      rewrite lacks_cons in H2. apply andb_prop in H2 as [_ H2].
      destruct (IH p2 r1 r2) as [-> ->]; auto.
Qed.

(** ** [formatTime] *)

Lemma formatTime_Num z :
  App2.formatTime (Num z)
  = pretty (z / 60) +:+ String "h" (String " " (pretty (Z.rem z 60) +:+ "m")).
Proof. reflexivity. Qed.

(** X1. For a whole number of minutes that is not negative and at most
    [Number.MAX_SAFE_INTEGER], [formatTime] writes the hours and the
    minutes below 60 that make up the duration. *)
Theorem formatTime_nonnegative z :
  0 <= z <= Number_MAX_SAFE_INTEGER ->
  exists h m,
    App2.formatTime (Num z) = pretty h +:+ "h " +:+ pretty m +:+ "m"
    /\ 0 <= h /\ 0 <= m < 60 /\ 60 * h + m = z.
Proof.
  intros Hz. exists (z / 60), (Z.rem z 60). split; [reflexivity|].
  rewrite Z.rem_mod_nonneg by lia.
  pose proof (Z.div_mod z 60). pose proof (Z.mod_pos_bound z 60).
  assert (0 <= z / 60) by (apply Z.div_pos; lia). lia.
Qed.

Lemma formatTime_nonnegative_witness :
  exists h m,
    App2.formatTime (Num 135) = pretty h +:+ "h " +:+ pretty m +:+ "m"
    /\ 0 <= h /\ 0 <= m < 60 /\ 60 * h + m = 135.
Proof. apply (formatTime_nonnegative 135). unfold Number_MAX_SAFE_INTEGER. lia. Defined.

(** X2. For a negative number of minutes, not below
    [-Number.MAX_SAFE_INTEGER], that is not a whole number of hours, the
    hours are rounded down while the minutes keep the sign of the
    duration: the text reads one hour less than the duration (-30 is shown
    as "-1h -30m"). *)
Theorem formatTime_negative z :
  - Number_MAX_SAFE_INTEGER <= z < 0 -> Z.rem z 60 <> 0 ->
  exists h m,
    App2.formatTime (Num z) = pretty h +:+ "h " +:+ pretty m +:+ "m"
    /\ -60 < m < 0 /\ 60 * h + m = z - 60.
Proof.
  intros Hz Hr. exists (z / 60), (Z.rem z 60). split; [reflexivity|].
  Z.to_euclidean_division_equations. lia.
Qed.

Lemma formatTime_negative_witness :
  exists h m,
    App2.formatTime (Num (-30)) = pretty h +:+ "h " +:+ pretty m +:+ "m"
    /\ -60 < m < 0 /\ 60 * h + m = -30 - 60.
Proof.
  apply (formatTime_negative (-30)); [unfold Number_MAX_SAFE_INTEGER; lia|discriminate].
Defined.

Lemma length_append (a b : string) :
  String.length (a +:+ b) = (String.length a + String.length b)%nat.
Proof.
  induction a as [|x a IH]; [reflexivity|].
  change (String x a +:+ b) with (String x (a +:+ b)). simpl. rewrite IH. reflexivity.
Qed.

Lemma append_inj_r (a b c : string) : a +:+ c = b +:+ c -> a = b.
Proof.
  revert b. induction a as [|x a IH]; intros b H.
  - destruct b as [|y b]; [reflexivity|]. exfalso.
    change (c = String y (b +:+ c)) in H.
    apply (f_equal String.length) in H. simpl in H.
    rewrite length_append in H. lia.
  - destruct b as [|y b].
    + exfalso. change (String x (a +:+ c) = c) in H.
      apply (f_equal String.length) in H. simpl in H.
      rewrite length_append in H. lia.
    + change (String x (a +:+ c) = String y (b +:+ c)) in H.
      inversion H; subst. f_equal. auto.
Qed.

(** X3. [formatTime] shows different values differently: two numbers (or
    [NaN]) with the same text are equal. *)
Theorem formatTime_injective a b :
  App2.formatTime a = App2.formatTime b -> a = b.
Proof.
  assert (forall z : Z, lacks "h" (pretty z) = true) as Hh.
  { intros z. apply pretty_Z_lacks; reflexivity. }
  assert (forall z : Z, App2.formatTime (Num z) <> App2.formatTime NaN) as Hnan.
  { intros z H. rewrite formatTime_Num in H.
    change (App2.formatTime NaN) with ("NaN" +:+ String "h" " NaNm") in H.
    apply split_at_unique in H as [H _]; [|apply Hh|reflexivity].
    pose proof (pretty_Z_lacks "N" (z / 60) eq_refl eq_refl) as HN.
    rewrite H in HN. discriminate HN. }
  destruct a as [x|], b as [y|]; intros H.
  - rewrite !formatTime_Num in H.
    apply split_at_unique in H as [H1 H2]; [|apply Hh..].
    injection H2 as H2. apply append_inj_r in H2.
    apply (inj pretty) in H1, H2. f_equal.
    Z.to_euclidean_division_equations. lia.
  - destruct (Hnan _ H).
  - symmetry in H. destruct (Hnan _ H).
  - reflexivity.
Qed.

Lemma formatTime_injective_witness : Num 135 = Num 135.
Proof.
  apply (formatTime_injective (Num 135) (Num 135)). reflexivity.
Defined.

(** ** [deleteEntry] and the place of a new entry *)

Lemma filter_StronglySorted {A} (R : A -> A -> Prop) (f : A -> bool) l :
  StronglySorted R l -> StronglySorted R (List.filter f l).
Proof.
  induction l as [|x l IH]; intros Hs; simpl; [constructor|].
  apply StronglySorted_inv in Hs as [Hs Hx].
  destruct (f x); [|auto]. constructor; [auto|].
  rewrite List.Forall_forall in *. intros y Hy.
  apply List.filter_In in Hy as [Hy _]. auto.
Qed.

Lemma filter_all {A} (f : A -> bool) l :
  (forall x, In x l -> f x = true) -> List.filter f l = l.
Proof.
  induction l as [|x l IH]; intros H; simpl; [reflexivity|].
  rewrite (H x) by (left; reflexivity). f_equal. apply IH.
  intros y Hy. apply H. right. exact Hy.
Qed.

(** X4. [deleteEntry] removes every entry that carries the id (there may
    be several) and nothing else; the entries that stay keep their order,
    and a list without the id is left as it is. *)
Theorem deleteEntry_exact entries id :
  let r := App2.deleteEntry entries id in
  (forall e, In e r <-> In e entries /\ App.id e <> id)
  /\ sublist r entries
  /\ (forall l, sublist l entries -> Forall (fun e => App.id e <> id) l ->
                sublist l r)
  /\ ((forall e, In e entries -> App.id e <> id) -> r = entries).
Proof.
  unfold App2.deleteEntry. split; [|split; [|split]].
  - intros e. rewrite List.filter_In, negb_true_iff, Z.eqb_neq. reflexivity.
  - apply filter_sublist.
  - intros l Hl Hall. apply filter_sublist_maximal; [exact Hl|].
    eapply List.Forall_impl; [|exact Hall]. intros e He.
    apply negb_true_iff, Z.eqb_neq. exact He.
  - intros H. apply filter_all. intros e He.
    apply negb_true_iff, Z.eqb_neq. auto.
Qed.

(** X5. Deleting never disorders the list: if the entries are ordered by
    timestamp, they still are after [deleteEntry]. *)
Theorem deleteEntry_keeps_order env entries id :
  StronglySorted
    (fun a b => num_le (App.timestamp env a) (App.timestamp env b) = true) entries ->
  StronglySorted
    (fun a b => num_le (App.timestamp env a) (App.timestamp env b) = true)
    (App2.deleteEntry entries id).
Proof. apply filter_StronglySorted. Qed.

Lemma deleteEntry_keeps_order_witness :
  App2.deleteEntry
    [withId 1 (sampleEntry "2024-03-12" "09:00" "11:20" 140 "Productive");
     withId 2 (sampleEntry "2024-03-12" "13:00" "13:30" 30 "Transit");
     withId 3 (sampleEntry "2024-03-13" "08:00" "09:00" 60 "Productive")] 2
  = [withId 1 (sampleEntry "2024-03-12" "09:00" "11:20" 140 "Productive");
     withId 3 (sampleEntry "2024-03-13" "08:00" "09:00" 60 "Productive")]
  /\ StronglySorted
       (fun a b => num_le (App.timestamp sampleEnv a) (App.timestamp sampleEnv b) = true)
       (App2.deleteEntry
          [withId 1 (sampleEntry "2024-03-12" "09:00" "11:20" 140 "Productive");
           withId 2 (sampleEntry "2024-03-12" "13:00" "13:30" 30 "Transit");
           withId 3 (sampleEntry "2024-03-13" "08:00" "09:00" 60 "Productive")] 2).
Proof.
  split; [reflexivity|].
  apply (deleteEntry_keeps_order sampleEnv
           [withId 1 (sampleEntry "2024-03-12" "09:00" "11:20" 140 "Productive");
            withId 2 (sampleEntry "2024-03-12" "13:00" "13:30" 30 "Transit");
            withId 3 (sampleEntry "2024-03-13" "08:00" "09:00" 60 "Productive")] 2).
  repeat constructor.
Defined.

Section InsertPosition.

Context {A : Type} (key : A -> Z) (cmp : A -> A -> number).

Lemma sort_insert_first x l :
  match l with
  | [] => True
  | y :: _ => cmp x y = Num (key x - key y) /\ key x <= key y
  end ->
  sort_insert cmp x l = x :: l.
Proof.
  destruct l as [|y l]; [reflexivity|]. intros [Hc Hle].
  change (sort_insert cmp x (y :: l))
    with (if num_lt (Num 0) (cmp x y) then y :: sort_insert cmp x l else x :: y :: l).
  rewrite Hc. unfold num_lt. destruct (Z.ltb_spec 0 (key x - key y)); [lia|reflexivity].
Qed.

(** Sorting an ordered list with one more element at its end puts that
    element behind the elements that are not greater. *)
Lemma foldr_sort_insert_position new old :
  StronglySorted (fun a b => key a <= key b) old ->
  (forall a b, In a (old ++ [new]) -> In b (old ++ [new]) ->
               cmp a b = Num (key a - key b)) ->
  exists l1 l2,
    old = l1 ++ l2
    /\ foldr (sort_insert cmp) [new] old = l1 ++ new :: l2
    /\ Forall (fun e => key e <= key new) l1
    /\ Forall (fun e => key new < key e) l2.
Proof.
  induction old as [|y old IH]; intros Hs Hcmp.
  - exists [], []. repeat split; constructor.
  - apply StronglySorted_inv in Hs as [Hs Hy].
    destruct IH as (l1 & l2 & Hold & Hfold & H1 & H2); [exact Hs| |].
    { intros a b Ha Hb. apply Hcmp; right; assumption. }
    simpl foldr. rewrite Hfold.
    assert (In new ((y :: old) ++ [new])) as Hnew.
    { apply in_or_app. right. left. reflexivity. }
    assert (In y ((y :: old) ++ [new])) as Hyin by (left; reflexivity).
    destruct (Z.le_gt_cases (key y) (key new)) as [Hle|Hgt].
    + exists (y :: l1), l2. split; [simpl; congruence|]. split.
      * apply sort_insert_first. destruct l1 as [|z l1].
        -- simpl. split; [apply Hcmp; assumption|exact Hle].
        -- simpl. split.
           ++ apply Hcmp; [assumption|]. right. apply in_or_app. left.
              rewrite Hold. left. reflexivity.
           ++ rewrite List.Forall_forall in Hy. apply Hy. rewrite Hold.
              left. reflexivity.
      * split; [constructor; assumption|exact H2].
    + assert (l1 = []) as ->.
      { destruct l1 as [|z l1]; [reflexivity|]. exfalso.
        inversion H1 as [|? ? Hz _]; subst.
        rewrite List.Forall_forall in Hy.
        assert (key y <= key z) by (apply Hy; left; reflexivity). lia. }
      simpl in Hold. subst l2. exists [], (y :: old).
      split; [reflexivity|]. split.
      * simpl app.
        change (sort_insert cmp y (new :: old))
          with (if num_lt (Num 0) (cmp y new)
                then new :: sort_insert cmp y old else y :: new :: old).
        rewrite (Hcmp y new Hyin Hnew). unfold num_lt.
        destruct (Z.ltb_spec 0 (key y - key new)); [|lia].
        f_equal. apply sort_insert_first. destruct old as [|z old]; [exact I|].
        split.
        -- apply Hcmp; [assumption|]. right. left. reflexivity.
        -- rewrite List.Forall_forall in Hy. apply Hy. left. reflexivity.
      * split; [constructor|]. constructor; [lia|].
        eapply List.Forall_impl; [|exact Hy]. simpl. intros z Hz. lia.
Qed.

End InsertPosition.

Lemma Array_sort_snoc {A} (cmp : A -> A -> number) old new :
  Array_sort cmp (old ++ [new]) = foldr (sort_insert cmp) [new] old.
Proof. unfold Array_sort. rewrite foldr_app. reflexivity. Qed.

(** The entries after a successful [addEntry]. *)
Lemma addEntry_entries env st :
  App.empty (App.startTime st) = false ->
  App.empty (App.endTime st) = false ->
  App.empty (App.formDescription st) = false ->
  App.empty (App.formTag st) = false ->
  exists st' newEntry duration,
    App.addEntry env st = Normal st'
    /\ App.calculateDuration env (App.selectedDate st) (App.startTime st)
         (App.endTime st) = Normal duration
    /\ newEntry = {| App.id := clock env;
                     App.date := App.selectedDate st;
                     App.start := App.startTime st;
                     App.end_ := App.endTime st;
                     App.duration := duration;
                     App.description := App.formDescription st;
                     App.tag := App.formTag st |}
    /\ App.entries st'
       = foldr (sort_insert (App.byTimestamp env)) [newEntry] (App.entries st)
    /\ App.selectedDate st' = App.selectedDate st
    /\ App.startTime st' = EmptyString /\ App.endTime st' = EmptyString
    /\ App.formDescription st' = EmptyString /\ App.formTag st' = EmptyString.
Proof.
  intros H1 H2 H3 H4. unfold App.addEntry. rewrite H1, H2, H3, H4.
  unfold orb, App.calculateDuration, bind.
  eexists. eexists. eexists. split; [reflexivity|]. split; [reflexivity|].
  split; [reflexivity|]. unfold App.entries at 1.
  rewrite Array_sort_snoc. repeat split.
Qed.

(** Ordered by timestamp, in terms of time values. *)
Lemma sorted_by_timestamp_key env l :
  (forall e, In e l -> is_num (App.timestamp env e)) ->
  StronglySorted
    (fun a b => num_le (App.timestamp env a) (App.timestamp env b) = true) l ->
  StronglySorted
    (fun a b => num_val (App.timestamp env a) <= num_val (App.timestamp env b)) l.
Proof.
  intros Hnum. apply StronglySorted_impl_In. intros a b Ha Hb.
  apply Hnum in Ha, Hb.
  destruct (App.timestamp env a), (App.timestamp env b); try contradiction.
  simpl. apply Z.leb_le.
Qed.

(** Where [addEntry] puts the new entry in an ordered list. *)
Lemma addEntry_splits env st :
  App.empty (App.startTime st) = false ->
  App.empty (App.endTime st) = false ->
  App.empty (App.formDescription st) = false ->
  App.empty (App.formTag st) = false ->
  (forall e, In e (App.entries st) -> is_num (App.timestamp env e)) ->
  is_num (App.Date_new env (App.selectedDate st +:+ "T" +:+ App.startTime st)) ->
  StronglySorted
    (fun a b => num_le (App.timestamp env a) (App.timestamp env b) = true)
    (App.entries st) ->
  exists st' newEntry before after,
    App.addEntry env st = Normal st'
    /\ App.entries st = before ++ after
    /\ App.entries st' = before ++ newEntry :: after
    /\ App.id newEntry = clock env
    /\ Forall (fun e => num_le (App.timestamp env e) (App.timestamp env newEntry) = true)
         before
    /\ Forall (fun e => num_lt (App.timestamp env newEntry) (App.timestamp env e) = true)
         after.
Proof.
  intros H1 H2 H3 H4 Hold Hnew Hsorted.
  destruct (addEntry_entries env st H1 H2 H3 H4)
    as (st' & newEntry & duration & Hadd & _ & Hdef & Hentries & _).
  assert (App.timestamp env newEntry
          = App.Date_new env (App.selectedDate st +:+ "T" +:+ App.startTime st)) as Hts.
  { rewrite Hdef. reflexivity. }
  assert (forall e, In e (App.entries st ++ [newEntry]) -> is_num (App.timestamp env e))
    as Hall.
  { intros e He. apply in_app_or in He as [He|[<-|[]]]; [auto|].
    rewrite Hts. exact Hnew. }
  destruct (foldr_sort_insert_position
              (fun e => num_val (App.timestamp env e)) (App.byTimestamp env)
              newEntry (App.entries st))
    as (l1 & l2 & Hsplit & Hfold & Hl1 & Hl2).
  - apply sorted_by_timestamp_key; assumption.
  - intros a b Ha Hb. apply Hall in Ha, Hb. unfold App.byTimestamp.
    destruct (App.timestamp env a), (App.timestamp env b); try contradiction.
    reflexivity.
  - exists st', newEntry, l1, l2. split; [exact Hadd|]. split; [exact Hsplit|].
    split; [congruence|]. split; [rewrite Hdef; reflexivity|].
    assert (is_num (App.timestamp env newEntry)) as Hn.
    { apply Hall, in_or_app. right. left. reflexivity. }
    split.
    + rewrite List.Forall_forall in *. intros e He.
      assert (is_num (App.timestamp env e)) as Hnum.
      { apply Hold. rewrite Hsplit. apply in_or_app. left. exact He. }
      specialize (Hl1 e He).
      destruct (App.timestamp env e), (App.timestamp env newEntry); try contradiction.
      simpl in *. apply Z.leb_le. exact Hl1.
    + rewrite List.Forall_forall in *. intros e He.
      assert (is_num (App.timestamp env e)) as Hnum.
      { apply Hold. rewrite Hsplit. apply in_or_app. right. exact He. }
      specialize (Hl2 e He).
      destruct (App.timestamp env e), (App.timestamp env newEntry); try contradiction.
      simpl in *. apply Z.ltb_lt. exact Hl2.
Qed.

(** X6. When the stored entries are ordered, [addEntry] leaves them in
    their order and puts the new entry behind those that start at the same
    time or earlier and before those that start later. *)
Theorem addEntry_position env st :
  App.empty (App.startTime st) = false ->
  App.empty (App.endTime st) = false ->
  App.empty (App.formDescription st) = false ->
  App.empty (App.formTag st) = false ->
  (forall e, In e (App.entries st) -> is_num (App.timestamp env e)) ->
  is_num (App.Date_new env (App.selectedDate st +:+ "T" +:+ App.startTime st)) ->
  StronglySorted
    (fun a b => num_le (App.timestamp env a) (App.timestamp env b) = true)
    (App.entries st) ->
  exists st' newEntry before after,
    App.addEntry env st = Normal st'
    /\ App.entries st = before ++ after
    /\ App.entries st' = before ++ newEntry :: after
    /\ App.id newEntry = clock env
    /\ Forall (fun e => num_le (App.timestamp env e) (App.timestamp env newEntry) = true)
         before
    /\ Forall (fun e => num_lt (App.timestamp env newEntry) (App.timestamp env e) = true)
         after.
Proof. exact (addEntry_splits env st). Qed.

Lemma sampleState_ready :
  App.empty (App.startTime sampleState) = false
  /\ App.empty (App.endTime sampleState) = false
  /\ App.empty (App.formDescription sampleState) = false
  /\ App.empty (App.formTag sampleState) = false
  /\ (forall e, In e (App.entries sampleState) -> is_num (App.timestamp sampleEnv e))
  /\ is_num (App.Date_new sampleEnv
               (App.selectedDate sampleState +:+ "T" +:+ App.startTime sampleState))
  /\ StronglySorted
       (fun a b => num_le (App.timestamp sampleEnv a) (App.timestamp sampleEnv b) = true)
       (App.entries sampleState)
  /\ (forall e, In e (App.entries sampleState) -> App.id e <> clock sampleEnv).
Proof.
  split; [reflexivity|]. split; [reflexivity|]. split; [reflexivity|].
  split; [reflexivity|]. split; [|split; [|split]].
  - intros e [<-|[]]. vm_compute. exact I.
  - vm_compute. exact I.
  - repeat constructor.
  - intros e [<-|[]]. discriminate.
Qed.

Lemma addEntry_position_witness :
  exists st' newEntry before after,
    App.addEntry sampleEnv sampleState = Normal st'
    /\ App.entries sampleState = before ++ after
    /\ App.entries st' = before ++ newEntry :: after
    /\ App.id newEntry = clock sampleEnv
    /\ Forall (fun e => num_le (App.timestamp sampleEnv e)
                          (App.timestamp sampleEnv newEntry) = true) before
    /\ Forall (fun e => num_lt (App.timestamp sampleEnv newEntry)
                          (App.timestamp sampleEnv e) = true) after.
Proof.
  destruct sampleState_ready as (H1 & H2 & H3 & H4 & H5 & H6 & H7 & _).
  exact (addEntry_position sampleEnv sampleState H1 H2 H3 H4 H5 H6 H7).
Defined.

(** X7. Deleting the entry just added restores the list: when the stored
    entries are ordered and none of them has the id the clock gives to the
    new entry, [addEntry] followed by [deleteEntry] of that id returns the
    entries as they were. *)
Theorem deleteEntry_undoes_addEntry env st :
  App.empty (App.startTime st) = false ->
  App.empty (App.endTime st) = false ->
  App.empty (App.formDescription st) = false ->
  App.empty (App.formTag st) = false ->
  (forall e, In e (App.entries st) -> is_num (App.timestamp env e)) ->
  is_num (App.Date_new env (App.selectedDate st +:+ "T" +:+ App.startTime st)) ->
  StronglySorted
    (fun a b => num_le (App.timestamp env a) (App.timestamp env b) = true)
    (App.entries st) ->
  (forall e, In e (App.entries st) -> App.id e <> clock env) ->
  exists st',
    App.addEntry env st = Normal st'
    /\ App2.deleteEntry (App.entries st') (clock env) = App.entries st.
Proof.
  intros H1 H2 H3 H4 H5 H6 H7 Hfresh.
  destruct (addEntry_splits env st H1 H2 H3 H4 H5 H6 H7)
    as (st' & newEntry & l1 & l2 & Hadd & Hold & Hnew & Hid & _).
  exists st'. split; [exact Hadd|].
  rewrite Hnew, Hold. unfold App2.deleteEntry.
  rewrite List.filter_app. simpl. rewrite Hid, Z.eqb_refl. simpl.
  rewrite <- List.filter_app, <- Hold. apply filter_all.
  intros e He. apply negb_true_iff, Z.eqb_neq. auto.
Qed.

Lemma deleteEntry_undoes_addEntry_witness :
  exists st',
    App.addEntry sampleEnv sampleState = Normal st'
    /\ App2.deleteEntry (App.entries st') (clock sampleEnv) = App.entries sampleState.
Proof.
  destruct sampleState_ready as (H1 & H2 & H3 & H4 & H5 & H6 & H7 & H8).
  exact (deleteEntry_undoes_addEntry sampleEnv sampleState H1 H2 H3 H4 H5 H6 H7 H8).
Defined.

(** Two entries added within one millisecond share their id, and
    [deleteEntry] removes both. *)
Example deleteEntry_shared_id :
  let first := sampleEntry "2024-03-12" "09:00" "10:00" 60 "Productive" in
  let second := sampleEntry "2024-03-12" "10:00" "11:00" 60 "Sleep" in
  App2.deleteEntry [first; second] (App.id first) = [].
Proof. reflexivity. Qed.

(** ** Reading back what [Date] prints *)

Lemma digit_digit_char d : 0 <= d <= 9 -> digit (digit_char d) = Some d.
Proof.
  intros H.
  assert (d = 0 \/ d = 1 \/ d = 2 \/ d = 3 \/ d = 4 \/ d = 5 \/ d = 6 \/ d = 7
          \/ d = 8 \/ d = 9) as Hd by lia.
  repeat (destruct Hd as [->|Hd]; [reflexivity|]). subst d. reflexivity.
Qed.

Lemma read_digits_snoc n : forall s acc v c r d,
  read_digits n s acc = Some (v, String c r) -> digit c = Some d ->
  read_digits (S n) s acc = Some (10 * v + d, r).
Proof.
  induction n as [|n IH]; intros s acc v c r d H Hd.
  - unfold read_digits in H. injection H as -> ->.
    unfold read_digits. rewrite Hd. reflexivity.
  - unfold read_digits in H; fold read_digits in H.
    destruct s as [|a s]; [discriminate|].
    destruct (digit a) as [x|] eqn:Ha; [|discriminate].
    apply (IH _ _ _ _ _ _ H) in Hd.
    change (read_digits (S (S n)) (String a s) acc)
      with (match digit a with
            | Some d0 => read_digits (S n) s (10 * acc + d0)
            | None => None
            end).
    rewrite Ha. exact Hd.
Qed.

(** [pad n v] followed by anything reads back as [v]. *)
Lemma read_digits_pad n : forall v r,
  0 <= v < 10 ^ Z.of_nat n ->
  read_digits n (pad n v +:+ r) 0 = Some (v, r).
Proof.
  induction n as [|n IH]; intros v r Hv.
  - simpl in Hv. assert (v = 0) as -> by lia. reflexivity.
  - rewrite Nat2Z.inj_succ, Z.pow_succ_r in Hv by lia.
    change (pad (S n) v)
      with (pad n (v / 10) +:+ String (digit_char (v mod 10)) EmptyString).
    rewrite append_assoc.
    change (String (digit_char (v mod 10)) EmptyString +:+ r)
      with (String (digit_char (v mod 10)) r).
    pose proof (Z.mod_pos_bound v 10 ltac:(lia)) as Hm.
    rewrite (read_digits_snoc n
               (pad n (v / 10) +:+ String (digit_char (v mod 10)) r) 0 (v / 10)
               (digit_char (v mod 10)) r (v mod 10)).
    + f_equal. f_equal. pose proof (Z.div_mod v 10). lia.
    + apply IH. split; [apply Z.div_pos; lia|].
      apply Z.div_lt_upper_bound; lia.
    + apply digit_digit_char. lia.
Qed.

Lemma pad_first n v :
  exists c r, pad (S n) v = String c r /\ exists d, digit c = Some d.
Proof.
  revert v. induction n as [|n IH]; intros v.
  - exists (digit_char (v mod 10)), EmptyString. split; [reflexivity|].
    eexists. apply digit_digit_char.
    pose proof (Z.mod_pos_bound v 10 ltac:(lia)). lia.
  - destruct (IH (v / 10)) as (c & r & Hp & Hd).
    change (pad (S (S n)) v)
      with (pad (S n) (v / 10) +:+ String (digit_char (v mod 10)) EmptyString).
    rewrite Hp. exists c. eexists. split; [reflexivity|exact Hd].
Qed.

Lemma read_year_isoYear y r :
  -999999 <= y <= 999999 -> read_year (isoYear y +:+ r) = Some (y, r).
Proof.
  intros Hy. unfold isoYear.
  destruct (Z.leb_spec 0 y) as [H0|H0]; simpl andb.
  - destruct (Z.leb_spec y 9999) as [H1|H1].
    + destruct (pad_first 3 y) as (c & p & Hp & d & Hd).
      pose proof (read_digits_pad 4 y r ltac:(simpl; lia)) as Hr.
      rewrite Hp in *. unfold read_year.
      change (String c p +:+ r) with (String c (p +:+ r)) in *.
      cbv iota.
      rewrite (digit_lacks "+" c d eq_refl Hd), (digit_lacks "-" c d eq_refl Hd).
      exact Hr.
    + destruct (Z.ltb_spec y 0); [lia|].
      change (String "+" (pad 6 (Z.abs y)) +:+ r)
        with (String "+" (pad 6 (Z.abs y) +:+ r)).
      unfold read_year. cbv iota. rewrite Ascii.eqb_refl.
      rewrite read_digits_pad by (simpl; lia). f_equal. f_equal. lia.
  - destruct (Z.ltb_spec y 0); [|lia].
    change (String "-" (pad 6 (Z.abs y)) +:+ r)
      with (String "-" (pad 6 (Z.abs y) +:+ r)).
    unfold read_year. cbv iota.
    change (Ascii.eqb "-" "+") with false. cbv iota. rewrite Ascii.eqb_refl.
    rewrite read_digits_pad by (simpl; lia).
    destruct (Z.eqb_spec (Z.abs y) 0); [lia|]. f_equal. f_equal. lia.
Qed.

Lemma read_opt_field_pad sep n dflt v r :
  0 <= v < 10 ^ Z.of_nat n ->
  read_opt_field sep n dflt (String sep (pad n v +:+ r)) = Some (v, r).
Proof.
  intros Hv. unfold read_opt_field. rewrite Ascii.eqb_refl.
  apply read_digits_pad, Hv.
Qed.

(** The date part printed for a time value reads back as its year, month
    and day of the month. *)
Lemma parseDatePart_isoDatePart t :
  -999999 <= YearFromTime t <= 999999 ->
  parseDatePart (isoDatePart t)
  = Some (YearFromTime t, MonthFromTime t + 1, DateFromTime t, EmptyString).
Proof.
  intros Hy. unfold isoDatePart, parseDatePart.
  rewrite read_year_isoYear by exact Hy.
  pose proof (monthOfDay_range (DayWithinYear t) (InLeapYear t)) as Hm.
  fold (MonthFromTime t) in Hm.
  pose proof (DateFromTime_range t) as Hd.
  change ("-" +:+ pad 2 (MonthFromTime t + 1) +:+ "-" +:+ pad 2 (DateFromTime t))
    with (String "-" (pad 2 (MonthFromTime t + 1)
                      +:+ String "-" (pad 2 (DateFromTime t)))).
  rewrite read_opt_field_pad by (simpl; lia).
  rewrite <- (append_nil_r (pad 2 (DateFromTime t))).
  rewrite read_opt_field_pad by (simpl; lia).
  destruct (Z.leb_spec 1 (MonthFromTime t + 1)); [|lia].
  destruct (Z.leb_spec (MonthFromTime t + 1) 12); [|lia].
  destruct (Z.leb_spec 1 (DateFromTime t)); [|lia].
  pose proof (DateFromTime_le_month t) as Hdm.
  destruct (Z.leb_spec (DateFromTime t)
              (daysInMonth (YearFromTime t) (MonthFromTime t + 1))); [|lia].
  reflexivity.
Qed.

Lemma YearFromTime_of_day d : YearFromTime (d * msPerDay) = YearFromDay d.
Proof. unfold YearFromTime. rewrite Day_of_day. reflexivity. Qed.

Lemma dayOfDate_isoDatePart t :
  -999999 <= YearFromTime t <= 999999 ->
  dayOfDate (isoDatePart t) = Some (Day t).
Proof.
  intros Hy. unfold dayOfDate. rewrite parseDatePart_isoDatePart by exact Hy.
  f_equal. replace (MonthFromTime t + 1 - 1) with (MonthFromTime t) by lia.
  rewrite MakeDay_same_month. lia.
Qed.

(** A date printed by [toISOString] is read back as the same day, for
    every year of at most six digits. *)
Lemma dayOfDate_isoDate d :
  -999999 <= YearFromDay d <= 999999 ->
  dayOfDate (isoDate d) = Some d.
Proof.
  intros Hy. unfold isoDate. rewrite dayOfDate_isoDatePart.
  - rewrite Day_of_day. reflexivity.
  - rewrite YearFromTime_of_day. exact Hy.
Qed.

Lemma YearFromDay_six_digits d :
  -100000000 <= d <= 100000000 -> -999999 <= YearFromDay d <= 999999.
Proof.
  intros Hd. pose proof (YearFromDay_spec d) as Hy.
  set (y := YearFromDay d) in *.
  split.
  - destruct (Z.le_gt_cases (-999999) y) as [H|H]; [exact H|exfalso].
    pose proof (DayFromYear_le (y + 1) (-999999) ltac:(lia)) as Hle.
    assert (DayFromYear (-999999) < -100000000) by (vm_compute; reflexivity). lia.
  - destruct (Z.le_gt_cases y 999999) as [H|H]; [exact H|exfalso].
    pose proof (DayFromYear_le 999999 y ltac:(lia)) as Hle.
    assert (100000000 < DayFromYear 999999) by (vm_compute; reflexivity). lia.
Qed.

Lemma last7Days_from_readable env i :
  (i <= 6)%nat ->
  exists days,
    last7Days_from env (Num (clock env)) i = Normal days
    /\ Forall (fun date => exists day,
                 dayOfDate date = Some day
                 /\ Day (clock env) - 8 <= day <= Day (clock env) + 2) days.
Proof.
  intros Hi. pose proof (clock_bounds env) as Hc.
  assert (forall k : nat, (k <= 6)%nat ->
            exists t', Date_setDate (zone env) (Num (clock env))
                         (num_sub (Date_getDate (zone env) (Num (clock env)))
                            (Num (Z.of_nat k))) = Num t'
                       /\ Day (clock env) - 8 <= Day t' <= Day (clock env) + 2)
    as Hset.
  { intros k Hk. rewrite num_sub_as_add.
    destruct (setDate_getDate_near (zone env) (clock env) (- Z.of_nat k))
      as (v & -> & Hnear).
    exists v. split; [apply TimeClip_in; unfold maxTime, msPerDay in *; lia|].
    unfold Day, msPerDay in *. Z.to_euclidean_division_equations. lia. }
  assert (forall t', Day (clock env) - 8 <= Day t' <= Day (clock env) + 2 ->
            dayOfDate (isoDate (Day t')) = Some (Day t')) as Hread.
  { intros t' Ht. apply dayOfDate_isoDate, YearFromDay_six_digits.
    unfold Day, msPerDay in *. Z.to_euclidean_division_equations. lia. }
  induction i as [|i IH].
  - unfold last7Days_from. destruct (Hset 0%nat Hi) as (t' & -> & Ht).
    destruct (toISOString_date t') as (iso & -> & Hiso). unfold bind.
    rewrite Hiso. eexists. split; [reflexivity|]. constructor; [|constructor].
    exists (Day t'). split; [apply Hread, Ht|exact Ht].
  - unfold last7Days_from; fold last7Days_from.
    destruct (Hset (S i) Hi) as (t' & -> & Ht).
    destruct (toISOString_date t') as (iso & -> & Hiso).
    destruct IH as (days & -> & Hall); [lia|].
    unfold bind. rewrite Hiso. eexists. split; [reflexivity|].
    constructor; [|exact Hall].
    exists (Day t'). split; [apply Hread, Ht|exact Ht].
Qed.

(** X8. The window of [getWeeklyAverages] consists of readable dates, in
    every zone: [last7Days] never raises, and each of its seven dates is a
    date of the format that [Date] reads back as a day, at most eight days
    before and two days after the UTC day of the clock. *)
Theorem last7Days_readable env :
  exists days,
    last7Days env = Normal days
    /\ length days = 7%nat
    /\ Forall (fun date => exists day,
                 dayOfDate date = Some day
                 /\ Day (clock env) - 8 <= day <= Day (clock env) + 2) days.
Proof.
  destruct (last7Days_from_readable env 6) as (days & Hdays & Hall); [lia|].
  destruct (last7Days_from_normal env 6) as (days' & Hdays' & Hlen); [lia|].
  exists days. split; [exact Hdays|]. split; [|exact Hall].
  rewrite Hdays in Hdays'. injection Hdays' as ->. exact Hlen.
Qed.

(** ** The initial date and the tracked times *)

(** The year of the clock is one of the years [Date] covers entirely. *)
Lemma clock_year env : -271820 <= YearFromTime (clock env) <= 275759.
Proof.
  pose proof (clock_bounds env) as Hc. unfold YearFromTime.
  assert (-99999744 <= Day (clock env) < 99999744) as Hd.
  { unfold Day, msPerDay in *. Z.to_euclidean_division_equations. lia. }
  pose proof (YearFromDay_spec (Day (clock env))) as Hy.
  set (y := YearFromDay (Day (clock env))) in *.
  split.
  - destruct (Z.le_gt_cases (-271820) y) as [H|H]; [exact H|exfalso].
    pose proof (DayFromYear_le (y + 1) (-271820) ltac:(lia)) as Hle.
    change (DayFromYear (-271820)) with (-99999744) in Hle. lia.
  - destruct (Z.le_gt_cases y 275759) as [H|H]; [exact H|exfalso].
    pose proof (DayFromYear_le 275760 y ltac:(lia)) as Hle.
    change (DayFromYear 275760) with 99999744 in Hle. lia.
Qed.

Lemma calculateDuration_is_num env date start end_ y m d s e os oe :
  parseDatePart date = Some (y, m, d, EmptyString) ->
  -271820 <= y <= 275759 ->
  parseTimePart start = Some (s, os) ->
  parseTimePart end_ = Some (e, oe) ->
  exists n, App.calculateDuration env date start end_ = Normal (Num n).
Proof.
  intros Hd Hy Hs He. unfold App.calculateDuration, App.Date_new.
  destruct (Date_parse_years (zone env) _ _ _ _ _ _ _ Hd Hy Hs) as [-> Hbs].
  destruct (Date_parse_years (zone env) _ _ _ _ _ _ _ Hd Hy He) as [-> Hbe].
  set (a := instant (zone env) (MakeDay y (m - 1) d) s os) in *.
  set (b := instant (zone env) (MakeDay y (m - 1) d) e oe) in *.
  destruct (num_lt (Num b) (Num a)).
  - destruct (setDate_getDate_near (zone env) b 1) as (v & -> & Hv).
    rewrite TimeClip_in by (unfold maxTime, msPerDay in *; lia).
    eexists. reflexivity.
  - eexists. reflexivity.
Qed.

(** X9. The date the component starts with, the UTC day of the clock as
    [toISOString] prints it, is a date [Date] reads back as that day; with
    it and two times in the format [calculateDuration] returns a number,
    never [NaN], in every zone. *)
Theorem initialSelectedDate_readable env :
  -999999 <= YearFromTime (clock env) <= 999999 ->
  exists date,
    App2.initialSelectedDate env = Normal date
    /\ dayOfDate date = Some (Day (clock env))
    /\ forall start end_ s e os oe,
         parseTimePart start = Some (s, os) ->
         parseTimePart end_ = Some (e, oe) ->
         exists n, App.calculateDuration env date start end_ = Normal (Num n).
Proof.
  intros Hy. unfold App2.initialSelectedDate.
  destruct (toISOString_date (clock env)) as (iso & -> & Hiso).
  exists (split_head "T" iso). split; [reflexivity|].
  rewrite Hiso, <- isoDatePart_Day.
  split; [apply dayOfDate_isoDatePart, Hy|].
  intros start end_ s e os oe Hs He.
  eapply calculateDuration_is_num;
    [apply parseDatePart_isoDatePart, Hy|apply clock_year|eassumption..].
Qed.

Lemma initialSelectedDate_readable_witness :
  exists date,
    App2.initialSelectedDate sampleEnv = Normal date
    /\ dayOfDate date = Some (Day (clock sampleEnv))
    /\ forall start end_ s e os oe,
         parseTimePart start = Some (s, os) ->
         parseTimePart end_ = Some (e, oe) ->
         exists n, App.calculateDuration sampleEnv date start end_ = Normal (Num n).
Proof.
  apply (initialSelectedDate_readable sampleEnv). vm_compute. split; discriminate.
Defined.

Lemma length_pad n : forall v, String.length (pad n v) = n.
Proof.
  induction n as [|n IH]; intros v; [reflexivity|].
  change (pad (S n) v)
    with (pad n (v / 10) +:+ String (digit_char (v mod 10)) EmptyString).
  rewrite length_append, IH. simpl. lia.
Qed.

Lemma slice_to_app a b : Text.slice_to (String.length a) (a +:+ b) = a.
Proof.
  induction a as [|c a IH]; [destruct b; reflexivity|].
  change (String c a +:+ b) with (String c (a +:+ b)). simpl. rewrite IH. reflexivity.
Qed.

(** The text of [timeString]: hour and minute of the local time. *)
Lemma timeString_eq env :
  let lt := LocalTime (zone env) (clock env) in
  App2.timeString env = pad 2 (HourFromTime lt) +:+ ":" +:+ pad 2 (MinFromTime lt).
Proof.
  intros lt. unfold App2.timeString, Text.Date_toTimeString. fold lt.
  match goal with
  | |- Text.slice_to 5 (?a +:+ ":" +:+ ?b +:+ ?rest) = _ =>
      replace (a +:+ ":" +:+ b +:+ rest) with ((a +:+ ":" +:+ b) +:+ rest)
        by (rewrite !append_assoc; reflexivity);
      replace 5%nat with (String.length (a +:+ ":" +:+ b))
        by (rewrite !length_append, !length_pad; reflexivity)
  end.
  apply slice_to_app.
Qed.

Lemma parseTimePart_hhmm h m :
  0 <= h <= 23 -> 0 <= m <= 59 ->
  parseTimePart (pad 2 h +:+ ":" +:+ pad 2 m)
  = Some (h * msPerHour + m * msPerMinute, None).
Proof.
  intros Hh Hm. unfold parseTimePart.
  rewrite read_digits_pad by (simpl; lia).
  change (":" +:+ pad 2 m) with (String ":" (pad 2 m)).
  unfold expect. rewrite Ascii.eqb_refl.
  rewrite <- (append_nil_r (pad 2 m)), read_digits_pad by (simpl; lia).
  simpl read_seconds. simpl read_zone. cbv iota beta.
  destruct (Z.leb_spec h 24); [|lia].
  destruct (Z.leb_spec m 59); [|lia].
  destruct (Z.ltb_spec h 24); [|lia].
  simpl. f_equal. f_equal. unfold MakeTime. lia.
Qed.

(** X10. The time that [startTracking] and [stopTracking] take from the
    clock is a time in the format: [Date] reads it as the hour and minute
    of the local time, the seconds dropped. *)
Theorem timeString_readable env :
  let lt := LocalTime (zone env) (clock env) in
  parseTimePart (App2.timeString env)
  = Some (HourFromTime lt * msPerHour + MinFromTime lt * msPerMinute, None)
  /\ 0 <= minuteOfDay env < 1440
  /\ HourFromTime lt * msPerHour + MinFromTime lt * msPerMinute
     = minuteOfDay env * msPerMinute.
Proof.
  intros lt. rewrite timeString_eq. fold lt.
  pose proof (Z.mod_pos_bound (lt / msPerHour) 24 ltac:(lia)) as Hh.
  pose proof (Z.mod_pos_bound (lt / msPerMinute) 60 ltac:(lia)) as Hm.
  fold (HourFromTime lt) in Hh. fold (MinFromTime lt) in Hm.
  split; [apply parseTimePart_hhmm; lia|].
  unfold minuteOfDay. fold lt. unfold msPerHour, msPerMinute. lia.
Qed.

Lemma timeString_not_empty env : App.empty (App2.timeString env) = false.
Proof.
  rewrite timeString_eq.
  destruct (pad_first 1 (HourFromTime (LocalTime (zone env) (clock env))))
    as (c & r & -> & _).
  reflexivity.
Qed.

Lemma or_else_not_empty x fallback :
  App.empty fallback = false -> App.empty (App2.or_else x fallback) = false.
Proof.
  intros H. unfold App2.or_else. destruct (App.empty x) eqn:E; assumption.
Qed.

Lemma round_div_minutes k : round_div (k * msPerMinute) 60000 = k.
Proof.
  unfold round_div, msPerMinute. Z.to_euclidean_division_equations. lia.
Qed.

(** X11. Start, stop, add: the entry stored after [startTracking],
    [stopTracking] and [addEntry] runs from the minute shown by the clock
    at the start to the minute shown at the stop, with the description and
    tag of the form or, when these are empty, "Current Activity" and
    "Unproductive"; its duration is the difference of the two minutes of
    the day modulo 24 hours (seconds and whole days are lost).  The date
    of the form is a date of the years -271820 to 275759, which [Date]
    covers entirely, and the zone has no transitions. *)
Theorem tracked_entry env1 env2 env3 off tr y m d :
  fixed_offset (zone env3) off ->
  parseDatePart (App.selectedDate (App2.form tr)) = Some (y, m, d, EmptyString) ->
  -271820 <= y <= 275759 ->
  exists tr' e,
    App2.addEntry env3 (App2.stopTracking env2 (App2.startTracking env1 tr))
    = Normal tr'
    /\ Permutation (App.entries (App2.form tr')) (App.entries (App2.form tr) ++ [e])
    /\ App.date e = App.selectedDate (App2.form tr)
    /\ App.start e = App2.timeString env1
    /\ App.end_ e = App2.timeString env2
    /\ App.description e
       = App2.or_else (App.formDescription (App2.form tr)) "Current Activity"
    /\ App.tag e = App2.or_else (App.formTag (App2.form tr)) "Unproductive"
    /\ App.duration e = Num ((minuteOfDay env2 - minuteOfDay env1) mod 1440)
    /\ App2.isTracking tr' = false
    /\ App2.currentActivity tr' = None.
Proof.
  intros Hz Hd Hy.
  set (st := App2.form (App2.stopTracking env2 (App2.startTracking env1 tr))).
  destruct (addEntry_entries env3 st) as
    (st' & e & duration & Hadd & Hdur & He & Hentries & _).
  { apply timeString_not_empty. }
  { apply timeString_not_empty. }
  { apply or_else_not_empty. reflexivity. }
  { apply or_else_not_empty. reflexivity. }
  destruct (timeString_readable env1) as (Hs & Hr1 & Hm1).
  destruct (timeString_readable env2) as (He2 & Hr2 & Hm2).
  rewrite Hm1 in Hs. rewrite Hm2 in He2.
  assert (App.calculateDuration env3 (App.selectedDate (App2.form tr))
            (App2.timeString env1) (App2.timeString env2)
          = Normal (Num ((minuteOfDay env2 - minuteOfDay env1) mod 1440))) as Hcalc.
  { rewrite (calculateDuration_fixed env3 off _ _ _ _ _ _ _ _ Hz Hd Hy Hs He2).
    do 2 f_equal.
    destruct (Z.ltb_spec (minuteOfDay env2 * msPerMinute)
                (minuteOfDay env1 * msPerMinute)) as [Hlt|Hge].
    - replace (minuteOfDay env2 * msPerMinute + msPerDay - minuteOfDay env1 * msPerMinute)
        with ((minuteOfDay env2 + 1440 - minuteOfDay env1) * msPerMinute)
        by (unfold msPerMinute, msPerDay; lia).
      rewrite round_div_minutes. unfold msPerMinute in Hlt.
      apply Z.mod_unique with (q := -1); lia.
    - replace (minuteOfDay env2 * msPerMinute - minuteOfDay env1 * msPerMinute)
        with ((minuteOfDay env2 - minuteOfDay env1) * msPerMinute) by lia.
      rewrite round_div_minutes. unfold msPerMinute in Hge.
      symmetry. apply Z.mod_small. lia. }
  change (App.selectedDate st) with (App.selectedDate (App2.form tr)) in Hdur.
  change (App.startTime st) with (App2.timeString env1) in Hdur.
  change (App.endTime st) with (App2.timeString env2) in Hdur.
  rewrite Hcalc in Hdur. injection Hdur as <-.
  eexists. exists e. split.
  - unfold App2.addEntry. fold st. rewrite Hadd. reflexivity.
  - simpl App2.form. simpl App2.isTracking. simpl App2.currentActivity.
    split.
    + rewrite Hentries, <- Array_sort_snoc.
      apply (Array_sort_Permutation (App.byTimestamp env3) (App.entries st ++ [e])).
    + rewrite He. repeat split.
Qed.

Lemma tracked_entry_witness :
  let tr := {| App2.form := sampleState; App2.currentActivity := None;
               App2.isTracking := false |} in
  exists tr' e,
    App2.addEntry sampleEnv (App2.stopTracking laterEnv (App2.startTracking sampleEnv tr))
    = Normal tr'
    /\ Permutation (App.entries (App2.form tr')) (App.entries (App2.form tr) ++ [e])
    /\ App.date e = App.selectedDate (App2.form tr)
    /\ App.start e = App2.timeString sampleEnv
    /\ App.end_ e = App2.timeString laterEnv
    /\ App.description e
       = App2.or_else (App.formDescription (App2.form tr)) "Current Activity"
    /\ App.tag e = App2.or_else (App.formTag (App2.form tr)) "Unproductive"
    /\ App.duration e = Num ((minuteOfDay laterEnv - minuteOfDay sampleEnv) mod 1440)
    /\ App2.isTracking tr' = false
    /\ App2.currentActivity tr' = None.
Proof.
  intros tr.
  apply (tracked_entry sampleEnv laterEnv sampleEnv 0 tr 2024 1 10).
  - split; reflexivity.
  - reflexivity.
  - lia.
Defined.

(** Tracking for thirty days from noon to noon gives an entry of 0
    minutes. *)
Example tracked_entry_whole_days :
  (minuteOfDay laterEnv - minuteOfDay sampleEnv) mod 1440 = 0.
Proof. reflexivity. Qed.

(** ** Which tags get a total, and the range of a duration *)

Lemma Exists_filter_eqb {E} (key : E -> string) (P : E -> bool) l k :
  Exists (fun e => key e = k) (List.filter P l)
  <-> exists e, In e l /\ P e = true /\ key e = k.
Proof.
  rewrite List.Exists_exists. split.
  - intros (e & He & Hk). apply List.filter_In in He as [He HP]. eauto.
  - intros (e & He & HP & Hk). exists e. split; [|exact Hk].
    apply List.filter_In. auto.
Qed.

Lemma foldl_tallyObject_empty_iff {E} (key : E -> string) (val : E -> number) l :
  foldl (tallyObject key val) ∅ l = ∅
  <-> Forall (fun e => key e = "__proto__"%string) l.
Proof.
  split.
  - intros H. apply Forall_forall. intros e He.
    destruct (String.eqb_spec (key e) "__proto__") as [Hk|Hk]; [exact Hk|exfalso].
    destruct (proj2 (foldl_tallyObject_is_Some key val l ∅ (key e)) Hk) as [v Hv].
    { right. apply List.Exists_exists. exists e.
      split; [apply list_elem_of_In, He|reflexivity]. }
    rewrite H, lookup_empty in Hv. discriminate Hv.
  - intros H. apply map_eq. intros k. rewrite lookup_empty.
    destruct (foldl (tallyObject key val) ∅ l !! k) as [v|] eqn:E1; [exfalso|reflexivity].
    destruct (proj1 (foldl_tallyObject_is_Some key val l ∅ k)) as [[x Hx]|Hx].
    + rewrite E1. eauto.
    + rewrite lookup_empty in Hx. discriminate Hx.
    + apply List.Exists_exists in Hx as (e & He & Hk).
      rewrite Forall_forall in H. apply list_elem_of_In, H in He.
      rewrite Hk in He. subst k.
      rewrite foldl_tallyObject_proto in E1 by apply lookup_empty. discriminate E1.
Qed.

Lemma foldl_tallyObject_keys {E} (key : E -> string) (val : E -> number) l k :
  k <> "__proto__"%string ->
  is_Some (foldl (tallyObject key val) ∅ l !! k)
  <-> exists e, In e l /\ key e = k.
Proof.
  intros Hk. destruct (foldl_tallyObject_is_Some key val l ∅ k) as [H1 H2].
  rewrite <- List.Exists_exists. split.
  - intros H. destruct (H1 H) as [[x Hx]|Hx]; [|exact Hx].
    rewrite lookup_empty in Hx. discriminate Hx.
  - intros H. apply H2; [exact Hk|]. right. exact H.
Qed.

(** X12. The totals of a date have a property for each tag carried by an
    entry of that date, whatever the durations, and for no other name: a
    tag without entry that day is absent (not present with 0).  The tag
    [__proto__] is the exception: it never becomes a property, so the
    totals are the empty object exactly when the entries of the day, if
    any, all carry that tag.  The same holds for the category names of the
    Supabase variant. *)
Theorem totals_keys entries (rows : list Supabase.entry) d :
  ((forall tag,
      tag <> "__proto__"%string ->
      is_Some (App.getTotalsByTag entries d !! tag)
      <-> exists e, In e entries /\ App.date e = d /\ App.tag e = tag)
   /\ App.getTotalsByTag entries d !! "__proto__"%string = None
   /\ (App.getTotalsByTag entries d = ∅
       <-> Forall (fun e => App.tag e = "__proto__"%string)
             (App.getEntriesForDate entries d)))
  /\ exists totals dayRows,
       Supabase.getTotalsByCategory rows d = Normal totals
       /\ Supabase.getEntriesForDate rows d = Normal dayRows
       /\ (forall category,
             category <> "__proto__"%string ->
             is_Some (totals !! category)
             <-> exists e, In e dayRows /\ Supabase.categoryName e = category)
       /\ totals !! "__proto__"%string = None
       /\ (totals = ∅
           <-> Forall (fun e => Supabase.categoryName e = "__proto__"%string) dayRows).
Proof.
  split; [split; [|split]|].
  - intros tag Htag.
    rewrite App_getTotalsByTag_tally, foldl_tallyObject_keys by exact Htag.
    unfold App.getEntriesForDate. split.
    + intros (e & He & Ht). apply List.filter_In in He as [He Hd].
      apply String.eqb_eq in Hd. eauto.
    + intros (e & He & Hd & Ht). exists e. split; [|exact Ht].
      apply List.filter_In. split; [exact He|]. apply String.eqb_eq, Hd.
  - rewrite App_getTotalsByTag_tally. apply foldl_tallyObject_proto, lookup_empty.
  - rewrite App_getTotalsByTag_tally. apply foldl_tallyObject_empty_iff.
  - eexists. exists (List.filter (Supabase_onDate d) rows).
    split; [apply Supabase_getTotalsByCategory_normal|].
    split; [apply Supabase_getEntriesForDate_normal|]. split; [|split].
    + intros category Hc. apply foldl_tallyObject_keys, Hc.
    + apply foldl_tallyObject_proto, lookup_empty.
    + apply foldl_tallyObject_empty_iff.
Qed.

(** A day whose one entry is tagged [__proto__] has the empty object for
    its totals. *)
Example totals_keys_proto :
  App.getTotalsByTag
    [ {| App.id := 1; App.date := "2024-01-01"; App.start := "09:00";
         App.end_ := "10:00"; App.duration := Num 60;
         App.description := "x"; App.tag := "__proto__" |} ] "2024-01-01" = ∅.
Proof. reflexivity. Qed.

(** X13. [getWeeklyAverages] never raises, and a tag other than
    [__proto__] has a weekly average exactly when an entry dated in the
    window carries it, whatever the durations: what was logged outside the
    last seven days does not show.  [__proto__] has none. *)
Theorem getWeeklyAverages_keys env entries :
  exists days averages,
    last7Days env = Normal days
    /\ App.getWeeklyAverages env entries = Normal averages
    /\ (forall tag,
          tag <> "__proto__"%string ->
          is_Some (averages !! tag)
          <-> exists e, In e entries /\ App.tag e = tag /\ In (App.date e) days)
    /\ averages !! "__proto__"%string = None.
Proof.
  destruct (weeklyAverages_normal
              (fun d => Normal (App.getTotalsByTag entries d))
              (App.getTotalsByTag entries) (fun d => eq_refl) env)
    as (days & averages & Hdays & _ & Hav).
  exists days, averages. split; [exact Hdays|]. split; [exact Hav|].
  split.
  - intros tag Htag.
    destruct (weeklyAverages_is_Some
                (fun d => Normal (App.getTotalsByTag entries d))
                (App.getTotalsByTag entries) (fun d => eq_refl)
                env days averages tag Hdays Hav) as [Hiff _].
    rewrite (Hiff Htag), List.Exists_exists. split.
    + intros (d & Hd & Hs).
      rewrite App_getTotalsByTag_tally, foldl_tallyObject_keys in Hs by exact Htag.
      destruct Hs as (e & He & Ht). unfold App.getEntriesForDate in He.
      apply List.filter_In in He as [He Hde]. apply String.eqb_eq in Hde.
      exists e. rewrite Hde. auto.
    + intros (e & He & Ht & Hd). exists (App.date e). split; [exact Hd|].
      rewrite App_getTotalsByTag_tally, foldl_tallyObject_keys by exact Htag.
      exists e. split; [|exact Ht]. unfold App.getEntriesForDate.
      apply List.filter_In. split; [exact He|]. apply String.eqb_refl.
  - exact (proj2 (weeklyAverages_is_Some
                (fun d => Normal (App.getTotalsByTag entries d))
                (App.getTotalsByTag entries) (fun d => eq_refl)
                env days averages "__proto__" Hdays Hav)).
Qed.

Lemma round_div_le z d b : 0 < d -> z <= b * d -> round_div z d <= b.
Proof.
  intros Hd Hz. unfold round_div. apply Z.lt_succ_r.
  apply Z.div_lt_upper_bound; lia.
Qed.

(** X14. For a date of the years -271820 to 275759 and two times in the
    format, in a zone without transitions, a duration lies between 0 and
    1440 minutes. *)
Theorem calculateDuration_range env off date start end_ y m d s e :
  fixed_offset (zone env) off ->
  parseDatePart date = Some (y, m, d, EmptyString) ->
  -271820 <= y <= 275759 ->
  parseTimePart start = Some (s, None) ->
  parseTimePart end_ = Some (e, None) ->
  exists minutes,
    App.calculateDuration env date start end_ = Normal (Num minutes)
    /\ 0 <= minutes <= 1440.
Proof.
  intros Hz Hd Hy Hs He. eexists. split.
  - exact (calculateDuration_fixed _ _ _ _ _ _ _ _ _ _ Hz Hd Hy Hs He).
  - apply parseTimePart_inv in Hs as [_ Hs], He as [_ He]. unfold msPerDay in *.
    split.
    + apply round_div_nonneg; [lia|]. destruct (Z.ltb_spec e s); lia.
    + apply round_div_le; [lia|]. destruct (Z.ltb_spec e s); lia.
Qed.

Lemma calculateDuration_range_witness :
  exists minutes,
    App.calculateDuration sampleEnv "2024-01-01" "00:00" "24:00" = Normal (Num minutes)
    /\ 0 <= minutes <= 1440.
Proof.
  apply (calculateDuration_range sampleEnv 0 "2024-01-01" "00:00" "24:00"
           2024 1 1 0 86400000).
  - split; reflexivity.
  - reflexivity.
  - lia.
  - reflexivity.
  - reflexivity.
Defined.

(** X15. Swapping the start and the end of an entry gives the rest of the
    day: for a date of the years -271820 to 275759, in a zone without
    transitions, and two different times on whole minutes, the duration
    from the first to the second and the duration from the second to the
    first add up to 1440 minutes. *)
Theorem calculateDuration_swap env off date start end_ y m d a b :
  fixed_offset (zone env) off ->
  parseDatePart date = Some (y, m, d, EmptyString) ->
  -271820 <= y <= 275759 ->
  parseTimePart start = Some (a * msPerMinute, None) ->
  parseTimePart end_ = Some (b * msPerMinute, None) ->
  a <> b ->
  exists there back,
    App.calculateDuration env date start end_ = Normal (Num there)
    /\ App.calculateDuration env date end_ start = Normal (Num back)
    /\ there + back = 1440.
Proof.
  intros Hz Hd Hy Hs He Hab. eexists. eexists.
  split; [exact (calculateDuration_fixed _ _ _ _ _ _ _ _ _ _ Hz Hd Hy Hs He)|].
  split; [exact (calculateDuration_fixed _ _ _ _ _ _ _ _ _ _ Hz Hd Hy He Hs)|].
  unfold msPerMinute, msPerDay.
  destruct (Z.ltb_spec (b * 60000) (a * 60000)),
    (Z.ltb_spec (a * 60000) (b * 60000)); try lia.
  - replace (b * 60000 + 86400000 - a * 60000) with ((b + 1440 - a) * msPerMinute)
      by (unfold msPerMinute; lia).
    replace (a * 60000 - b * 60000) with ((a - b) * msPerMinute)
      by (unfold msPerMinute; lia).
    rewrite !round_div_minutes. lia.
  - replace (a * 60000 + 86400000 - b * 60000) with ((a + 1440 - b) * msPerMinute)
      by (unfold msPerMinute; lia).
    replace (b * 60000 - a * 60000) with ((b - a) * msPerMinute)
      by (unfold msPerMinute; lia).
    rewrite !round_div_minutes. lia.
Qed.

Lemma calculateDuration_swap_witness :
  exists there back,
    App.calculateDuration sampleEnv "2024-01-01" "23:30" "00:15" = Normal (Num there)
    /\ App.calculateDuration sampleEnv "2024-01-01" "00:15" "23:30" = Normal (Num back)
    /\ there + back = 1440.
Proof.
  apply (calculateDuration_swap sampleEnv 0 "2024-01-01" "23:30" "00:15"
           2024 1 1 1410 15).
  - split; reflexivity.
  - reflexivity.
  - lia.
  - reflexivity.
  - reflexivity.
  - discriminate.
Defined.

(** ** Splitting, joining and trimming *)






















(** ** [parseInt] reads back what [String] writes *)





(** ** Export and import *)












(** ** Adding an entry in the Supabase variant *)

Lemma pad_2 v :
  pad 2 v = String (digit_char ((v / 10) mod 10))
              (String (digit_char (v mod 10)) EmptyString).
Proof. reflexivity. Qed.

Lemma N_of_digit_char d : 0 <= d <= 9 -> N_of_ascii (digit_char d) = Z.to_N (48 + d).
Proof.
  intros Hd. unfold digit_char. apply N_ascii_embedding. lia.
Qed.

Lemma String_lt_digit a b s t :
  0 <= a <= 9 -> 0 <= b <= 9 ->
  Text.String_lt (String (digit_char a) s) (String (digit_char b) t)
  = if a =? b then Text.String_lt s t else a <? b.
Proof.
  intros Ha Hb.
  change (Text.String_lt (String (digit_char a) s) (String (digit_char b) t))
    with (if Ascii.eqb (digit_char a) (digit_char b) then Text.String_lt s t
          else (N_of_ascii (digit_char a) <? N_of_ascii (digit_char b))%N).
  rewrite !N_of_digit_char by assumption.
  destruct (Z.eqb_spec a b) as [->|Hne].
  - rewrite Ascii.eqb_refl. reflexivity.
  - destruct (Ascii.eqb_spec (digit_char a) (digit_char b)) as [E|_].
    + apply (f_equal N_of_ascii) in E. rewrite !N_of_digit_char in E by assumption.
      lia.
    + destruct (N.ltb_spec (Z.to_N (48 + a)) (Z.to_N (48 + b))),
               (Z.ltb_spec a b); try reflexivity; lia.
Qed.

(** On times written [HH:MM] the order of the texts is the order of the
    minutes of the day. *)
Lemma String_lt_hhmm h1 m1 h2 m2 :
  0 <= h1 <= 23 -> 0 <= m1 <= 59 -> 0 <= h2 <= 23 -> 0 <= m2 <= 59 ->
  Text.String_lt (pad 2 h2 +:+ ":" +:+ pad 2 m2) (pad 2 h1 +:+ ":" +:+ pad 2 m1)
  = (60 * h2 + m2 <? 60 * h1 + m1).
Proof.
  intros Hh1 Hm1 Hh2 Hm2. rewrite !pad_2.
  change (Text.String_lt
            (String (digit_char ((h2 / 10) mod 10))
               (String (digit_char (h2 mod 10))
                  (String ":" (String (digit_char ((m2 / 10) mod 10))
                     (String (digit_char (m2 mod 10)) EmptyString)))))
            (String (digit_char ((h1 / 10) mod 10))
               (String (digit_char (h1 mod 10))
                  (String ":" (String (digit_char ((m1 / 10) mod 10))
                     (String (digit_char (m1 mod 10)) EmptyString)))))
          = (60 * h2 + m2 <? 60 * h1 + m1)).
  rewrite String_lt_digit by (Z.to_euclidean_division_equations; lia).
  rewrite (String_lt_digit (h2 mod 10)) by (Z.to_euclidean_division_equations; lia).
  change (Text.String_lt (String ":" ?a) (String ":" ?b)) with (Text.String_lt a b).
  rewrite String_lt_digit by (Z.to_euclidean_division_equations; lia).
  rewrite (String_lt_digit (m2 mod 10)) by (Z.to_euclidean_division_equations; lia).
  change (Text.String_lt EmptyString EmptyString) with false.
  destruct (Z.eqb_spec ((h2 / 10) mod 10) ((h1 / 10) mod 10)),
           (Z.eqb_spec (h2 mod 10) (h1 mod 10)),
           (Z.eqb_spec ((m2 / 10) mod 10) ((m1 / 10) mod 10)),
           (Z.eqb_spec (m2 mod 10) (m1 mod 10)),
           (Z.ltb_spec ((h2 / 10) mod 10) ((h1 / 10) mod 10)),
           (Z.ltb_spec (h2 mod 10) (h1 mod 10)),
           (Z.ltb_spec ((m2 / 10) mod 10) ((m1 / 10) mod 10)),
           (Z.ltb_spec (m2 mod 10) (m1 mod 10)),
           (Z.ltb_spec (60 * h2 + m2) (60 * h1 + m1));
    try reflexivity; exfalso; Z.to_euclidean_division_equations; lia.
Qed.

Lemma hhmm_not_empty h m : App.empty (pad 2 h +:+ ":" +:+ pad 2 m) = false.
Proof. rewrite pad_2. reflexivity. Qed.

Lemma minutes_mod a b :
  0 <= a < 1440 -> 0 <= b < 1440 ->
  round_div ((if b * msPerMinute <? a * msPerMinute
              then b * msPerMinute + msPerDay else b * msPerMinute)
             - a * msPerMinute) 60000
  = (b - a) mod 1440.
Proof.
  intros Ha Hb.
  destruct (Z.ltb_spec (b * msPerMinute) (a * msPerMinute)) as [Hlt|Hge].
  - replace (b * msPerMinute + msPerDay - a * msPerMinute)
      with ((b + 1440 - a) * msPerMinute) by (unfold msPerMinute, msPerDay; lia).
    rewrite round_div_minutes. unfold msPerMinute in Hlt.
    apply Z.mod_unique with (q := -1); lia.
  - replace (b * msPerMinute - a * msPerMinute) with ((b - a) * msPerMinute) by lia.
    rewrite round_div_minutes. unfold msPerMinute in Hge.
    symmetry. apply Z.mod_small. lia.
Qed.

(** The request of the Supabase variant when [Date] reads both texts as
    times of the day [day], well inside its range. *)
Lemma Supabase_addEntry_request
    env off date day h1 m1 h2 m2 description selectedCategory :
  fixed_offset (zone env) off ->
  0 <= h1 <= 23 -> 0 <= m1 <= 59 -> 0 <= h2 <= 23 -> 0 <= m2 <= 59 ->
  App.empty description = false ->
  App.empty selectedCategory = false ->
  forall t1 t2,
  t1 = day * msPerDay + (60 * h1 + m1) * msPerMinute - off ->
  t2 = day * msPerDay + (60 * h2 + m2) * msPerMinute - off ->
  Z.abs t2 <= maxTime - 250 * msPerDay ->
  Date_parse (zone env) (date +:+ "T" +:+ (pad 2 h1 +:+ ":" +:+ pad 2 m1)) = Num t1 ->
  Date_parse (zone env) (date +:+ "T" +:+ (pad 2 h2 +:+ ":" +:+ pad 2 m2)) = Num t2 ->
  Supabase2.addEntry env date (pad 2 h1 +:+ ":" +:+ pad 2 m1)
    (pad 2 h2 +:+ ":" +:+ pad 2 m2) description selectedCategory
  = Supabase2.CreateTimeEntry selectedCategory description
      (isoString t1)
      (isoString (t1 + ((60 * h2 + m2 - (60 * h1 + m1)) mod 1440) * msPerMinute)).
Proof.
  intros Hz Hh1 Hm1 Hh2 Hm2 Hdesc Hcat t1 t2 Ht1 Ht2 Hb H1 H2.
  unfold Supabase2.addEntry.
  rewrite !hhmm_not_empty, Hdesc, Hcat.
  change (false || false || false || false) with false. cbv iota.
  unfold App.Date_new. rewrite H1, H2.
  rewrite (String_lt_hhmm h1 m1 h2 m2 Hh1 Hm1 Hh2 Hm2).
  rewrite (setDate_getDate_shift (zone env) off) by exact Hz.
  rewrite TimeClip_in by (unfold maxTime, msPerDay in *; lia).
  unfold Date_toISOString, bind. fold (isoString t1).
  destruct (Z.ltb_spec (60 * h2 + m2) (60 * h1 + m1)) as [Hlt|Hge].
  - fold (isoString (t2 + 1 * msPerDay)).
    do 2 f_equal.
    rewrite <- (Z.mod_unique (60 * h2 + m2 - (60 * h1 + m1)) 1440 (-1)
                  (60 * h2 + m2 - (60 * h1 + m1) + 1440)) by lia.
    unfold msPerDay, msPerMinute in *. lia.
  - fold (isoString t2).
    do 2 f_equal. rewrite Z.mod_small by lia. lia.
Qed.

(** X18. The Supabase variant decides on the overnight case by comparing
    the two texts, [endTime < startTime]; for times written [HH:MM] this
    agrees with the comparison of dates in [calculateDuration]: for a date
    of the years -271820 to 275759, in a zone without transitions, the
    request carries the start and, as the end, the instant that many
    minutes later that [calculateDuration] returns for the same form,
    between 0 and 1439. *)
Theorem Supabase_addEntry_overnight
    env off date y m d h1 m1 h2 m2 description selectedCategory :
  fixed_offset (zone env) off ->
  parseDatePart date = Some (y, m, d, EmptyString) ->
  -271820 <= y <= 275759 ->
  0 <= h1 <= 23 -> 0 <= m1 <= 59 -> 0 <= h2 <= 23 -> 0 <= m2 <= 59 ->
  App.empty description = false ->
  App.empty selectedCategory = false ->
  let startTime := pad 2 h1 +:+ ":" +:+ pad 2 m1 in
  let endTime := pad 2 h2 +:+ ":" +:+ pad 2 m2 in
  let day := MakeDay y (m - 1) d in
  let t := day * msPerDay + (60 * h1 + m1) * msPerMinute - off in
  let minutes := (60 * h2 + m2 - (60 * h1 + m1)) mod 1440 in
  Supabase2.addEntry env date startTime endTime description selectedCategory
  = Supabase2.CreateTimeEntry selectedCategory description
      (isoString t) (isoString (t + minutes * msPerMinute))
  /\ App.calculateDuration env date startTime endTime = Normal (Num minutes)
  /\ 0 <= minutes < 1440.
Proof.
  intros Hz Hd Hy Hh1 Hm1 Hh2 Hm2 Hdesc Hcat.
  pose proof (parseTimePart_hhmm h1 m1 Hh1 Hm1) as Hs.
  pose proof (parseTimePart_hhmm h2 m2 Hh2 Hm2) as He.
  replace (h1 * msPerHour + m1 * msPerMinute) with ((60 * h1 + m1) * msPerMinute)
    in Hs by (unfold msPerHour, msPerMinute; lia).
  replace (h2 * msPerHour + m2 * msPerMinute) with ((60 * h2 + m2) * msPerMinute)
    in He by (unfold msPerHour, msPerMinute; lia).
  destruct (Date_parse_years (zone env) _ _ _ _ _ _ _ Hd Hy Hs) as [H1 _].
  destruct (Date_parse_years (zone env) _ _ _ _ _ _ _ Hd Hy He) as [H2 Hb].
  pose proof (calculateDuration_fixed env off _ _ _ _ _ _ _ _ Hz Hd Hy Hs He) as Hcalc.
  rewrite minutes_mod in Hcalc by lia.
  unfold instant, UTC, MakeDate in H1, H2, Hb.
  rewrite !(proj2 Hz) in H1, H2, Hb.
  generalize dependent (MakeDay y (m - 1) d). intros day H1 H2 Hb.
  cbv zeta. split; [|split; [exact Hcalc|apply Z.mod_pos_bound; lia]].
  exact (Supabase_addEntry_request env off date day h1 m1 h2 m2 description
           selectedCategory Hz Hh1 Hm1 Hh2 Hm2 Hdesc Hcat _ _ eq_refl eq_refl Hb H1 H2).
Qed.

Lemma Supabase_addEntry_overnight_witness :
  Supabase2.addEntry sampleEnv "2024-03-14" "23:30" "00:15" "sleep" "p1"
  = Supabase2.CreateTimeEntry "p1" "sleep"
      "2024-03-14T23:30:00.000Z" "2024-03-15T00:15:00.000Z"
  /\ App.calculateDuration sampleEnv "2024-03-14" "23:30" "00:15" = Normal (Num 45)
  /\ 0 <= 45 < 1440.
Proof.
  apply (Supabase_addEntry_overnight sampleEnv 0 "2024-03-14" 2024 3 14 23 30 0 15
           "sleep" "p1").
  - split; reflexivity.
  - reflexivity.
  - lia.
  - lia.
  - lia.
  - lia.
  - lia.
  - reflexivity.
  - reflexivity.
Defined.

(** X19. A request is sent exactly when the four fields are filled,
    [Date] reads both [`${selectedDate}T${startTime}`] and
    [`${selectedDate}T${endTime}`] and, where the text of the end is below
    the text of the start, the end moved to the next day is still a time
    value of [Date]: with an empty field the form alerts, and otherwise
    the [RangeError] of [toISOString] is caught and shown, so that no
    request carries an invalid time; this holds in every zone. *)
Theorem Supabase_addEntry_sends
    env selectedDate startTime endTime description selectedCategory :
  let filled :=
    negb (App.empty startTime || App.empty endTime || App.empty description
          || App.empty selectedCategory) in
  let startDate := App.Date_new env (selectedDate +:+ "T" +:+ startTime) in
  let endDate := App.Date_new env (selectedDate +:+ "T" +:+ endTime) in
  let nextDay :=
    Date_setDate (zone env) endDate
      (num_add (Date_getDate (zone env) endDate) (Num 1)) in
  let overnight := Text.String_lt endTime startTime in
  let r := Supabase2.addEntry env selectedDate startTime endTime description
             selectedCategory in
  (filled = false -> r = Supabase2.Alert)
  /\ (filled = true ->
      startDate = NaN \/ endDate = NaN \/ (overnight = true /\ nextDay = NaN) ->
      r = Supabase2.SetError "RangeError: Invalid time value")
  /\ (filled = true -> is_num startDate -> is_num endDate ->
      (overnight = true -> is_num nextDay) ->
      exists s e,
        Date_toISOString startDate = Normal s
        /\ Date_toISOString (if overnight then nextDay else endDate) = Normal e
        /\ r = Supabase2.CreateTimeEntry selectedCategory description s e)
  /\ ((exists c d s e, r = Supabase2.CreateTimeEntry c d s e) ->
      filled = true /\ is_num startDate /\ is_num endDate
      /\ (overnight = true -> is_num nextDay)).
Proof.
  intros filled startDate endDate nextDay overnight r.
  unfold r, Supabase2.addEntry. fold startDate endDate nextDay overnight.
  unfold filled.
  destruct (App.empty startTime || App.empty endTime || App.empty description
            || App.empty selectedCategory).
  { change (negb true) with false.
    split; [reflexivity|]. split; [discriminate|]. split; [discriminate|].
    intros (c & d & s & e & H). discriminate H. }
  change (negb false) with true.
  split; [discriminate|].
  destruct startDate as [a|]; [destruct endDate as [b|]|].
  - destruct overnight; [destruct nextDay as [n|]|].
    + split; [intros _ [H|[H|[_ H]]]; discriminate H|].
      split; [|intros _; repeat split].
      intros _ _ _ _. eexists. eexists. repeat split.
    + split; [reflexivity|]. split; [intros _ _ _ H; destruct (H eq_refl)|].
      intros (c & d & s & e & H). discriminate H.
    + split; [intros _ [H|[H|[H _]]]; discriminate H|].
      split; [|intros _; repeat split; discriminate].
      intros _ _ _ _. eexists. eexists. repeat split.
  - split; [reflexivity|]. split; [intros _ _ []|].
    intros (c & d & s & e & H). discriminate H.
  - split; [reflexivity|]. split; [intros _ []|].
    intros (c & d & s & e & H). discriminate H.
Qed.

(** On the last day [Date] reaches, an end after midnight cannot be moved
    to the next day: both dates are read, and nothing is sent. *)
Example Supabase_addEntry_last_day :
  is_num (App.Date_new sampleEnv "+275760-09-12T23:00")
  /\ is_num (App.Date_new sampleEnv "+275760-09-12T01:00")
  /\ Supabase2.addEntry sampleEnv "+275760-09-12" "23:00" "01:00" "sleep" "p1"
     = Supabase2.SetError "RangeError: Invalid time value".
Proof. vm_compute. repeat split. Qed.

(** X20. When the created row comes back, the rows are stored ordered by
    [start_time], whatever their order before; the list holds the old rows
    and the new one, and if the old rows were ordered they keep their
    places, the new row standing behind those that start at the same
    instant or earlier. *)
Theorem addCreated_sorted entries created others :
  let r := Supabase2.addCreated entries (created :: others) in
  StronglySorted (fun a b => Supabase.start_time a <= Supabase.start_time b) r
  /\ Permutation r (entries ++ [created])
  /\ (StronglySorted (fun a b => Supabase.start_time a <= Supabase.start_time b)
        entries ->
      exists before after,
        entries = before ++ after
        /\ r = before ++ created :: after
        /\ Forall (fun e => Supabase.start_time e <= Supabase.start_time created)
             before
        /\ Forall (fun e => Supabase.start_time created < Supabase.start_time e)
             after).
Proof.
  intros r. unfold r, Supabase2.addCreated.
  split; [|split].
  - apply (Array_sort_sorted Supabase.start_time). reflexivity.
  - apply Array_sort_Permutation.
  - intros Hsorted. rewrite Array_sort_snoc.
    destruct (foldr_sort_insert_position Supabase.start_time Supabase2.byStartTime
                created entries Hsorted) as (l1 & l2 & H1 & H2 & H3 & H4).
    + reflexivity.
    + exists l1, l2. repeat split; assumption.
Qed.

(** ** The time format of the REST variant *)

Lemma inRange_digit_char lo hi d :
  0 <= lo <= 9 -> 0 <= hi <= 9 -> 0 <= d <= 9 ->
  Rest.inRange (digit_char lo) (digit_char hi) (digit_char d)
  = (lo <=? d) && (d <=? hi).
Proof.
  intros Hlo Hhi Hd. unfold Rest.inRange.
  rewrite !N_of_digit_char by assumption.
  destruct (Z.leb_spec lo d), (Z.leb_spec d hi),
           (N.leb_spec (Z.to_N (48 + lo)) (Z.to_N (48 + d))),
           (N.leb_spec (Z.to_N (48 + d)) (Z.to_N (48 + hi)));
    try reflexivity; lia.
Qed.

Lemma inRange_digit_true lo hi d :
  0 <= lo -> hi <= 9 -> lo <= d <= hi ->
  Rest.inRange (digit_char lo) (digit_char hi) (digit_char d) = true.
Proof.
  intros Hlo Hhi Hd. rewrite inRange_digit_char by lia.
  destruct (Z.leb_spec lo d), (Z.leb_spec d hi); try reflexivity; lia.
Qed.

Lemma inRange_inv lo hi c :
  0 <= lo <= 9 -> 0 <= hi <= 9 ->
  Rest.inRange (digit_char lo) (digit_char hi) c = true ->
  exists d, lo <= d <= hi /\ c = digit_char d.
Proof.
  intros Hlo Hhi H. unfold Rest.inRange in H.
  rewrite !N_of_digit_char in H by assumption.
  apply andb_prop in H as [H1 H2]. apply N.leb_le in H1, H2.
  exists (Z.of_N (N_of_ascii c) - 48). split; [lia|].
  unfold digit_char.
  replace (Z.to_N (48 + (Z.of_N (N_of_ascii c) - 48))) with (N_of_ascii c) by lia.
  symmetry. apply ascii_N_embedding.
Qed.

Lemma pretty_one_digit h : 0 <= h <= 9 -> pretty h = String (digit_char h) EmptyString.
Proof.
  intros Hh. rewrite <- (Z2Nat.id h) by lia.
  remember (Z.to_nat h) as k eqn:Hk.
  do 10 (destruct k as [|k]; [reflexivity|]). lia.
Qed.

Lemma pretty_two_digits d :
  0 <= d <= 2 -> pretty (10 + d) = String "1" (String (digit_char d) EmptyString).
Proof.
  intros Hd. rewrite <- (Z2Nat.id d) by lia.
  remember (Z.to_nat d) as k eqn:Hk.
  do 3 (destruct k as [|k]; [reflexivity|]). lia.
Qed.

Lemma pad_2_digits a b :
  0 <= a <= 9 -> 0 <= b <= 9 ->
  pad 2 (10 * a + b) = String (digit_char a) (String (digit_char b) EmptyString).
Proof.
  intros Ha Hb. rewrite pad_2.
  replace (((10 * a + b) / 10) mod 10) with a
    by (Z.to_euclidean_division_equations; lia).
  replace ((10 * a + b) mod 10) with b by (Z.to_euclidean_division_equations; lia).
  reflexivity.
Qed.

Lemma pad_2_small d :
  0 <= d <= 9 -> pad 2 d = String "0" (String (digit_char d) EmptyString).
Proof.
  intros Hd. rewrite pad_2.
  replace ((d / 10) mod 10) with 0 by (Z.to_euclidean_division_equations; lia).
  replace (d mod 10) with d by (Z.to_euclidean_division_equations; lia).
  reflexivity.
Qed.

Lemma afterHour_inv t r :
  In r (Rest.afterHour t) ->
  (exists b, t = String "1" (String b r) /\ Rest.inRange "0" "2" b = true)
  \/ (exists b, t = String "0" (String b r) /\ Rest.inRange "1" "9" b = true)
  \/ (exists a, t = String a r /\ Rest.inRange "1" "9" a = true).
Proof.
  unfold Rest.afterHour. intros H.
  apply in_app_or in H as [H|H]; [|apply in_app_or in H as [H|H]].
  - left. destruct t as [|a [|b q]]; try contradiction.
    destruct (Ascii.eqb_spec a "1") as [->|]; [|contradiction].
    destruct (Rest.inRange "0" "2" b) eqn:E; [|contradiction].
    destruct H as [<-|[]]. exists b. split; [reflexivity|exact E].
  - right. left. destruct t as [|a [|b q]]; try contradiction.
    destruct (Ascii.eqb_spec a "0") as [->|]; [|contradiction].
    destruct (Rest.inRange "1" "9" b) eqn:E; [|contradiction].
    destruct H as [<-|[]]. exists b. split; [reflexivity|exact E].
  - right. right. destruct t as [|a q]; [contradiction|].
    destruct (Rest.inRange "1" "9" a) eqn:E; [|contradiction].
    destruct H as [<-|[]]. exists a. split; [reflexivity|exact E].
Qed.

Lemma afterHour_one a r :
  Rest.inRange "1" "9" a = true -> In r (Rest.afterHour (String a r)).
Proof.
  intros H. unfold Rest.afterHour.
  apply in_or_app. right. apply in_or_app. right.
  rewrite H. left. reflexivity.
Qed.

Lemma afterHour_two a b r :
  (Ascii.eqb a "1" && Rest.inRange "0" "2" b = true)
  \/ (Ascii.eqb a "0" && Rest.inRange "1" "9" b = true) ->
  In r (Rest.afterHour (String a (String b r))).
Proof.
  intros [H|H]; unfold Rest.afterHour.
  - apply in_or_app. left. rewrite H. left. reflexivity.
  - apply in_or_app. right. apply in_or_app. left. rewrite H. left. reflexivity.
Qed.

Lemma meridiem_inv s :
  Rest.meridiem s = true <->
  In s ["AM"; "Am"; "aM"; "am"; "PM"; "Pm"; "pM"; "pm"]%string.
Proof.
  split.
  - destruct s as [|a [|m [|x q]]]; try discriminate.
    unfold Rest.meridiem.
    destruct (Ascii.eqb_spec a "A"), (Ascii.eqb_spec a "a"),
             (Ascii.eqb_spec a "P"), (Ascii.eqb_spec a "p"),
             (Ascii.eqb_spec m "M"), (Ascii.eqb_spec m "m");
      try discriminate; intros _; subst; simpl; tauto.
  - intros H. repeat (destruct H as [<-|H]; [reflexivity|]). destruct H.
Qed.

Lemma afterColon_iff r :
  Rest.afterColon r = true <->
  exists m gap half,
    0 <= m <= 59
    /\ (gap = EmptyString
        \/ exists w, Rest.isSpace w = true /\ gap = String w EmptyString)
    /\ In half ["AM"; "Am"; "aM"; "am"; "PM"; "Pm"; "pM"; "pm"]%string
    /\ r = String ":" (pad 2 m +:+ gap +:+ half).
Proof.
  split.
  - destruct r as [|c [|a [|b q]]]; try discriminate.
    change (Rest.afterColon (String c (String a (String b q))))
      with (Ascii.eqb c ":" && Rest.inRange "0" "5" a && Rest.inRange "0" "9" b
            && (Rest.meridiem q
                || match q with
                   | String w r' => Rest.isSpace w && Rest.meridiem r'
                   | EmptyString => false
                   end)).
    intros H. apply andb_prop in H as [H Hq]. apply andb_prop in H as [H Hb].
    apply andb_prop in H as [Hc Ha]. apply Ascii.eqb_eq in Hc as ->.
    apply (inRange_inv 0 5) in Ha as (d1 & Hd1 & ->); [|lia..].
    apply (inRange_inv 0 9) in Hb as (d2 & Hd2 & ->); [|lia..].
    exists (10 * d1 + d2).
    apply orb_prop in Hq as [Hq|Hq].
    + exists EmptyString, q. split; [lia|]. split; [left; reflexivity|].
      split; [apply meridiem_inv; exact Hq|].
      rewrite pad_2_digits by lia. reflexivity.
    + destruct q as [|w q]; [discriminate|].
      apply andb_prop in Hq as [Hw Hq].
      exists (String w EmptyString), q. split; [lia|].
      split; [right; exists w; split; [exact Hw|reflexivity]|].
      split; [apply meridiem_inv; exact Hq|].
      rewrite pad_2_digits by lia. reflexivity.
  - intros (m & gap & half & Hm & Hgap & Hhalf & ->).
    replace m with (10 * (m / 10) + m mod 10) by (Z.to_euclidean_division_equations; lia).
    rewrite pad_2_digits by (Z.to_euclidean_division_equations; lia).
    apply meridiem_inv in Hhalf.
    change (String (digit_char (m / 10)) (String (digit_char (m mod 10)) EmptyString)
            +:+ gap +:+ half)
      with (String (digit_char (m / 10))
              (String (digit_char (m mod 10)) (gap +:+ half))).
    change (Rest.afterColon
              (String ":" (String (digit_char (m / 10))
                 (String (digit_char (m mod 10)) (gap +:+ half)))))
      with (Ascii.eqb ":" ":" && Rest.inRange (digit_char 0) (digit_char 5) (digit_char (m / 10))
            && Rest.inRange (digit_char 0) (digit_char 9) (digit_char (m mod 10))
            && (Rest.meridiem (gap +:+ half)
                || match gap +:+ half with
                   | String w r' => Rest.isSpace w && Rest.meridiem r'
                   | EmptyString => false
                   end)).
    rewrite (inRange_digit_char 0 5 (m / 10))
      by (Z.to_euclidean_division_equations; lia).
    rewrite (inRange_digit_char 0 9 (m mod 10))
      by (Z.to_euclidean_division_equations; lia).
    destruct (Z.leb_spec 0 (m / 10)); [|Z.to_euclidean_division_equations; lia].
    destruct (Z.leb_spec (m / 10) 5); [|Z.to_euclidean_division_equations; lia].
    destruct (Z.leb_spec 0 (m mod 10)); [|Z.to_euclidean_division_equations; lia].
    destruct (Z.leb_spec (m mod 10) 9); [|Z.to_euclidean_division_equations; lia].
    destruct Hgap as [->|(w & Hw & ->)].
    + change (EmptyString +:+ half) with half. rewrite Hhalf. reflexivity.
    + change (String w EmptyString +:+ half) with (String w half).
      cbv beta iota. rewrite Hw, Hhalf. apply orb_true_r.
Qed.

(** X21. The check of the form accepts exactly the times of the 12-hour
    clock: after [trim], an hour from 1 to 12 (below 10 with or without a
    leading zero), a colon, two digits of a minute up to 59, at most one
    white space, and AM or PM in capitals or small letters.  White space
    is what [\s] and [trim] take for it among the characters of a text
    here, those below U+0100: tab, line feed, vertical tab, form feed,
    carriage return, space and no-break space. *)
Theorem validateTimeFormat_exact timeStr :
  Rest.validateTimeFormat timeStr = true <-> twelveHourTime (Rest.trim timeStr).
Proof.
  unfold Rest.validateTimeFormat, twelveHourTime. rewrite existsb_exists.
  split.
  - intros (r & Hin & Hr).
    apply afterColon_iff in Hr as (m & gap & half & Hm & Hgap & Hhalf & ->).
    apply afterHour_inv in Hin as [(b & Ht & Hb)|[(b & Ht & Hb)|(a & Ht & Ha)]].
    + apply (inRange_inv 0 2) in Hb as (d & Hd & ->); [|lia..].
      exists (10 + d), m, (pretty (10 + d)), gap, half.
      split; [lia|]. split; [exact Hm|]. split; [left; reflexivity|].
      split; [exact Hgap|]. split; [exact Hhalf|].
      rewrite Ht, pretty_two_digits by lia. reflexivity.
    + apply (inRange_inv 1 9) in Hb as (d & Hd & ->); [|lia..].
      exists d, m, (pad 2 d), gap, half.
      split; [lia|]. split; [exact Hm|].
      split; [right; split; [lia|reflexivity]|].
      split; [exact Hgap|]. split; [exact Hhalf|].
      rewrite Ht, (pad_2_small d) by lia. reflexivity.
    + apply (inRange_inv 1 9) in Ha as (d & Hd & ->); [|lia..].
      exists d, m, (pretty d), gap, half.
      split; [lia|]. split; [exact Hm|]. split; [left; reflexivity|].
      split; [exact Hgap|]. split; [exact Hhalf|].
      rewrite Ht, pretty_one_digit by lia. reflexivity.
  - intros (h & m & hour & gap & half & Hh & Hm & Hhour & Hgap & Hhalf & ->).
    exists (String ":" (pad 2 m +:+ gap +:+ half)). split.
    + destruct Hhour as [->|[Hle ->]].
      * destruct (Z.le_gt_cases h 9) as [H9|H9].
        -- rewrite pretty_one_digit by lia. apply afterHour_one.
           exact (inRange_digit_true 1 9 h ltac:(lia) ltac:(lia) ltac:(lia)).
        -- replace h with (10 + (h - 10)) by lia.
           rewrite pretty_two_digits by lia. apply afterHour_two. left.
           exact (inRange_digit_true 0 2 (h - 10) ltac:(lia) ltac:(lia) ltac:(lia)).
      * rewrite (pad_2_small h) by lia. apply afterHour_two. right.
        exact (inRange_digit_true 1 9 h ltac:(lia) ltac:(lia) ltac:(lia)).
    + apply afterColon_iff. exists m, gap, half.
      split; [exact Hm|]. split; [exact Hgap|]. split; [exact Hhalf|reflexivity].
Qed.
